(** * dfuse-pack: the DfuSe container tool, embedded and verified

    A shallow embedding of [dfuse-pack.py]: the checksum, the [struct]
    layouts it packs and unpacks, the container writer [build], the
    container reader [parse], the suffix pre-flight [checkbin] and the
    command-line branches that ingest raw binaries and S-records.

    Conventions.
    - Python [bytes] are [list byte]; a Python [int] is a [Z].
    - Python [str] is [list ascii] (code points below 256).
    - What the script prints or writes is recorded as a list of [event]s;
      an uncaught exception or [sys.exit] ends the run with [Raise].
    - Bytes and little-endian fields come from coqutil ([byte.unsigned],
      [le_split], [le_combine]). *)

From Stdlib Require Import ZArith List Lia Bool Ascii String.
From coqutil Require Import Byte Word.LittleEndianList.
Import ListNotations.
Local Open Scope Z_scope.
Local Open Scope list_scope.

#[global] Arguments le_split : simpl never.
#[global] Arguments le_combine : simpl never.

Definition bytes := list byte.
Definition str := list ascii.

(** A string literal as a Python [str]. *)
Definition lit (x : string) : str := list_ascii_of_string x.

(** A string literal as a Python [bytes] literal [b"..."]. *)
Definition blit (x : string) : bytes := list_byte_of_string x.

(** [len(x)] as a Python integer. *)
Definition len {A} (l : list A) : Z := Z.of_nat (List.length l).

(** Equality of two [bytes] objects. *)
Fixpoint bytes_eqb (x y : bytes) : bool :=
  match x, y with
  | [], [] => true
  | c :: x', d :: y' => Byte.eqb c d && bytes_eqb x' y'
  | _, _ => false
  end.

(* ================================================================= *)
(** ** The CRC engine *)

Module Zlib.

(** [zlib.crc32] is the library's CRC-32 (reflected polynomial
    [0xEDB88320], initial value and final xor [0xFFFFFFFF]).  It is
    written here bit by bit; [crc32_check] and [crc32_empty] below pin
    it to the published check values. *)

Definition poly : Z := 0xEDB88320.

Definition step_bit (c : Z) : Z :=
  if Z.testbit c 0 then Z.lxor (Z.shiftr c 1) poly else Z.shiftr c 1.

Definition step_byte (c : Z) (x : byte) : Z :=
  Nat.iter 8 step_bit (Z.lxor c (byte.unsigned x)).

Definition crc32 (data : bytes) : Z :=
  Z.lxor (fold_left step_byte data 0xFFFFFFFF) 0xFFFFFFFF.

End Zlib.

(** [def compute_crc(data): return 0xFFFFFFFF & -zlib.crc32(data) - 1]
    Unary minus binds tighter than the subtraction, which binds tighter
    than [&]. *)
Definition compute_crc (data : bytes) : Z :=
  Z.land 0xFFFFFFFF (- Zlib.crc32 data - 1).

(* ================================================================= *)
(** ** Python built-ins used by the script *)

Module Py.

(** Exceptions that can end a run.  [binascii.Error] is a subclass of
    [ValueError] and is recorded as [ValueError]. *)
Inductive exn :=
| StructError
| UnboundLocalError
| ValueError
| OSError
| SystemExit (code : Z).

(** Slices.  A negative index counts from the end; indices are clamped
    to the sequence. *)
Definition norm_index {A} (x : list A) (i : Z) : nat :=
  Z.to_nat (if i <? 0 then Z.max 0 (len x + i) else i).

(** [x[:j]] *)
Definition slice_to {A} (x : list A) (j : Z) : list A :=
  firstn (norm_index x j) x.

(** [x[i:]] *)
Definition slice_from {A} (x : list A) (i : Z) : list A :=
  skipn (norm_index x i) x.

(** [x[i:j]] *)
Definition slice {A} (x : list A) (i j : Z) : list A :=
  firstn (norm_index x j - norm_index x i) (skipn (norm_index x i) x).

(** [str.isspace] on one character: tab to carriage return, the four
    separators, space, and the two Latin-1 spaces. *)
Definition isspace (c : ascii) : bool :=
  let n := nat_of_ascii c in
  ((9 <=? n) && (n <=? 13) || (28 <=? n) && (n <=? 32)
   || (n =? 133) || (n =? 160))%nat.

(** The white space [int()] skips around a number: the same without
    the four separators. *)
Definition int_isspace (c : ascii) : bool :=
  let n := nat_of_ascii c in
  ((9 <=? n) && (n <=? 13) || (n =? 32) || (n =? 133) || (n =? 160))%nat.

Fixpoint lstrip_by (space : ascii -> bool) (x : str) : str :=
  match x with
  | c :: rest => if space c then lstrip_by space rest else x
  | [] => []
  end.

(** [x.rstrip()] *)
Definition rstrip (x : str) : str := rev (lstrip_by isspace (rev x)).

(** [x.startswith(p)] *)
Fixpoint startswith (x p : str) : bool :=
  match p, x with
  | [], _ => true
  | c :: p', d :: x' => Ascii.eqb c d && startswith x' p'
  | _ :: _, [] => false
  end.

(** [x.split(sep, 1)] for a one-character separator: one or two
    pieces. *)
Fixpoint split1 (sep : ascii) (x : str) : list str :=
  match x with
  | [] => [[]]
  | c :: rest =>
      if Ascii.eqb c sep then [[]; rest]
      else match split1 sep rest with
           | h :: t => (c :: h) :: t
           | [] => [[c]]
           end
  end.

(** The value of a character as a digit in bases up to 36. *)
Definition digit_value (c : ascii) : option Z :=
  let n := Z.of_nat (nat_of_ascii c) in
  if (48 <=? n) && (n <=? 57) then Some (n - 48)
  else if (97 <=? n) && (n <=? 122) then Some (n - 97 + 10)
  else if (65 <=? n) && (n <=? 90) then Some (n - 65 + 10)
  else None.

Definition is_char (c : ascii) (x : string) : bool :=
  existsb (Ascii.eqb c) (list_ascii_of_string x).

(** The digit scan of [int()]: digits below the base, with single
    underscores between them.  Returns the value, the number of digits
    and the rest of the text; [None] on a doubled or trailing
    underscore. *)
Fixpoint scan_digits (base : Z) (x : str) (prev_underscore : bool)
    (acc : Z) (digits : nat) : option (Z * nat * str) :=
  let stop := if prev_underscore then None else Some (acc, digits, x) in
  match x with
  | [] => stop
  | c :: rest =>
      if is_char c "_" then
        if prev_underscore then None
        else scan_digits base rest true acc digits
      else
        match digit_value c with
        | Some d =>
            if d <? base
            then scan_digits base rest false (acc * base + d) (S digits)
            else stop
        | None => stop
        end
  end.

(** The limit on the number of digits converted in a base that is not
    a power of two ([sys.get_int_max_str_digits()], by default). *)
Definition max_str_digits : nat := 4300.

Definition is_pow2_base (base : Z) : bool :=
  (base =? 2) || (base =? 4) || (base =? 8) || (base =? 16) || (base =? 32).

(** The stages of [int(x, base)], in the order the interpreter goes
    through them: an optional sign; *)
Definition int_sign (x : str) : Z * str :=
  match x with
  | c :: rest =>
      if is_char c "+" then (1, rest)
      else if is_char c "-" then (-1, rest)
      else (1, x)
  | [] => (1, x)
  end.

(** the base, which base 0 takes from the prefix: a leading zero that
    opens no prefix is only accepted for the number zero; *)
Definition int_base (base : Z) (x : str) : Z * bool :=
  if base =? 0 then
    match x with
    | c0 :: rest =>
        if negb (is_char c0 "0") then (10, false)
        else match rest with
             | c1 :: _ =>
                 if is_char c1 "xX" then (16, false)
                 else if is_char c1 "oO" then (8, false)
                 else if is_char c1 "bB" then (2, false)
                 else (10, true)
             | [] => (10, true)
             end
    | [] => (10, false)
    end
  else (base, false).

(** the prefix of the base, and one underscore after it; *)
Definition int_skip_prefix (base : Z) (x : str) : str :=
  match x with
  | c0 :: c1 :: rest =>
      if is_char c0 "0"
         && ((base =? 16) && is_char c1 "xX"
             || (base =? 8) && is_char c1 "oO"
             || (base =? 2) && is_char c1 "bB")
      then match rest with
           | c2 :: rest' => if is_char c2 "_" then rest' else rest
           | [] => rest
           end
      else x
  | _ => x
  end.

(** the digits, and white space up to the end. *)
Definition int_digits (base : Z) (error_if_nonzero : bool) (x : str) : option Z :=
  match x with
  | c :: _ => if is_char c "_" then None else
      match scan_digits base x false 0 0 with
      | None => None
      | Some (z, digits, rest) =>
          if negb (is_pow2_base base) && (max_str_digits <? digits)%nat then None
          else if error_if_nonzero && negb (z =? 0) then None
          else if (digits =? 0)%nat then None
          else match lstrip_by int_isspace rest with
               | [] => Some z
               | _ :: _ => None
               end
      end
  | [] => None
  end.

(** [int(x, base)] for [base] 0 or 2..36; [None] is [ValueError]. *)
Definition int (x : str) (base : Z) : option Z :=
  let x := lstrip_by int_isspace x in
  let '(sign, x) := int_sign x in
  let '(base, error_if_nonzero) := int_base base x in
  let x := int_skip_prefix base x in
  match int_digits base error_if_nonzero x with
  | Some z => Some (sign * z)
  | None => None
  end.

(** [binascii.unhexlify] (also named [a2b_hex]) on a [str]: pairs of
    hexadecimal digits; [None] is [binascii.Error]. *)
Definition hex_value (c : ascii) : option Z :=
  match digit_value c with
  | Some d => if d <? 16 then Some d else None
  | None => None
  end.

Fixpoint unhexlify (x : str) : option bytes :=
  match x with
  | [] => Some []
  | [_] => None
  | hi :: lo :: rest =>
      match hex_value hi, hex_value lo, unhexlify rest with
      | Some h, Some l, Some r => Some (byte.of_Z (16 * h + l) :: r)
      | _, _, _ => None
      end
  end.

End Py.

(* ================================================================= *)
(** ** The [struct] module, little-endian standard layouts *)

Module Struct.

(** Format codes used by the script, all under the [<] prefix: no
    alignment, standard sizes. *)
Inductive code :=
| c_s (n : nat)   (* [ns]: a byte string of n bytes *)
| c_B             (* unsigned char, 1 byte *)
| c_H             (* unsigned short, 2 bytes *)
| c_I.            (* unsigned int, 4 bytes *)

Definition fmt := list code.

Inductive val :=
| Int (z : Z)
| Bytes (x : bytes).

Definition code_size (c : code) : nat :=
  match c with
  | c_s n => n
  | c_B => 1
  | c_H => 2
  | c_I => 4
  end.

Fixpoint calcsize (f : fmt) : nat :=
  match f with
  | [] => 0
  | c :: f' => code_size c + calcsize f'
  end.

(** An integer field: out of range is [struct.error]. *)
Definition pack_int (n : nat) (z : Z) : option bytes :=
  if (0 <=? z) && (z <? 2 ^ (8 * Z.of_nat n)) then Some (le_split n z) else None.

(** A byte-string field: cut to the field width or padded with NUL. *)
Definition pack_s (n : nat) (x : bytes) : bytes :=
  firstn n x ++ repeat Byte.x00 (n - List.length x).

Definition pack_one (c : code) (v : val) : option bytes :=
  match c, v with
  | c_s n, Bytes x => Some (pack_s n x)
  | c_s _, Int _ => None
  | _, Int z => pack_int (code_size c) z
  | _, Bytes _ => None
  end.

(** [struct.pack(fmt, *vs)]; [None] is [struct.error]. *)
Fixpoint pack (f : fmt) (vs : list val) : option bytes :=
  match f, vs with
  | [], [] => Some []
  | c :: f', v :: vs' =>
      match pack_one c v, pack f' vs' with
      | Some x, Some rest => Some (x ++ rest)
      | _, _ => None
      end
  | _, _ => None
  end.

Definition unpack_one (c : code) (x : bytes) : val :=
  match c with
  | c_s _ => Bytes x
  | _ => Int (le_combine x)
  end.

Fixpoint unpack_fields (f : fmt) (data : bytes) : list val :=
  match f with
  | [] => []
  | c :: f' =>
      unpack_one c (firstn (code_size c) data)
      :: unpack_fields f' (skipn (code_size c) data)
  end.

(** [struct.unpack(fmt, data)]; the buffer must have exactly the
    format's size, otherwise [struct.error]. *)
Definition unpack (f : fmt) (data : bytes) : option (list val) :=
  if (List.length data =? calcsize f)%nat then Some (unpack_fields f data) else None.

(** Positional access to an unpacked tuple. *)
Definition int_at (i : nat) (vs : list val) : Z :=
  match nth_error vs i with
  | Some (Int z) => z
  | _ => 0
  end.

Definition bytes_at (i : nat) (vs : list val) : bytes :=
  match nth_error vs i with
  | Some (Bytes x) => x
  | _ => []
  end.

End Struct.

Import Struct(code(..), val(..), int_at, bytes_at).

(** The formats of the script. *)
Definition fmt_prefix : Struct.fmt := [c_s 5; c_B; c_I; c_B].              (* "<5sBIB" *)
Definition fmt_tprefix : Struct.fmt := [c_s 6; c_B; c_I; c_s 255; c_I; c_I]. (* "<6sBI255s2I" *)
Definition fmt_eprefix : Struct.fmt := [c_I; c_I].                         (* "<2I" *)
Definition fmt_suffix : Struct.fmt := [c_H; c_H; c_H; c_H; c_s 3; c_B; c_I]. (* "<4H3sBI" *)
Definition fmt_suffix_head : Struct.fmt := [c_H; c_H; c_H; c_H; c_s 3; c_B]. (* "<4H3sB" *)
Definition fmt_crc : Struct.fmt := [c_I].                                  (* "<I" *)

(* ================================================================= *)
(** ** Output, exceptions and the run monad *)

(** The dictionaries built by [named]: one record per list of names. *)
Record prefix_t := {
  p_signature : bytes; p_version : Z; p_size : Z; p_targets : Z }.

Record tprefix_t := {
  t_signature : bytes; t_altsetting : Z; t_named : Z; t_name : bytes;
  t_size : Z; t_elements : Z; t_num : Z }.

Record eprefix_t := { e_address : Z; e_size : Z; e_num : Z }.

Record suffix_t := {
  s_device : Z; s_product : Z; s_vendor : Z; s_dfu : Z;
  s_ufd : bytes; s_len : Z; s_crc : Z }.

(** A file name: one given on the command line, or the name
    ["%s.target%d.image%d.bin" % (file, t, e)] of a dumped image. *)
Inductive path :=
| File (name : str)
| ImageFile (file : str) (t e : Z).

(** What a run prints and writes, in order.  Printing and writing are
    taken to succeed: an [OSError] from [open] or [write] on an output
    file is not modelled. *)
Inductive event :=
| PrintFile (file : str)                     (* File: "..." *)
| PrintPrefix (p : prefix_t)
| PrintTarget (t : tprefix_t)
| PrintElement (e : eprefix_t)
| PrintDumped (out : path)                   (* DUMPED IMAGE TO "..." *)
| PrintTargetParseError (t : Z)              (* target %d: PARSE ERROR *)
| PrintSuffix (x : suffix_t)
| PrintCrcError (crc : Z)                    (* CRC ERROR: computed crc32 is ... *)
| PrintParseError                            (* PARSE ERROR *)
| PrintHasSuffix (binfile : str)             (* It looks like the file ... has a DFU suffix! *)
| PrintRemoveSuffix                          (* Please remove any DFU suffix and retry. *)
| PrintAltOptionInvalid (x : str)
| PrintCoupleInvalid (arg : str)
| PrintAltNumberInvalid (alts : str)
| PrintAddressInvalid (address : str)
| PrintAddressInvalidInt (address : Z)
| PrintUnreadable (file : str)
| PrintNoIntelHex
| PrintInvalidDevice (device : str)
| PrintHelp
| PrintNoteIntelHex
| Write (out : path) (data : bytes).         (* open(out, "wb").write(data) *)

Inductive result (A : Type) :=
| Ok (a : A)
| Raise (e : Py.exn).
Arguments Ok {A} a.
Arguments Raise {A} e.

(** A computation: the output it produced and how it ended. *)
Definition M (A : Type) : Type := list event * result A.

Definition ret {A} (a : A) : M A := ([], Ok a).

Definition bind {A B} (m : M A) (k : A -> M B) : M B :=
  match m with
  | (out, Ok a) => let (out', r) := k a in (out ++ out', r)
  | (out, Raise e) => (out, Raise e)
  end.

Definition emit (e : event) : M unit := ([e], Ok tt).
Definition raise {A} (e : Py.exn) : M A := ([], Raise e).
Definition sys_exit {A} (code : Z) : M A := raise (Py.SystemExit code).

(** A library call that either returns or raises [e]. *)
Definition orelse {A} (o : option A) (e : Py.exn) : M A :=
  match o with
  | Some a => ret a
  | None => raise e
  end.

Declare Scope run_scope.
Delimit Scope run_scope with run.
Notation "x <- c1 ;; c2" := (bind c1 (fun x => c2))
  (at level 61, c1 at next level, right associativity) : run_scope.
Notation "' pat <- c1 ;; c2" := (bind c1 (fun x => match x with pat => c2 end))
  (at level 61, pat pattern, c1 at next level, right associativity) : run_scope.
Notation "c1 ;; c2" := (bind c1 (fun _ => c2))
  (at level 61, right associativity) : run_scope.
Local Open Scope run_scope.

(** [when c m] is [if c: m]. *)
Definition when (c : bool) (m : M unit) : M unit := if c then m else ret tt.

(* ================================================================= *)
(** ** The script *)

Definition DEFAULT_DEVICE : str := lit "0x0483:0xdf11".
Definition DEFAULT_NAME : bytes := blit "ST...".
Definition PREFIX_SIZE : Z := 11.
Definition SUFFIX_SIZE : Z := 16.

(** The name lists handed to [named], as the record each one builds;
    [num] is absent until the loop stores it. *)
Definition names_prefix (v : list val) : prefix_t :=        (* "signature version size targets" *)
  {| p_signature := bytes_at 0 v; p_version := int_at 1 v;
     p_size := int_at 2 v; p_targets := int_at 3 v |}.

Definition names_tprefix (v : list val) : tprefix_t :=      (* "signature altsetting named name size elements" *)
  {| t_signature := bytes_at 0 v; t_altsetting := int_at 1 v;
     t_named := int_at 2 v; t_name := bytes_at 3 v;
     t_size := int_at 4 v; t_elements := int_at 5 v; t_num := 0 |}.

Definition names_eprefix (v : list val) : eprefix_t :=      (* "address size" *)
  {| e_address := int_at 0 v; e_size := int_at 1 v; e_num := 0 |}.

Definition names_suffix (v : list val) : suffix_t :=        (* "device product vendor dfu ufd len crc" *)
  {| s_device := int_at 0 v; s_product := int_at 1 v; s_vendor := int_at 2 v;
     s_dfu := int_at 3 v; s_ufd := bytes_at 4 v; s_len := int_at 5 v;
     s_crc := int_at 6 v |}.

(** [def named(tuple, names): return dict(list(zip(names.split(), tuple)))] *)
Definition named {R} (tuple : list val) (names : list val -> R) : R := names tuple.

(** [def consume(fmt, data, names)] *)
Definition consume {R} (fmt : Struct.fmt) (data : bytes) (names : list val -> R)
  : M (R * bytes) :=
  let n := Z.of_nat (Struct.calcsize fmt) in
  tuple <- orelse (Struct.unpack fmt (Py.slice_to data n)) Py.StructError ;;
  ret (named tuple names, Py.slice_from data n).

(** [def cstring(bytestring): return bytestring.partition(b"\0")[0]] *)
Fixpoint cstring (bytestring : bytes) : bytes :=
  match bytestring with
  | [] => []
  | c :: rest => if Byte.eqb c Byte.x00 then [] else c :: cstring rest
  end.

Definition set_t_name (t : tprefix_t) (name : bytes) : tprefix_t :=
  {| t_signature := t_signature t; t_altsetting := t_altsetting t;
     t_named := t_named t; t_name := name; t_size := t_size t;
     t_elements := t_elements t; t_num := t_num t |}.

Definition set_t_num (t : tprefix_t) (num : Z) : tprefix_t :=
  {| t_signature := t_signature t; t_altsetting := t_altsetting t;
     t_named := t_named t; t_name := t_name t; t_size := t_size t;
     t_elements := t_elements t; t_num := num |}.

Definition set_e_num (x : eprefix_t) (num : Z) : eprefix_t :=
  {| e_address := e_address x; e_size := e_size x; e_num := num |}.

(** The loop [for e in range(tprefix["elements"])] of [parse]: [n]
    iterations are left, [e] is the loop index, [target] the bytes of the
    target not yet consumed.  Returns what is left of [target]. *)
Fixpoint parse_elements (file : str) (dump_images : bool) (t : Z)
    (n : nat) (e : Z) (target : bytes) : M bytes :=
  match n with
  | O => ret target
  | S n' =>
      '(eprefix, target) <- consume fmt_eprefix target names_eprefix ;;
      let eprefix := set_e_num eprefix e in
      emit (PrintElement eprefix) ;;
      let esize := e_size eprefix in
      let image := Py.slice_to target esize in
      let target := Py.slice_from target esize in
      when dump_images
        (let out := ImageFile file t e in
         emit (Write out image) ;;
         emit (PrintDumped out)) ;;
      parse_elements file dump_images t n' (e + 1) target
  end.

(** The loop [for t in range(prefix["targets"])] of [parse].  Returns
    the bytes after the last target. *)
Fixpoint parse_targets (file : str) (dump_images : bool)
    (n : nat) (t : Z) (data : bytes) : M bytes :=
  match n with
  | O => ret data
  | S n' =>
      '(tprefix, data) <- consume fmt_tprefix data names_tprefix ;;
      let tprefix := set_t_num tprefix t in
      let tprefix :=
        if negb (t_named tprefix =? 0)
        then set_t_name tprefix (cstring (t_name tprefix))
        else set_t_name tprefix [] in
      emit (PrintTarget tprefix) ;;
      let tsize := t_size tprefix in
      let target := Py.slice_to data tsize in
      let data := Py.slice_from data tsize in
      target <- parse_elements file dump_images t
                  (Z.to_nat (t_elements tprefix)) 0 target ;;
      when (negb (len target =? 0)) (emit (PrintTargetParseError t)) ;;
      parse_targets file dump_images n' (t + 1) data
  end.

(** [def parse(file, dump_images=False)]; [data] is what
    [open(file, "rb").read()] returns. *)
Definition parse (file : str) (data : bytes) (dump_images : bool) : M unit :=
  emit (PrintFile file) ;;
  let crc := compute_crc (Py.slice_to data (-4)) in
  '(prefix, data) <- consume fmt_prefix data names_prefix ;;
  emit (PrintPrefix prefix) ;;
  data <- parse_targets file dump_images (Z.to_nat (p_targets prefix)) 0 data ;;
  tuple <- orelse (Struct.unpack fmt_suffix (Py.slice_to data SUFFIX_SIZE))
             Py.StructError ;;
  let suffix := named tuple names_suffix in
  emit (PrintSuffix suffix) ;;
  when (negb (crc =? s_crc suffix)) (emit (PrintCrcError crc)) ;;
  let data := Py.slice_from data SUFFIX_SIZE in
  when (negb (len data =? 0)) (emit PrintParseError).

(** [def checkbin(binfile)]; [data] is what [open(binfile, "rb").read()]
    returns. *)
Definition checkbin (binfile : str) (data : bytes) : M unit :=
  if len data <? SUFFIX_SIZE then ret tt
  else
    let crc := compute_crc (Py.slice_to data (-4)) in
    tuple <- orelse (Struct.unpack fmt_suffix (Py.slice_from data (- SUFFIX_SIZE)))
               Py.StructError ;;
    let suffix := named tuple names_suffix in
    if (crc =? s_crc suffix) && bytes_eqb (s_ufd suffix) (blit "UFD")
    then
      emit (PrintSuffix suffix) ;;
      emit (PrintHasSuffix binfile) ;;
      emit PrintRemoveSuffix ;;
      sys_exit 1
    else ret tt.

(** An entry of a target: [{"address": ..., "alt": ..., "data": ...}]. *)
Record image := { address : Z; alt : Z; data : bytes }.

(** The loop [for image in target] of [build].  [ealt] is the local
    variable of that name: unbound ([None]) until an image has been
    seen, and kept from one target to the next. *)
Fixpoint build_images (target : list image) (tdata : bytes) (ealt : option Z)
  : M (bytes * option Z) :=
  match target with
  | [] => ret (tdata, ealt)
  | image :: rest =>
      h <- orelse (Struct.pack fmt_eprefix
                     [Int (address image); Int (len (data image))])
             Py.StructError ;;
      build_images rest (tdata ++ h ++ data image) (Some (alt image))
  end.

(** The loop [for t, target in enumerate(targets)] of [build]. *)
Fixpoint build_targets (targets : list (list image)) (name : bytes)
    (data : bytes) (ealt : option Z) : M bytes :=
  match targets with
  | [] => ret data
  | target :: rest =>
      '(tdata, ealt) <- build_images target [] ealt ;;
      a <- orelse ealt Py.UnboundLocalError ;;
      h <- orelse (Struct.pack fmt_tprefix
                     [Bytes (blit "Target"); Int a; Int 1; Bytes name;
                      Int (len tdata); Int (len target)])
             Py.StructError ;;
      build_targets rest name (data ++ h ++ tdata) ealt
  end.

(** [v, d = [int(x, 0) & 0xFFFF for x in device.split(":", 1)]];
    [None] is [ValueError], from [int] or from unpacking a list that has
    not two entries. *)
Definition parse_device (device : str) : option (Z * Z) :=
  match Py.split1 ":" device with
  | [x; y] =>
      match Py.int x 0, Py.int y 0 with
      | Some v, Some d => Some (Z.land v 0xFFFF, Z.land d 0xFFFF)
      | _, _ => None
      end
  | _ => None
  end.

(** [def build(file, targets, name=DEFAULT_NAME, device=DEFAULT_DEVICE)] *)
Definition build (file : str) (targets : list (list image)) (name : bytes)
    (device : str) : M unit :=
  data <- build_targets targets name [] None ;;
  h <- orelse (Struct.pack fmt_prefix
                 [Bytes (blit "DfuSe"); Int 1;
                  Int (PREFIX_SIZE + len data + SUFFIX_SIZE); Int (len targets)])
         Py.StructError ;;
  let data := h ++ data in
  '(v, d) <- orelse (parse_device device) Py.ValueError ;;
  x <- orelse (Struct.pack fmt_suffix_head
                 [Int 0; Int d; Int v; Int 0x011A; Bytes (blit "UFD"); Int SUFFIX_SIZE])
         Py.StructError ;;
  let data := data ++ x in
  let crc := compute_crc data in
  c <- orelse (Struct.pack fmt_crc [Int crc]) Py.StructError ;;
  let data := data ++ c in
  emit (Write (File file) data).

(* ================================================================= *)
(** ** The command line *)

(** What [parser.parse_args()] stores.  [binfiles] and [hexfiles] use
    the [append] action: [None] or a list of the arguments given. *)
Record options_t := {
  o_binfiles : option (list str);
  o_hexfiles : option (list str);
  o_s19files : option str;
  o_device : option str;
  o_alt : option str;
  o_dump_images : bool }.

(** An [IntelHex] object, as far as the script uses it. *)
Record IntelHexObj := {
  segments : list (Z * Z);
  tobinstr : Z -> Z -> bytes }.

(** What the script finds outside itself: the regular files and their
    bytes, the lines [readlines()] gives for a text file, and the
    [IntelHex] class when the module could be imported. *)
Record world := {
  file_bytes : str -> option bytes;
  file_lines : str -> option (list str);
  IntelHex : option (str -> IntelHexObj) }.

(** Truth value of an option that is [None], a string or a list. *)
Definition truthy {A} (o : option (list A)) : bool :=
  match o with
  | Some (_ :: _) => true
  | _ => false
  end.

Definition isfile (w : world) (p : str) : bool :=
  match file_bytes w p with
  | Some _ => true
  | None => false
  end.

(** [open(p, "rb").read()] *)
Definition read (w : world) (p : str) : M bytes := orelse (file_bytes w p) Py.OSError.

(** One turn of the loop [for arg in options.binfiles].  [targets]
    holds the targets already closed, [target] the one being filled. *)
Definition binfiles_body (w : world) (default_alt : Z) (arg : str)
    (targets : list (list image)) (target : list image) (old_ealt : option Z)
  : M (list (list image) * list image * option Z) :=
  '(address, binfile) <-
    match Py.split1 ":" arg with
    | [address; binfile] => ret (address, binfile)
    | _ => emit (PrintCoupleInvalid arg) ;; sys_exit 1
    end ;;
  '(address, ealt) <-
    match Py.split1 "@" address with
    | [address'; alts] =>
        match alts with
        | _ :: _ =>
            match Py.int alts 10 with
            | Some ealt => ret (address', ealt)
            | None => emit (PrintAltNumberInvalid alts) ;; sys_exit 1
            end
        | [] => ret (address', default_alt)
        end
    | _ => ret (address, default_alt)
    end ;;
  address <-
    match Py.int address 0 with
    | Some a => ret (Z.land a 0xFFFFFFFF)
    | None => emit (PrintAddressInvalid address) ;; sys_exit 1
    end ;;
  (if negb (isfile w binfile)
   then emit (PrintUnreadable binfile) ;; sys_exit 1
   else ret tt) ;;
  content <- read w binfile ;;
  checkbin binfile content ;;
  let '(targets, target) :=
    match old_ealt with
    | Some old => if negb (ealt =? old) then (targets ++ [target], [])
                  else (targets, target)
    | None => (targets, target)
    end in
  content <- read w binfile ;;
  let target :=
    target ++ [{| address := address; alt := ealt; data := content |}] in
  ret (targets, target, Some ealt).

(** The loop [for arg in options.binfiles]. *)
Fixpoint binfiles_loop (w : world) (default_alt : Z) (binfiles : list str)
    (targets : list (list image)) (target : list image) (old_ealt : option Z)
  : M (list (list image) * list image) :=
  match binfiles with
  | [] => ret (targets, target)
  | arg :: rest =>
      '(targets, target, old_ealt) <-
        binfiles_body w default_alt arg targets target old_ealt ;;
      binfiles_loop w default_alt rest targets target old_ealt
  end.

(** The images appended for one Intel HEX file. *)
Definition hexfile_images (default_alt : Z) (ih : IntelHexObj) : list image :=
  map (fun '(address, end_) =>
         let address := Z.land address 0xFFFFFFFF in
         {| address := address; alt := default_alt;
            data := tobinstr ih address (end_ - 1) |})
      (segments ih).

(** The device check made before [build] is called. *)
Definition check_device (options : options_t) : M str :=
  let device := if truthy (o_device options)
                then match o_device options with Some d => d | None => DEFAULT_DEVICE end
                else DEFAULT_DEVICE in
  match parse_device device with
  | Some _ => ret device
  | None => emit (PrintInvalidDevice device) ;; sys_exit 1
  end.

(** The branch [if (options.binfiles or options.hexfiles) and len(args) == 1].
    The list object [target] left by the binary files is the one the
    Intel HEX files extend, and it is appended to [targets] once by
    each part: both entries are the same, final, list. *)
Definition build_from_files (w : world) (options : options_t) (args : list str)
    (default_alt : Z) : M unit :=
  '(closed, target, from_bin) <-
    (if truthy (o_binfiles options)
     then
       '(closed, target) <-
          binfiles_loop w default_alt
            (match o_binfiles options with Some l => l | None => [] end)
            [] [] None ;;
       ret (closed, target, true)
     else ret ([], [], false)) ;;
  '(target, from_hex) <-
    (if truthy (o_hexfiles options)
     then
       match IntelHex w with
       | None => emit PrintNoIntelHex ;; sys_exit 1
       | Some new =>
           let hexfiles := match o_hexfiles options with Some l => l | None => [] end in
           ret (target ++ flat_map (fun hexf => hexfile_images default_alt (new hexf)) hexfiles,
                true)
       end
     else ret (target, false)) ;;
  let targets :=
    closed ++ (if from_bin : bool then [target] else [])
           ++ (if from_hex : bool then [target] else []) in
  let outfile := nth 0 args [] in
  device <- check_device options ;;
  build outfile targets DEFAULT_NAME device.

(** The running state of the S-record reader. *)
Record s19_state := {
  r_address : Z;
  r_data : bytes;
  r_target : list image;
  r_name : bytes }.

(** A data record whose address field ends at column [k]. *)
Definition s19_data_record (st : s19_state) (line : str) (k : Z) : M (Z * bytes) :=
  curaddress <-
    match Py.int (Py.slice line 4 k) 16 with
    | Some a => ret (Z.land a 0xFFFFFFFF)
    | None => emit (PrintAddressInvalidInt (r_address st)) ;; sys_exit 1
    end ;;
  curdata <- orelse (Py.unhexlify (Py.slice line k (-2))) Py.ValueError ;;
  ret (curaddress, curdata).

(** One turn of [for line in lines].  The empty [str] that [data] and
    [curdata] start from is the empty byte string here: it is only ever
    measured, replaced or extended by nothing. *)
Definition s19_line (default_alt : Z) (st : s19_state) (line : str) : M s19_state :=
  let line := Py.rstrip line in
  '(name, curaddress, curdata) <-
    (if Py.startswith line (lit "S0") then
       name <- orelse (Py.unhexlify (Py.slice line 8 (len line - 2))) Py.ValueError ;;
       ret (name, 0, [])
     else if Py.startswith line (lit "S3") then
       '(a, d) <- s19_data_record st line 12 ;; ret (r_name st, a, d)
     else if Py.startswith line (lit "S2") then
       '(a, d) <- s19_data_record st line 10 ;; ret (r_name st, a, d)
     else if Py.startswith line (lit "S1") then
       '(a, d) <- s19_data_record st line 8 ;; ret (r_name st, a, d)
     else ret (r_name st, 0, [])) ;;
  if r_address st =? 0 then
    ret {| r_address := curaddress; r_data := curdata;
           r_target := r_target st; r_name := name |}
  else if negb (r_address st + len (r_data st) =? curaddress) then
    ret {| r_address := curaddress; r_data := curdata;
           r_target := r_target st ++
             [{| address := r_address st; alt := default_alt; data := r_data st |}];
           r_name := name |}
  else
    ret {| r_address := r_address st; r_data := r_data st ++ curdata;
           r_target := r_target st; r_name := name |}.

Fixpoint s19_lines (default_alt : Z) (st : s19_state) (lines : list str) : M s19_state :=
  match lines with
  | [] => ret st
  | line :: rest =>
      st <- s19_line default_alt st line ;;
      s19_lines default_alt st rest
  end.

Definition s19_init : s19_state :=
  {| r_address := 0; r_data := []; r_target := []; r_name := DEFAULT_NAME |}.

(** The branch [elif options.s19files and len(args) == 1]. *)
Definition build_from_s19 (w : world) (options : options_t) (args : list str)
    (default_alt : Z) : M unit :=
  let s19file := match o_s19files options with Some f => f | None => [] end in
  lines <- orelse (file_lines w s19file) Py.OSError ;;
  st <- s19_lines default_alt s19_init lines ;;
  let outfile := nth 0 args [] in
  device <- check_device options ;;
  build outfile [r_target st] (r_name st) device.

(** The script body under [if __name__ == "__main__"]. *)
Definition main (w : world) (options : options_t) (args : list str) : M unit :=
  default_alt <-
    (if truthy (o_alt options) then
       let a := match o_alt options with Some a => a | None => [] end in
       match Py.int a 10 with
       | Some n => ret n
       | None => emit (PrintAltOptionInvalid a) ;; sys_exit 1
       end
     else ret 0) ;;
  if (truthy (o_binfiles options) || truthy (o_hexfiles options)) && (len args =? 1) then
    build_from_files w options args default_alt
  else if truthy (o_s19files options) && (len args =? 1) then
    build_from_s19 w options args default_alt
  else if len args =? 1 then
    let infile := nth 0 args [] in
    if negb (isfile w infile) then
      emit (PrintUnreadable infile) ;; sys_exit 1
    else
      content <- read w infile ;;
      parse infile content (o_dump_images options)
  else
    emit PrintHelp ;;
    when (match IntelHex w with None => true | Some _ => false end) (emit PrintNoteIntelHex) ;;
    sys_exit 1.
(** The files a run has written. *)
Fixpoint files_written (out : list event) : list (path * bytes) :=
  match out with
  | [] => []
  | Write p x :: rest => (p, x) :: files_written rest
  | _ :: rest => files_written rest
  end.

(* ================================================================= *)
(** ** The container as laid out on the wire

    The vocabulary in which the theorems speak of a file: its fields,
    the bytes they occupy, and the output [parse] is expected to
    produce for them. *)

Module Wire.

(** An element: the two header fields and the bytes that follow. *)
Record elem := {
  el_address : Z;
  el_size : Z;
  el_data : bytes }.

(** A target: the header fields, the elements, and whatever the
    declared size covers beyond the elements. *)
Record tgt := {
  tg_signature : bytes;
  tg_altsetting : Z;
  tg_named : Z;
  tg_name : bytes;
  tg_elements : list elem;
  tg_rest : bytes }.

Record container := {
  ct_signature : bytes;
  ct_version : Z;
  ct_size : Z;
  ct_targets : list tgt;
  ct_suffix : suffix_t;
  ct_rest : bytes }.

Definition enc_element (e : elem) : bytes :=
  le_split 4 (el_address e) ++ le_split 4 (el_size e) ++ el_data e.

Definition enc_elements (es : list elem) : bytes := flat_map enc_element es.

(** The bytes a target header declares as the target's size. *)
Definition target_body (t : tgt) : bytes :=
  enc_elements (tg_elements t) ++ tg_rest t.

Definition enc_target (t : tgt) : bytes :=
  tg_signature t ++ le_split 1 (tg_altsetting t) ++ le_split 4 (tg_named t)
  ++ tg_name t ++ le_split 4 (len (target_body t))
  ++ le_split 4 (len (tg_elements t)) ++ target_body t.

Definition enc_targets (ts : list tgt) : bytes := flat_map enc_target ts.

Definition enc_suffix_head (x : suffix_t) : bytes :=
  le_split 2 (s_device x) ++ le_split 2 (s_product x) ++ le_split 2 (s_vendor x)
  ++ le_split 2 (s_dfu x) ++ s_ufd x ++ le_split 1 (s_len x).

Definition enc_prefix (c : container) : bytes :=
  ct_signature c ++ le_split 1 (ct_version c) ++ le_split 4 (ct_size c)
  ++ le_split 1 (len (ct_targets c)).

(** Everything the checksum field of the suffix is computed over. *)
Definition enc_checked (c : container) : bytes :=
  enc_prefix c ++ enc_targets (ct_targets c) ++ enc_suffix_head (ct_suffix c).

Definition enc_container (c : container) : bytes :=
  enc_checked c ++ le_split 4 (s_crc (ct_suffix c)) ++ ct_rest c.

(** Fields that fit their width. *)
Definition u8 (z : Z) : Prop := 0 <= z < 2 ^ 8.
Definition u16 (z : Z) : Prop := 0 <= z < 2 ^ 16.
Definition u32 (z : Z) : Prop := 0 <= z < 2 ^ 32.

(** The elements of a target read back one after the other when each
    declares the size of its data; the last one may declare more than
    the target holds, when nothing follows it. *)
Fixpoint elements_ok (es : list elem) (rest : bytes) : Prop :=
  match es with
  | [] => True
  | e :: es' =>
      u32 (el_address e) /\ u32 (el_size e)
      /\ (el_size e = len (el_data e)
          \/ (es' = [] /\ rest = [] /\ len (el_data e) < el_size e))
      /\ elements_ok es' rest
  end.

Definition target_ok (t : tgt) : Prop :=
  List.length (tg_signature t) = 6%nat /\ u8 (tg_altsetting t) /\ u32 (tg_named t)
  /\ List.length (tg_name t) = 255%nat /\ u32 (len (target_body t))
  /\ u32 (len (tg_elements t)) /\ elements_ok (tg_elements t) (tg_rest t).

Definition suffix_ok (x : suffix_t) : Prop :=
  u16 (s_device x) /\ u16 (s_product x) /\ u16 (s_vendor x) /\ u16 (s_dfu x)
  /\ List.length (s_ufd x) = 3%nat /\ u8 (s_len x) /\ u32 (s_crc x).

Definition container_ok (c : container) : Prop :=
  List.length (ct_signature c) = 5%nat /\ u8 (ct_version c) /\ u32 (ct_size c)
  /\ u8 (len (ct_targets c)) /\ Forall target_ok (ct_targets c)
  /\ suffix_ok (ct_suffix c).

(** The output expected from [parse]. *)
Definition element_events (file : str) (dump_images : bool) (t e : Z)
    (x : elem) : list event :=
  PrintElement {| e_address := el_address x; e_size := el_size x; e_num := e |}
  :: (if dump_images
      then [Write (ImageFile file t e) (el_data x); PrintDumped (ImageFile file t e)]
      else []).

Fixpoint elements_events (file : str) (dump_images : bool) (t e : Z)
    (es : list elem) : list event :=
  match es with
  | [] => []
  | x :: es' =>
      element_events file dump_images t e x
      ++ elements_events file dump_images t (e + 1) es'
  end.

Definition target_line (t : Z) (x : tgt) : tprefix_t :=
  {| t_signature := tg_signature x; t_altsetting := tg_altsetting x;
     t_named := tg_named x;
     t_name := if tg_named x =? 0 then [] else cstring (tg_name x);
     t_size := len (target_body x); t_elements := len (tg_elements x);
     t_num := t |}.

Definition target_events (file : str) (dump_images : bool) (t : Z)
    (x : tgt) : list event :=
  PrintTarget (target_line t x)
  :: elements_events file dump_images t 0 (tg_elements x)
  ++ (match tg_rest x with [] => [] | _ :: _ => [PrintTargetParseError t] end).

Fixpoint targets_events (file : str) (dump_images : bool) (t : Z)
    (ts : list tgt) : list event :=
  match ts with
  | [] => []
  | x :: ts' =>
      target_events file dump_images t x
      ++ targets_events file dump_images (t + 1) ts'
  end.

Definition prefix_line (c : container) : prefix_t :=
  {| p_signature := ct_signature c; p_version := ct_version c;
     p_size := ct_size c; p_targets := len (ct_targets c) |}.

(** The two diagnostics about the file as a whole. *)
Definition file_diagnostics (c : container) : list event :=
  let crc := compute_crc (Py.slice_to (enc_container c) (-4)) in
  (if crc =? s_crc (ct_suffix c) then [] else [PrintCrcError crc])
  ++ (match ct_rest c with [] => [] | _ :: _ => [PrintParseError] end).

Definition container_events (file : str) (dump_images : bool) (c : container)
  : list event :=
  [PrintFile file; PrintPrefix (prefix_line c)]
  ++ targets_events file dump_images 0 (ct_targets c)
  ++ [PrintSuffix (ct_suffix c)]
  ++ file_diagnostics c.

(** A target laid out with an element count of its own choosing. *)
Definition enc_target_counted (count : Z) (t : tgt) : bytes :=
  tg_signature t ++ le_split 1 (tg_altsetting t) ++ le_split 4 (tg_named t)
  ++ tg_name t ++ le_split 4 (len (target_body t))
  ++ le_split 4 count ++ target_body t.

Definition target_line_counted (count : Z) (t : Z) (x : tgt) : tprefix_t :=
  {| t_signature := tg_signature x; t_altsetting := tg_altsetting x;
     t_named := tg_named x;
     t_name := if tg_named x =? 0 then [] else cstring (tg_name x);
     t_size := len (target_body x); t_elements := count;
     t_num := t |}.

(** The container [build] lays out for a list of targets.  [ealt] is
    the alternate setting left by the targets before. *)
Definition element_of (i : image) : elem :=
  {| el_address := address i; el_size := len (data i); el_data := data i |}.

Definition last_alt (ealt : option Z) (target : list image) : option Z :=
  fold_left (fun _ i => Some (alt i)) target ealt.

Definition target_of (name : bytes) (ealt : option Z) (target : list image) : tgt :=
  {| tg_signature := blit "Target";
     tg_altsetting := match last_alt ealt target with Some a => a | None => 0 end;
     tg_named := 1;
     tg_name := Struct.pack_s 255 name;
     tg_elements := map element_of target;
     tg_rest := [] |}.

Fixpoint targets_of (name : bytes) (ealt : option Z) (targets : list (list image))
  : list tgt :=
  match targets with
  | [] => []
  | target :: rest =>
      target_of name ealt target :: targets_of name (last_alt ealt target) rest
  end.

Definition suffix_of (v d crc : Z) : suffix_t :=
  {| s_device := 0; s_product := d; s_vendor := v; s_dfu := 0x011A;
     s_ufd := blit "UFD"; s_len := SUFFIX_SIZE; s_crc := crc |}.

Definition unchecked_container_of (targets : list (list image)) (name : bytes)
    (v d crc : Z) : container :=
  let ts := targets_of name None targets in
  {| ct_signature := blit "DfuSe"; ct_version := 1;
     ct_size := PREFIX_SIZE + len (enc_targets ts) + SUFFIX_SIZE;
     ct_targets := ts; ct_suffix := suffix_of v d crc; ct_rest := [] |}.

Definition container_of (targets : list (list image)) (name : bytes) (v d : Z)
  : container :=
  unchecked_container_of targets name v d
    (compute_crc (enc_checked (unchecked_container_of targets name v d 0))).

End Wire.

(** A byte buffer with the suffix [x] appended, and what makes the
    suffix valid for it: fields within their widths, the marker, and the
    checksum of everything before the checksum field. *)
Definition with_suffix (payload : bytes) (x : suffix_t) : bytes :=
  payload ++ Wire.enc_suffix_head x ++ le_split 4 (s_crc x).

Definition valid_suffix (payload : bytes) (x : suffix_t) : Prop :=
  Wire.suffix_ok x
  /\ s_ufd x = blit "UFD"
  /\ s_crc x = compute_crc (payload ++ Wire.enc_suffix_head x).

(** The digits of a literal in some base, and the number they spell. *)
Definition is_digits (base : Z) (ds : str) : bool :=
  forallb (fun c => match Py.digit_value c with
                    | Some d => d <? base
                    | None => false
                    end) ds.

Definition digits_value (base : Z) (ds : str) : Z :=
  fold_left (fun acc c => acc * base + match Py.digit_value c with
                                       | Some d => d
                                       | None => 0
                                       end) ds 0.

(** A text without the two separators of a descriptor. *)
Definition no_separator (x : str) : bool :=
  forallb (fun c => negb (Ascii.eqb c ":") && negb (Ascii.eqb c "@")) x.

(** The binary-block ingester on one descriptor, from a fresh state,
    and its two outcomes as far as the address goes: one element at
    the address, or the message and [sys.exit(1)]. *)
Definition ingest_one (w : world) (default_alt : Z) (arg : str)
  : M (list (list image) * list image) :=
  binfiles_loop w default_alt [arg] [] [] None.

Definition ingested (address alt : Z) (content : bytes)
  : M (list (list image) * list image) :=
  ret ([], [{| address := address; alt := alt; data := content |}]).

Definition address_refused (address : str) : M (list (list image) * list image) :=
  emit (PrintAddressInvalid address) ;; sys_exit 1.

(** The size of the blob [build] writes for one target: the header of
    274 bytes, and 8 bytes and the data for each element. *)
Definition elements_size (target : list image) : Z :=
  fold_right (fun i n => 8 + len (data i) + n) 0 target.

Definition target_blob_size (target : list image) : Z :=
  274 + elements_size target.

Definition blobs_size (targets : list (list image)) : Z :=
  fold_right (fun target n => target_blob_size target + n) 0 targets.

(** *** Targets as [parse] shows them

    The output of [parse] that shows a list of targets again: for each
    target its alternate setting, name, size and count, and for each
    element its address, size and, when images are dumped, its data. *)

Definition same_alt (target : list image) : Prop :=
  forall i j, In i target -> In j target -> alt i = alt j.

Definition target_alt (target : list image) : Z :=
  match target with
  | i :: _ => alt i
  | [] => 0
  end.

Definition image_lines (file : str) (dump_images : bool) (t e : Z) (i : image)
  : list event :=
  PrintElement {| e_address := address i; e_size := len (data i); e_num := e |}
  :: (if dump_images
      then [Write (ImageFile file t e) (data i); PrintDumped (ImageFile file t e)]
      else []).

Fixpoint images_lines (file : str) (dump_images : bool) (t e : Z)
    (target : list image) : list event :=
  match target with
  | [] => []
  | i :: rest =>
      image_lines file dump_images t e i
      ++ images_lines file dump_images t (e + 1) rest
  end.

Definition target_lines (file : str) (dump_images : bool) (name : bytes) (t : Z)
    (target : list image) : list event :=
  PrintTarget {| t_signature := blit "Target"; t_altsetting := target_alt target;
                 t_named := 1; t_name := name;
                 t_size := elements_size target; t_elements := len target;
                 t_num := t |}
  :: images_lines file dump_images t 0 target.

Fixpoint targets_lines (file : str) (dump_images : bool) (name : bytes) (t : Z)
    (targets : list (list image)) : list event :=
  match targets with
  | [] => []
  | target :: rest =>
      target_lines file dump_images name t target
      ++ targets_lines file dump_images name (t + 1) rest
  end.

(** The whole output for a file [content] built from [targets]: no
    diagnostic in it. *)
Definition shown (file : str) (dump_images : bool) (targets : list (list image))
    (name : bytes) (v d : Z) (content : bytes) : list event :=
  [PrintFile file;
   PrintPrefix {| p_signature := blit "DfuSe"; p_version := 1;
                  p_size := len content; p_targets := len targets |}]
  ++ targets_lines file dump_images name 0 targets
  ++ [PrintSuffix {| s_device := 0; s_product := d; s_vendor := v; s_dfu := 0x011A;
                     s_ufd := blit "UFD"; s_len := 16;
                     s_crc := compute_crc (Py.slice_to content (-4)) |}].

(** *** Targets that fit the fields of the format

    What [struct.pack] asks of the numbers [build] hands it.  An image
    fits when its address is a number of 32 bits.  The targets fit, from
    a given value of the variable [ealt], when at the end of each of
    them [ealt] holds a byte: the [alt] of the last image of the target
    or, for an empty target, of the last image before it; an empty
    first target leaves it unbound.  A list of targets fits when it has
    at most 255 of them, the whole file is shorter than [2 ^ 32] bytes
    (so is then every target, and every image), and the targets fit
    from the unbound [ealt]. *)
Definition image_fits (i : image) : bool :=
  (0 <=? address i) && (address i <? 2 ^ 32).

Fixpoint targets_fit_from (ealt : option Z) (targets : list (list image)) : bool :=
  match targets with
  | [] => true
  | target :: rest =>
      match Wire.last_alt ealt target with
      | Some a =>
          (0 <=? a) && (a <? 2 ^ 8) && forallb image_fits target
          && targets_fit_from (Some a) rest
      | None => false
      end
  end.

Definition targets_fit (targets : list (list image)) : bool :=
  (len targets <? 2 ^ 8)
  && (PREFIX_SIZE + blobs_size targets + SUFFIX_SIZE <? 2 ^ 32)
  && targets_fit_from None targets.

(** *** Images as [parse] dumps them

    The files written when the images of a built file are dumped: one
    per image, named after the file, the target and the element. *)
Fixpoint dumped_elements (file : str) (t e : Z) (target : list image)
  : list (path * bytes) :=
  match target with
  | [] => []
  | i :: rest => (ImageFile file t e, data i) :: dumped_elements file t (e + 1) rest
  end.

Fixpoint dumped_targets (file : str) (t : Z) (targets : list (list image))
  : list (path * bytes) :=
  match targets with
  | [] => []
  | target :: rest =>
      dumped_elements file t 0 target ++ dumped_targets file (t + 1) rest
  end.

(** *** Targets as the binary files are grouped into them

    What a descriptor of the option [-b] brings in: an image holding
    the bytes of the file named after the colon, at an address of 32
    bits. *)
Definition ingests (w : world) (arg : str) (i : image) : Prop :=
  exists addr binfile,
    Py.split1 ":" arg = [addr; binfile]
    /\ file_bytes w binfile = Some (data i)
    /\ 0 <= address i < 2 ^ 32.

Definition one_alt (a : Z) (target : list image) : bool :=
  forallb (fun i => alt i =? a) target.

(** No two neighbours among the targets have the same alternate
    setting. *)
Fixpoint alts_differ (targets : list (list image)) : bool :=
  match targets with
  | t1 :: rest =>
      match rest with
      | t2 :: _ => negb (target_alt t1 =? target_alt t2)
      | [] => true
      end && alts_differ rest
  | [] => true
  end.

(** *** Sample inputs *)

Module Examples.

Definition out_file : str := lit "out.dfu".

Definition fw_a : image :=
  {| address := 0x08000000; alt := 0; data := blit "boot" |}.
Definition fw_b : image :=
  {| address := 0x08004000; alt := 0; data := blit "app" |}.
Definition fw_c : image :=
  {| address := 0x90000000; alt := 1; data := blit "ext!" |}.

(** Two targets, one alternate setting each. *)
Definition two_targets : list (list image) := [[fw_a; fw_b]; [fw_c]].

(** One target whose elements differ in [alt]. *)
Definition mixed_targets : list (list image) := [[fw_a; fw_c]].

(** Targets with images of other lengths, and one whose last image has
    an alternate setting of its own. *)
Definition fw_loader : image :=
  {| address := 0x08000000; alt := 0; data := blit "bootloader" |}.
Definition fw_main : image :=
  {| address := 0x08004000; alt := 0; data := blit "application image" |}.
Definition fw_ext : image :=
  {| address := 0x90000000; alt := 1; data := blit "external flash" |}.

Definition long_targets : list (list image) := [[fw_loader; fw_main]; [fw_ext]].
Definition long_mixed_targets : list (list image) := [[fw_main]; [fw_loader; fw_ext]].

(** A raw binary that already carries a valid suffix, the one file of
    a small world, and the command line that names it. *)
Definition payload : bytes := blit "firmware image".

Definition sealed_suffix : suffix_t :=
  Wire.suffix_of 0x0483 0xdf11
    (compute_crc (payload ++ Wire.enc_suffix_head (Wire.suffix_of 0x0483 0xdf11 0))).

Fixpoint str_eqb (x y : str) : bool :=
  match x, y with
  | [], [] => true
  | c :: x', d :: y' => Ascii.eqb c d && str_eqb x' y'
  | _, _ => false
  end.

Definition one_file (name : str) (content : bytes) : world :=
  {| file_bytes := fun p => if str_eqb p name then Some content else None;
     file_lines := fun _ => None;
     IntelHex := None |}.

Definition build_options (binfiles : list str) : options_t :=
  {| o_binfiles := Some binfiles; o_hexfiles := None; o_s19files := None;
     o_device := None; o_alt := None; o_dump_images := false |}.

(** S-record files, as the lines [readlines()] gives: data records
    of four bytes each, with their checksums. *)
Definition nl (x : string) : str := lit x ++ ["010"%char].

Definition rec_1000 : str := nl "S1071000DEADBEEFB0".
Definition rec_1004 : str := nl "S1071004DEADBEEFAC".
Definition rec_2000 : str := nl "S1072000DEADBEEFA0".
Definition rec_0000 : str := nl "S1070000DEADBEEFC0".
Definition rec_end : str := nl "S9030000FC".

Definition dead_beef : bytes := [Byte.xde; Byte.xad; Byte.xbe; Byte.xef].

Definition s19_world (lines : list str) : world :=
  {| file_bytes := fun _ => None;
     file_lines := fun p => if str_eqb p (lit "fw.s19") then Some lines else None;
     IntelHex := None |}.

Definition s19_options : options_t :=
  {| o_binfiles := None; o_hexfiles := None; o_s19files := Some (lit "fw.s19");
     o_device := None; o_alt := None; o_dump_images := false |}.

(** Two two-target containers on the wire, well formed but for one
    thing each.  In one the first target declares one byte more than
    its element uses; in the other its element declares 100 bytes
    where 4 are left. *)
Definition st_name : bytes := Struct.pack_s 255 DEFAULT_NAME.

Definition el_boot : Wire.elem :=
  {| Wire.el_address := 0x08000000; Wire.el_size := 4; Wire.el_data := blit "boot" |}.
Definition el_app : Wire.elem :=
  {| Wire.el_address := 0x08004000; Wire.el_size := 3; Wire.el_data := blit "app" |}.
Definition el_long : Wire.elem :=
  {| Wire.el_address := 0x08000000; Wire.el_size := 100; Wire.el_data := blit "boot" |}.

Definition wire_target (altsetting : Z) (elements : list Wire.elem) (rest : bytes)
  : Wire.tgt :=
  {| Wire.tg_signature := blit "Target"; Wire.tg_altsetting := altsetting;
     Wire.tg_named := 1; Wire.tg_name := st_name;
     Wire.tg_elements := elements; Wire.tg_rest := rest |}.

Definition wire_file (targets : list Wire.tgt) : Wire.container :=
  {| Wire.ct_signature := blit "DfuSe"; Wire.ct_version := 1;
     Wire.ct_size := PREFIX_SIZE + len (Wire.enc_targets targets) + SUFFIX_SIZE;
     Wire.ct_targets := targets;
     Wire.ct_suffix := Wire.suffix_of 0x0483 0xdf11 0;
     Wire.ct_rest := [] |}.

Definition tgt_trailing : Wire.tgt := wire_target 0 [el_boot] [Byte.x2a].
Definition tgt_overlong : Wire.tgt := wire_target 0 [el_long] [].
Definition tgt_plain : Wire.tgt := wire_target 1 [el_app] [].

Definition file_trailing : Wire.container := wire_file [tgt_trailing; tgt_plain].
Definition file_overlong : Wire.container := wire_file [tgt_overlong; tgt_plain].

(** The second container again, its first target declaring two
    elements. *)
Definition bytes_overlong_two : bytes :=
  Wire.enc_prefix file_overlong
  ++ Wire.enc_target_counted 2 tgt_overlong
  ++ Wire.enc_target tgt_plain
  ++ Wire.enc_suffix_head (Wire.ct_suffix file_overlong) ++ le_split 4 0.

End Examples.

(* ================================================================= *)
(** ** Facts about the CRC engine *)

Section Bits.

Lemma lxor_below (n a c : Z) :
  0 <= n -> 0 <= a < 2 ^ n -> 0 <= c < 2 ^ n -> 0 <= Z.lxor a c < 2 ^ n.
Proof.
  intros Hn Ha Hc.
  assert (Hnn : 0 <= Z.lxor a c) by (apply Z.lxor_nonneg; lia).
  split; [exact Hnn|].
  destruct (Z.eq_dec (Z.lxor a c) 0) as [E|E].
  - rewrite E. apply Z.pow_pos_nonneg; lia.
  - apply Z.log2_lt_pow2; [lia|].
    eapply Z.le_lt_trans; [apply Z.log2_lxor; lia|].
    apply Z.max_lub_lt.
    + destruct (Z.eq_dec a 0) as [->|]; [simpl|apply Z.log2_lt_pow2]; try lia.
      destruct (Z.eq_dec n 0) as [->|]; [|lia].
      assert (c = 0) by (simpl in Hc; lia). subst c. simpl in E. lia.
    + destruct (Z.eq_dec c 0) as [->|]; [simpl|apply Z.log2_lt_pow2]; try lia.
      destruct (Z.eq_dec n 0) as [->|]; [|lia].
      assert (a = 0) by (simpl in Ha; lia). subst a. simpl in E. lia.
Qed.

Lemma shiftr1_below (n a : Z) :
  0 <= a < 2 ^ n -> 0 <= Z.shiftr a 1 < 2 ^ n.
Proof.
  intros Ha. rewrite Z.shiftr_div_pow2 by lia.
  change (2 ^ 1) with 2. split.
  - apply Z.div_pos; lia.
  - apply Z.div_lt_upper_bound; lia.
Qed.

Lemma byte_range (x : byte) : 0 <= byte.unsigned x < 256.
Proof. apply byte.unsigned_range. Qed.

End Bits.

Module ZlibFacts.
Import Zlib.

Lemma step_bit_range c : 0 <= c < 2 ^ 32 -> 0 <= step_bit c < 2 ^ 32.
Proof.
  intros Hc. unfold step_bit.
  destruct (Z.testbit c 0).
  - apply lxor_below; [lia|apply shiftr1_below; exact Hc|unfold poly; lia].
  - apply shiftr1_below; exact Hc.
Qed.

Lemma step_byte_range c x : 0 <= c < 2 ^ 32 -> 0 <= step_byte c x < 2 ^ 32.
Proof.
  intros Hc. unfold step_byte.
  assert (H0 : 0 <= Z.lxor c (byte.unsigned x) < 2 ^ 32).
  { apply lxor_below; [lia|exact Hc|]. pose proof (byte_range x). lia. }
  revert H0. generalize (Z.lxor c (byte.unsigned x)) as c0.
  intros c0 H0.
  do 8 (apply step_bit_range in H0). exact H0.
Qed.

Lemma fold_step_range data : forall c,
  0 <= c < 2 ^ 32 -> 0 <= fold_left step_byte data c < 2 ^ 32.
Proof.
  induction data as [|x data IH]; intros c Hc; simpl; [exact Hc|].
  apply IH, step_byte_range, Hc.
Qed.

Lemma crc32_range data : 0 <= crc32 data < 2 ^ 32.
Proof.
  unfold crc32. apply lxor_below; [lia| |lia].
  apply fold_step_range. lia.
Qed.

(** The published check value of CRC-32: the checksum of the nine
    ASCII digits. *)
Example crc32_check : crc32 (blit "123456789") = 0xCBF43926.
Proof. vm_compute. reflexivity. Qed.

Example crc32_empty : crc32 [] = 0.
Proof. reflexivity. Qed.

End ZlibFacts.

Lemma compute_crc_sub data : compute_crc data = 0xFFFFFFFF - Zlib.crc32 data.
Proof.
  unfold compute_crc.
  pose proof (ZlibFacts.crc32_range data) as H.
  rewrite Z.land_comm.
  change 0xFFFFFFFF with (Z.ones 32).
  rewrite Z.land_ones by lia.
  replace (- Zlib.crc32 data - 1) with ((Z.ones 32 - Zlib.crc32 data) + (-1) * 2 ^ 32)
    by (change (Z.ones 32) with (2 ^ 32 - 1); lia).
  rewrite Z.mod_add by lia.
  apply Z.mod_small. change (Z.ones 32) with (2 ^ 32 - 1). lia.
Qed.

Lemma compute_crc_range data : 0 <= compute_crc data < 2 ^ 32.
Proof.
  rewrite compute_crc_sub. pose proof (ZlibFacts.crc32_range data). lia.
Qed.

(** C1: for every byte string, [compute_crc] is the one's complement of
    the zlib CRC-32 masked to 32 bits, [(~crc32(b)) & 0xFFFFFFFF], that
    is [0xFFFFFFFF - crc32(b)], a 32-bit value.  [compute_crc] is a
    function of the byte string alone: it reads no other state. *)
Theorem compute_crc_is_complement :
  forall data : bytes,
    compute_crc data = Z.land (Z.lnot (Zlib.crc32 data)) 0xFFFFFFFF
    /\ compute_crc data = 0xFFFFFFFF - Zlib.crc32 data
    /\ 0 <= compute_crc data < 2 ^ 32.
Proof.
  intros data. split; [|split].
  - unfold compute_crc. rewrite Z.land_comm.
    replace (- Zlib.crc32 data - 1) with (Z.lnot (Zlib.crc32 data))
      by (unfold Z.lnot; lia).
    reflexivity.
  - apply compute_crc_sub.
  - apply compute_crc_range.
Qed.

(* ================================================================= *)
(** ** Facts about slices, [struct] and the run monad *)

Lemma len_app {A} (x y : list A) : len (x ++ y) = len x + len y.
Proof. unfold len. rewrite length_app. lia. Qed.

Lemma len_nonneg {A} (x : list A) : 0 <= len x.
Proof. unfold len. lia. Qed.

Lemma len_nil_iff {A} (x : list A) : (len x =? 0) = true <-> x = [].
Proof.
  unfold len. rewrite Z.eqb_eq. destruct x; simpl; split; intros H;
    try reflexivity; try discriminate; lia.
Qed.

Module SliceFacts.
Import Py.

Lemma norm_index_nonneg {A} (x : list A) i : 0 <= i -> norm_index x i = Z.to_nat i.
Proof.
  intros H. unfold norm_index.
  destruct (i <? 0) eqn:E; [apply Z.ltb_lt in E; lia|reflexivity].
Qed.

Lemma norm_index_neg {A} (x : list A) i :
  i < 0 -> 0 <= len x + i -> norm_index x i = Z.to_nat (len x + i).
Proof.
  intros H H'. unfold norm_index.
  destruct (i <? 0) eqn:E; [|apply Z.ltb_ge in E; lia].
  rewrite Z.max_r by lia. reflexivity.
Qed.

(** Cutting a concatenation at the length of its first part. *)
Lemma slice_to_app {A} (x y : list A) n :
  n = len x -> slice_to (x ++ y) n = x.
Proof.
  intros ->. unfold slice_to. rewrite norm_index_nonneg by apply len_nonneg.
  unfold len. rewrite Nat2Z.id.
  rewrite firstn_app, Nat.sub_diag, firstn_all. simpl. apply app_nil_r.
Qed.

Lemma slice_from_app {A} (x y : list A) n :
  n = len x -> slice_from (x ++ y) n = y.
Proof.
  intros ->. unfold slice_from. rewrite norm_index_nonneg by apply len_nonneg.
  unfold len. rewrite Nat2Z.id.
  rewrite skipn_app, Nat.sub_diag, skipn_all. reflexivity.
Qed.

(** A cut beyond the end takes everything and leaves nothing. *)
Lemma slice_to_all {A} (x : list A) n : len x <= n -> slice_to x n = x.
Proof.
  intros H. unfold slice_to. pose proof (len_nonneg x).
  rewrite norm_index_nonneg by lia.
  apply firstn_all2. unfold len in H. lia.
Qed.

Lemma slice_from_all {A} (x : list A) n : len x <= n -> slice_from x n = [].
Proof.
  intros H. unfold slice_from. pose proof (len_nonneg x).
  rewrite norm_index_nonneg by lia.
  apply skipn_all2. unfold len in H. lia.
Qed.

(** [x[:k]] and [x[k:]], for a negative [k], of a sequence that ends
    with [-k] items. *)
Lemma slice_to_neg_app {A} (x y : list A) k :
  k < 0 -> - k = len y -> slice_to (x ++ y) k = x.
Proof.
  intros Hk E. unfold slice_to.
  rewrite norm_index_neg by (rewrite ?len_app; pose proof (len_nonneg x); lia).
  rewrite len_app. replace (len x + len y + k) with (len x) by lia.
  unfold len. rewrite Nat2Z.id.
  rewrite firstn_app, Nat.sub_diag, firstn_all. simpl. apply app_nil_r.
Qed.

Lemma slice_from_neg_app {A} (x y : list A) k :
  k < 0 -> - k = len y -> slice_from (x ++ y) k = y.
Proof.
  intros Hk E. unfold slice_from.
  rewrite norm_index_neg by (rewrite ?len_app; pose proof (len_nonneg x); lia).
  rewrite len_app. replace (len x + len y + k) with (len x) by lia.
  unfold len. rewrite Nat2Z.id.
  rewrite skipn_app, Nat.sub_diag, skipn_all. reflexivity.
Qed.

End SliceFacts.

Module StructFacts.
Import Struct.

Lemma pack_int_inv n z x :
  pack_int n z = Some x -> x = le_split n z /\ 0 <= z < 2 ^ (8 * Z.of_nat n).
Proof.
  unfold pack_int. intros H.
  destruct ((0 <=? z) && (z <? 2 ^ (8 * Z.of_nat n))) eqn:E; [|discriminate].
  apply andb_prop in E. destruct E as [E1 E2].
  apply Z.leb_le in E1. apply Z.ltb_lt in E2.
  inversion H. split; [reflexivity|lia].
Qed.

Lemma pack_int_ok n z :
  0 <= z < 2 ^ (8 * Z.of_nat n) -> pack_int n z = Some (le_split n z).
Proof.
  intros [H1 H2]. unfold pack_int.
  apply Z.leb_le in H1. apply Z.ltb_lt in H2. rewrite H1, H2. reflexivity.
Qed.

Lemma length_pack_s n x : List.length (pack_s n x) = n.
Proof.
  unfold pack_s. rewrite length_app, length_firstn, repeat_length. lia.
Qed.

Lemma pack_s_exact n x : List.length x = n -> pack_s n x = x.
Proof.
  intros <-. unfold pack_s. rewrite firstn_all, Nat.sub_diag. apply app_nil_r.
Qed.

Lemma length_pack_one c v x : pack_one c v = Some x -> List.length x = code_size c.
Proof.
  destruct c, v; simpl; intros H; try discriminate;
    try (apply pack_int_inv in H; destruct H as [-> _]; apply length_le_split).
  inversion H. apply length_pack_s.
Qed.

Lemma length_pack f : forall vs x, pack f vs = Some x -> List.length x = calcsize f.
Proof.
  induction f as [|c f IH]; intros [|v vs] x H; simpl in H; try discriminate.
  - inversion H. reflexivity.
  - destruct (pack_one c v) as [y|] eqn:E1; [|discriminate].
    destruct (pack f vs) as [r|] eqn:E2; [|discriminate].
    inversion H. rewrite length_app. simpl.
    rewrite (length_pack_one _ _ _ E1), (IH _ _ E2). reflexivity.
Qed.

(** What [unpack] gives back for a packed value: an integer as it
    was, a byte string as the field holds it. *)
Definition stored (c : code) (v : val) : val :=
  match c, v with
  | c_s n, Bytes x => Bytes (pack_s n x)
  | _, _ => v
  end.

Fixpoint stored_all (f : fmt) (vs : list val) : list val :=
  match f, vs with
  | c :: f', v :: vs' => stored c v :: stored_all f' vs'
  | _, _ => []
  end.

Lemma unpack_one_pack_one c v x :
  pack_one c v = Some x -> unpack_one c x = stored c v.
Proof.
  destruct c, v; simpl; intros H; try discriminate;
    try (apply pack_int_inv in H; destruct H as [-> R];
         rewrite le_combine_split; f_equal; apply Z.mod_small;
         rewrite Z.mul_comm; exact R).
  inversion H. reflexivity.
Qed.

Lemma unpack_fields_pack f : forall vs x,
  pack f vs = Some x -> unpack_fields f x = stored_all f vs.
Proof.
  induction f as [|c f IH]; intros [|v vs] x H; simpl in H; try discriminate.
  - reflexivity.
  - destruct (pack_one c v) as [y|] eqn:E1; [|discriminate].
    destruct (pack f vs) as [r|] eqn:E2; [|discriminate].
    inversion H. subst x. simpl.
    pose proof (length_pack_one _ _ _ E1) as L.
    rewrite firstn_app, skipn_app, L, Nat.sub_diag.
    rewrite <- L at 1 2. rewrite firstn_all, skipn_all. simpl.
    rewrite app_nil_r, (unpack_one_pack_one _ _ _ E1), (IH _ _ E2).
    reflexivity.
Qed.

(** Round trip of the layouts: unpacking what was packed. *)
Lemma unpack_pack f vs x :
  pack f vs = Some x -> unpack f x = Some (stored_all f vs).
Proof.
  intros H. unfold unpack.
  rewrite (length_pack _ _ _ H), Nat.eqb_refl, (unpack_fields_pack _ _ _ H).
  reflexivity.
Qed.

Lemma unpack_short f x : (List.length x < calcsize f)%nat -> unpack f x = None.
Proof.
  intros H. unfold unpack.
  destruct (Nat.eqb_spec (List.length x) (calcsize f)); [lia|reflexivity].
Qed.

End StructFacts.

Section Run.

Lemma bind_ret {A B} (a : A) (k : A -> M B) : bind (ret a) k = k a.
Proof. unfold bind, ret. destruct (k a). reflexivity. Qed.

Lemma bind_emit {B} (e : event) (k : unit -> M B) :
  bind (emit e) k = (e :: fst (k tt), snd (k tt)).
Proof. unfold bind, emit. destruct (k tt). reflexivity. Qed.

Lemma bind_raise {A B} (e : Py.exn) (k : A -> M B) : bind (raise e) k = raise e.
Proof. reflexivity. Qed.

Lemma bind_out {A B} (out : list event) (a : A) (k : A -> M B) :
  bind (out, Ok a) k = (out ++ fst (k a), snd (k a)).
Proof. unfold bind. destruct (k a). reflexivity. Qed.

(** [consume] on a buffer that starts with a packed record. *)
Lemma consume_pack {R} f vs x rest (names : list val -> R) :
  Struct.pack f vs = Some x ->
  consume f (x ++ rest) names = ret (names (StructFacts.stored_all f vs), rest).
Proof.
  intros H. unfold consume.
  pose proof (StructFacts.length_pack _ _ _ H) as L.
  rewrite SliceFacts.slice_to_app, SliceFacts.slice_from_app
    by (unfold len; rewrite L; reflexivity).
  rewrite (StructFacts.unpack_pack _ _ _ H). reflexivity.
Qed.

(** [consume] on a buffer too short for the record raises. *)
Lemma consume_short {R} f x (names : list val -> R) :
  (List.length x < Struct.calcsize f)%nat ->
  consume f x names = raise Py.StructError.
Proof.
  intros H. unfold consume.
  rewrite SliceFacts.slice_to_all by (unfold len; lia).
  rewrite StructFacts.unpack_short by exact H. reflexivity.
Qed.

End Run.


Lemma bind_ok_inv {A B} (m : M A) (k : A -> M B) out r :
  bind m k = (out, Ok r) ->
  exists o1 a o2, m = (o1, Ok a) /\ k a = (o2, Ok r) /\ out = o1 ++ o2.
Proof.
  unfold bind. destruct m as [o1 [a|e]]; [|discriminate].
  destruct (k a) as [o2 r'] eqn:E. intros H. inversion H. subst.
  exists o1, a, o2. auto.
Qed.

Lemma orelse_ok_inv {A} (o : option A) e out r :
  orelse o e = (out, Ok r) -> o = Some r /\ out = [].
Proof.
  destruct o; simpl; unfold ret, raise; intros H; inversion H. auto.
Qed.

Lemma ret_ok_inv {A} (a : A) out r : ret a = (out, Ok r) -> r = a /\ out = [].
Proof. unfold ret. intros H. inversion H. auto. Qed.

Lemma emit_ok_inv (e : event) out r : emit e = (out, Ok r) -> out = [e].
Proof. unfold emit. intros H. inversion H. reflexivity. Qed.

(** Takes apart a hypothesis saying that a sequence of library calls
    came to a normal end. *)
Ltac run_inv H :=
  repeat match type of H with
  | bind _ _ = (_, Ok _) =>
      let o1 := fresh "o" in let a := fresh "a" in let o2 := fresh "o" in
      let H1 := fresh "Hrun" in let Ho := fresh "Hout" in
      apply bind_ok_inv in H; destruct H as (o1 & a & o2 & H1 & H & Ho);
      try (apply orelse_ok_inv in H1; destruct H1 as [H1 ->])
  end.

Ltac split_all := repeat match goal with |- _ /\ _ => split end.

(** [Some x = Some h] gives [h := x], without unfolding [x]. *)
Ltac some_eq H :=
  match type of H with
  | Some ?x = Some ?h =>
      let E := fresh in
      assert (E : h = x) by (symmetry; exact (f_equal (fun o => match o with Some v => v | None => x end) H));
      clear H; subst h
  end.

(* ================================================================= *)
(** ** What [build] writes *)

Module BuildFacts.
Import Wire Struct StructFacts.

Lemma pack_eprefix_inv a n h :
  pack fmt_eprefix [Int a; Int n] = Some h ->
  h = le_split 4 a ++ le_split 4 n /\ u32 a /\ u32 n.
Proof.
  unfold fmt_eprefix. cbn [pack pack_one code_size]. intros H.
  destruct (pack_int 4 a) as [x|] eqn:E1; [|discriminate].
  destruct (pack_int 4 n) as [y|] eqn:E2; [|discriminate].
  apply pack_int_inv in E1, E2. destruct E1 as [-> R1], E2 as [-> R2].
  some_eq H. rewrite app_nil_r. split_all; first [reflexivity|assumption].
Qed.

Lemma pack_eprefix_ok a n :
  u32 a -> u32 n -> pack fmt_eprefix [Int a; Int n] = Some (le_split 4 a ++ le_split 4 n).
Proof.
  intros Ha Hn. unfold fmt_eprefix. cbn [pack pack_one code_size].
  rewrite !pack_int_ok by assumption. rewrite app_nil_r. reflexivity.
Qed.

Lemma pack_tprefix_inv sig a named name size count h :
  pack fmt_tprefix [Bytes sig; Int a; Int named; Bytes name; Int size; Int count] = Some h ->
  h = pack_s 6 sig ++ le_split 1 a ++ le_split 4 named ++ pack_s 255 name
      ++ le_split 4 size ++ le_split 4 count
  /\ u8 a /\ u32 named /\ u32 size /\ u32 count.
Proof.
  unfold fmt_tprefix. cbn [pack pack_one code_size]. intros H.
  destruct (pack_int 1 a) as [x1|] eqn:E1; [|discriminate].
  destruct (pack_int 4 named) as [x2|] eqn:E2; [|discriminate].
  destruct (pack_int 4 size) as [x3|] eqn:E3; [|discriminate].
  destruct (pack_int 4 count) as [x4|] eqn:E4; [|discriminate].
  apply pack_int_inv in E1, E2, E3, E4.
  destruct E1 as [-> R1], E2 as [-> R2], E3 as [-> R3], E4 as [-> R4].
  some_eq H. rewrite app_nil_r. split_all; first [reflexivity|assumption].
Qed.

Lemma pack_tprefix_ok sig a named name size count :
  u8 a -> u32 named -> u32 size -> u32 count ->
  pack fmt_tprefix [Bytes sig; Int a; Int named; Bytes name; Int size; Int count]
  = Some (pack_s 6 sig ++ le_split 1 a ++ le_split 4 named ++ pack_s 255 name
          ++ le_split 4 size ++ le_split 4 count).
Proof.
  intros. unfold fmt_tprefix. cbn [pack pack_one code_size].
  rewrite !pack_int_ok by assumption. rewrite app_nil_r. reflexivity.
Qed.

Lemma pack_prefix_inv sig ver size count h :
  pack fmt_prefix [Bytes sig; Int ver; Int size; Int count] = Some h ->
  h = pack_s 5 sig ++ le_split 1 ver ++ le_split 4 size ++ le_split 1 count
  /\ u8 ver /\ u32 size /\ u8 count.
Proof.
  unfold fmt_prefix. cbn [pack pack_one code_size]. intros H.
  destruct (pack_int 1 ver) as [x1|] eqn:E1; [|discriminate].
  destruct (pack_int 4 size) as [x2|] eqn:E2; [|discriminate].
  destruct (pack_int 1 count) as [x3|] eqn:E3; [|discriminate].
  apply pack_int_inv in E1, E2, E3.
  destruct E1 as [-> R1], E2 as [-> R2], E3 as [-> R3].
  some_eq H. rewrite app_nil_r. split_all; first [reflexivity|assumption].
Qed.

Lemma pack_prefix_ok sig ver size count :
  u8 ver -> u32 size -> u8 count ->
  pack fmt_prefix [Bytes sig; Int ver; Int size; Int count]
  = Some (pack_s 5 sig ++ le_split 1 ver ++ le_split 4 size ++ le_split 1 count).
Proof.
  intros. unfold fmt_prefix. cbn [pack pack_one code_size].
  rewrite !pack_int_ok by assumption. rewrite app_nil_r. reflexivity.
Qed.

Lemma pack_suffix_head_ok dev prod vend dfu ufd l :
  u16 dev -> u16 prod -> u16 vend -> u16 dfu -> u8 l ->
  pack fmt_suffix_head [Int dev; Int prod; Int vend; Int dfu; Bytes ufd; Int l]
  = Some (le_split 2 dev ++ le_split 2 prod ++ le_split 2 vend ++ le_split 2 dfu
          ++ pack_s 3 ufd ++ le_split 1 l).
Proof.
  intros. unfold fmt_suffix_head. cbn [pack pack_one code_size].
  rewrite !pack_int_ok by assumption. rewrite app_nil_r. reflexivity.
Qed.

Lemma pack_suffix_head_inv dev prod vend dfu ufd l h :
  pack fmt_suffix_head [Int dev; Int prod; Int vend; Int dfu; Bytes ufd; Int l] = Some h ->
  h = le_split 2 dev ++ le_split 2 prod ++ le_split 2 vend ++ le_split 2 dfu
      ++ pack_s 3 ufd ++ le_split 1 l
  /\ u16 dev /\ u16 prod /\ u16 vend /\ u16 dfu /\ u8 l.
Proof.
  unfold fmt_suffix_head. cbn [pack pack_one code_size]. intros H.
  destruct (pack_int 2 dev) as [x1|] eqn:E1; [|discriminate].
  destruct (pack_int 2 prod) as [x2|] eqn:E2; [|discriminate].
  destruct (pack_int 2 vend) as [x3|] eqn:E3; [|discriminate].
  destruct (pack_int 2 dfu) as [x4|] eqn:E4; [|discriminate].
  destruct (pack_int 1 l) as [x5|] eqn:E5; [|discriminate].
  apply pack_int_inv in E1, E2, E3, E4, E5.
  destruct E1 as [-> R1], E2 as [-> R2], E3 as [-> R3], E4 as [-> R4], E5 as [-> R5].
  some_eq H. rewrite app_nil_r. split_all; first [reflexivity|assumption].
Qed.

Lemma pack_crc_inv crc h :
  pack fmt_crc [Int crc] = Some h -> h = le_split 4 crc /\ u32 crc.
Proof.
  unfold fmt_crc. cbn [pack pack_one code_size]. intros H.
  destruct (pack_int 4 crc) as [x1|] eqn:E1; [|discriminate].
  apply pack_int_inv in E1. destruct E1 as [-> R1].
  some_eq H. rewrite app_nil_r. split_all; first [reflexivity|assumption].
Qed.

Lemma pack_suffix_ok dev prod vend dfu ufd l crc :
  u16 dev -> u16 prod -> u16 vend -> u16 dfu -> u8 l -> u32 crc ->
  pack fmt_suffix [Int dev; Int prod; Int vend; Int dfu; Bytes ufd; Int l; Int crc]
  = Some (le_split 2 dev ++ le_split 2 prod ++ le_split 2 vend ++ le_split 2 dfu
          ++ pack_s 3 ufd ++ le_split 1 l ++ le_split 4 crc).
Proof.
  intros. unfold fmt_suffix. cbn [pack pack_one code_size].
  rewrite !pack_int_ok by assumption. rewrite app_nil_r. reflexivity.
Qed.

Lemma pack_crc_ok crc : u32 crc -> pack fmt_crc [Int crc] = Some (le_split 4 crc).
Proof.
  intros. unfold fmt_crc. cbn [pack pack_one code_size].
  rewrite pack_int_ok by assumption. rewrite app_nil_r. reflexivity.
Qed.

Lemma last_alt_app ealt x y : last_alt ealt (x ++ y) = last_alt (last_alt ealt x) y.
Proof. unfold last_alt. apply fold_left_app. Qed.

(** The inner loop of [build], when it comes to an end: nothing is
    printed, the elements are laid out after [tdata], and every header
    field was in range. *)
Lemma build_images_inv : forall target tdata ealt out r,
  build_images target tdata ealt = (out, Ok r) ->
  out = []
  /\ r = (tdata ++ enc_elements (map element_of target), last_alt ealt target)
  /\ elements_ok (map element_of target) [].
Proof.
  induction target as [|i target IH]; intros tdata ealt out r H; simpl in H.
  - apply ret_ok_inv in H. destruct H as [-> ->].
    rewrite app_nil_r. simpl. auto.
  - run_inv H. apply pack_eprefix_inv in Hrun. destruct Hrun as (-> & Ra & Rn).
    apply IH in H. destruct H as (-> & -> & Hok). subst out.
    split; [reflexivity|]. split.
    + cbn [map enc_elements flat_map last_alt fold_left].
      unfold enc_element at 1. cbn [element_of el_address el_size el_data].
      rewrite <- !app_assoc. reflexivity.
    + cbn [map elements_ok element_of el_address el_size el_data]. auto.
Qed.

Lemma len_map {A B} (f : A -> B) (x : list A) : len (map f x) = len x.
Proof. unfold len. rewrite length_map. reflexivity. Qed.

(** The outer loop of [build], when it comes to an end. *)
Lemma build_targets_inv : forall targets name data ealt out r,
  build_targets targets name data ealt = (out, Ok r) ->
  out = []
  /\ r = data ++ enc_targets (targets_of name ealt targets)
  /\ Forall target_ok (targets_of name ealt targets).
Proof.
  induction targets as [|target targets IH]; intros name data ealt out r H;
    cbn [build_targets] in H.
  - apply ret_ok_inv in H. destruct H as [-> ->].
    rewrite app_nil_r. split_all; auto.
  - run_inv H. destruct a as [tdata ealt'].
    apply build_images_inv in Hrun. destruct Hrun as (-> & E & Hels).
    injection E as -> ->. run_inv H.
    apply pack_tprefix_inv in Hrun0.
    destruct Hrun0 as (-> & Ra & Rnamed & Rsize & Rcount).
    apply IH in H. destruct H as (-> & -> & Hts). subst.
    assert (Et : target_body (target_of name ealt target)
                 = enc_elements (map element_of target)).
    { unfold target_body. cbn [target_of tg_elements tg_rest]. apply app_nil_r. }
    split_all.
    + reflexivity.
    + cbn [targets_of enc_targets flat_map]. unfold enc_target at 1.
      rewrite Et. cbn [target_of tg_signature tg_altsetting tg_named tg_name tg_elements].
      rewrite Hrun, len_map. cbn [app]. rewrite <- !app_assoc. reflexivity.
    + cbn [targets_of]. constructor; [|exact Hts].
      unfold target_ok. rewrite Et.
      cbn [target_of tg_signature tg_altsetting tg_named tg_name tg_elements tg_rest].
      rewrite Hrun, len_map. split_all; try assumption; try reflexivity.
      apply length_pack_s.
Qed.

Lemma enc_checked_crc targets name v d crc :
  enc_checked (unchecked_container_of targets name v d crc)
  = enc_checked (unchecked_container_of targets name v d 0).
Proof. reflexivity. Qed.

(** [build], when it comes to an end, has written one file, and the
    file is the layout of [container_of], every field within its
    width. *)
Lemma build_inv file targets name device out :
  build file targets name device = (out, Ok tt) ->
  exists v d,
    parse_device device = Some (v, d)
    /\ out = [Write (File file) (enc_container (container_of targets name v d))]
    /\ container_ok (container_of targets name v d).
Proof.
  unfold build. intros H. run_inv H.
  apply build_targets_inv in Hrun. destruct Hrun as (-> & -> & Hts).
  apply pack_prefix_inv in Hrun0. destruct Hrun0 as (-> & Rver & Rsize & Rcount).
  destruct a1 as [v d]. run_inv H.
  apply pack_suffix_head_inv in Hrun. destruct Hrun as (-> & _ & Rd & Rv & _ & _).
  apply pack_crc_inv in Hrun0. destruct Hrun0 as (-> & Rcrc).
  apply emit_ok_inv in H. subst. cbn [app] in *.
  set (ts := targets_of name None targets) in *.
  assert (Elen : len ts = len targets).
  { unfold ts, len. f_equal. clear. generalize (@None Z).
    induction targets as [|x l IH]; intros o; cbn [targets_of List.length];
      [reflexivity|rewrite IH; reflexivity]. }
  assert (Echk : enc_checked (container_of targets name v d)
                 = (pack_s 5 (blit "DfuSe") ++ le_split 1 1
                    ++ le_split 4 (PREFIX_SIZE + len (enc_targets ts) + SUFFIX_SIZE)
                    ++ le_split 1 (len targets)) ++ enc_targets ts
                   ++ le_split 2 0 ++ le_split 2 d ++ le_split 2 v
                   ++ le_split 2 282 ++ pack_s 3 (blit "UFD") ++ le_split 1 SUFFIX_SIZE).
  { unfold container_of. rewrite enc_checked_crc.
    unfold enc_checked, enc_prefix, enc_suffix_head, unchecked_container_of.
    cbn [ct_signature ct_version ct_size ct_targets ct_suffix suffix_of
         s_device s_product s_vendor s_dfu s_ufd s_len].
    fold ts. rewrite Elen. rewrite <- !app_assoc. reflexivity. }
  assert (Ecrc : s_crc (ct_suffix (container_of targets name v d))
                 = compute_crc (enc_checked (container_of targets name v d))).
  { unfold container_of at 1. cbn [unchecked_container_of ct_suffix suffix_of s_crc].
    f_equal. }
  exists v, d. split; [exact Hrun1|]. split.
  - unfold enc_container.
    change (ct_rest (container_of targets name v d)) with (@nil byte).
    rewrite Ecrc, Echk, app_nil_r, <- !app_assoc. reflexivity.
  - unfold container_ok.
    cbn [container_of unchecked_container_of ct_signature ct_version ct_size
         ct_targets ct_suffix]. fold ts. rewrite Elen.
    split; [reflexivity|]. split; [exact Rver|]. split; [exact Rsize|].
    split; [exact Rcount|]. split; [exact Hts|].
    unfold suffix_ok, suffix_of.
    cbn [s_device s_product s_vendor s_dfu s_ufd s_len s_crc].
    split_all;
      [ unfold u16; lia | exact Rd | exact Rv | unfold u16; lia | reflexivity
      | unfold u8, SUFFIX_SIZE; lia | apply compute_crc_range ].
Qed.

(** The converse: when every field is within its width and no target
    is empty, [build] comes to an end and writes the layout. *)
Lemma build_images_ok : forall target tdata ealt,
  elements_ok (map element_of target) [] ->
  build_images target tdata ealt
  = ret (tdata ++ enc_elements (map element_of target), last_alt ealt target).
Proof.
  induction target as [|i target IH]; intros tdata ealt Hok.
  - cbn [build_images map enc_elements flat_map]. rewrite app_nil_r. reflexivity.
  - cbn [map elements_ok] in Hok. destruct Hok as (Ra & Rs & _ & Hok).
    cbn [element_of el_address el_size] in Ra, Rs.
    cbn [build_images]. rewrite (pack_eprefix_ok _ _ Ra Rs). cbn [orelse].
    rewrite bind_ret, (IH _ _ Hok).
    cbn [map enc_elements flat_map]. unfold enc_element at 2.
    cbn [element_of el_address el_size el_data].
    rewrite <- !app_assoc. reflexivity.
Qed.

Lemma last_alt_bound ealt target :
  target <> [] -> exists a, last_alt ealt target = Some a.
Proof.
  intros Hne. destruct (exists_last Hne) as (front & i & ->).
  exists (alt i). unfold last_alt. rewrite fold_left_app. reflexivity.
Qed.

Lemma build_targets_ok name : forall targets data ealt,
  Forall (fun target => target <> []) targets ->
  Forall target_ok (targets_of name ealt targets) ->
  build_targets targets name data ealt
  = ret (data ++ enc_targets (targets_of name ealt targets)).
Proof.
  induction targets as [|target targets IH]; intros data ealt Hne Hok.
  - cbn [build_targets targets_of enc_targets flat_map]. rewrite app_nil_r. reflexivity.
  - inversion Hne as [|? ? Hne1 Hne2]. subst.
    cbn [targets_of] in Hok. inversion Hok as [|? ? Hx Hts]. subst.
    destruct Hx as (_ & Ra & Rn & _ & Rsize & Rcount & Hels).
    cbn [target_of tg_altsetting tg_named tg_elements tg_rest] in Ra, Rn, Rcount, Hels.
    unfold target_body in Rsize.
    cbn [target_of tg_elements tg_rest] in Rsize.
    rewrite app_nil_r in Rsize. rewrite len_map in Rcount.
    destruct (last_alt_bound ealt target Hne1) as (a & Ea). rewrite Ea in Ra.
    cbn [build_targets]. rewrite (build_images_ok _ _ _ Hels), bind_ret.
    rewrite Ea. cbn [orelse app]. rewrite bind_ret.
    rewrite (pack_tprefix_ok _ _ _ _ _ _ Ra Rn Rsize Rcount). cbn [orelse].
    rewrite bind_ret, <- Ea, (IH _ _ Hne2 Hts).
    cbn [targets_of enc_targets flat_map].
    fold (enc_targets (targets_of name (last_alt ealt target) targets)).
    unfold enc_target, target_body.
    cbn [target_of tg_signature tg_altsetting tg_named tg_name tg_elements tg_rest].
    rewrite Ea, len_map, !app_nil_r, <- !app_assoc. reflexivity.
Qed.

Lemma build_total file targets name device v d :
  parse_device device = Some (v, d) ->
  Forall (fun target => target <> []) targets ->
  container_ok (container_of targets name v d) ->
  build file targets name device
  = ([Write (File file) (enc_container (container_of targets name v d))], Ok tt).
Proof.
  intros Hdev Hne (_ & Rver & Rsize & Rcount & Hts & Hsfx).
  change (ct_targets (container_of targets name v d))
    with (targets_of name None targets) in Hts, Rcount.
  change (ct_size (container_of targets name v d))
    with (PREFIX_SIZE + len (enc_targets (targets_of name None targets)) + SUFFIX_SIZE)
    in Rsize.
  change (ct_version (container_of targets name v d)) with 1 in Rver.
  destruct Hsfx as (R1 & R2 & R3 & R4 & _ & R5 & _).
  change (ct_suffix (container_of targets name v d))
    with (suffix_of v d (compute_crc (enc_checked (unchecked_container_of targets name v d 0))))
    in R1, R2, R3, R4, R5.
  cbn [suffix_of s_device s_product s_vendor s_dfu s_len] in R1, R2, R3, R4, R5.
  assert (Elen : len (targets_of name None targets) = len targets).
  { unfold len. f_equal. clear. generalize (@None Z).
    induction targets as [|x l IH]; intros o; cbn [targets_of List.length];
      [reflexivity|rewrite IH; reflexivity]. }
  rewrite Elen in Rcount.
  assert (Hend : exists out, build file targets name device = (out, Ok tt)).
  { unfold build. rewrite (build_targets_ok name targets [] None Hne Hts), bind_ret.
    cbn [app].
    rewrite (pack_prefix_ok _ _ _ _ Rver Rsize Rcount). cbn [orelse]. rewrite bind_ret.
    rewrite Hdev. cbn [orelse]. rewrite bind_ret.
    rewrite (pack_suffix_head_ok _ _ _ _ _ _ R1 R2 R3 R4 R5). cbn [orelse].
    rewrite bind_ret.
    rewrite (pack_crc_ok _ (compute_crc_range _)). cbn [orelse]. rewrite bind_ret.
    unfold emit. eexists. reflexivity. }
  destruct Hend as (out & Hend).
  destruct (build_inv _ _ _ _ _ Hend) as (v' & d' & Hdev' & Hout & _).
  rewrite Hdev in Hdev'. injection Hdev' as <- <-.
  rewrite Hend, Hout. reflexivity.
Qed.


End BuildFacts.

(* ================================================================= *)
(** ** What [parse] reads *)

Module ParseFacts.
Import Wire Struct StructFacts SliceFacts BuildFacts.

Lemma run_pair {A} (m : M A) : m = (fst m, snd m).
Proof. destruct m; reflexivity. Qed.

Lemma when_true m : when true m = m.
Proof. reflexivity. Qed.

Lemma when_false m : when false m = ret tt.
Proof. reflexivity. Qed.

Lemma when_emit_then {A} (c : bool) (e : event) (out : list event) (r : result A) :
  bind (when c (emit e)) (fun _ => (out, r)) = ((if c then [e] else []) ++ out, r).
Proof. destruct c; reflexivity. Qed.

Lemma len_le_split n z : len (le_split n z) = Z.of_nat n.
Proof. unfold len. rewrite length_le_split. reflexivity. Qed.

(** Reading an element header that was laid out in range. *)
Lemma consume_eprefix a n rest :
  u32 a -> u32 n ->
  consume fmt_eprefix (le_split 4 a ++ le_split 4 n ++ rest) names_eprefix
  = ret ({| e_address := a; e_size := n; e_num := 0 |}, rest).
Proof.
  intros Ha Hn.
  rewrite app_assoc.
  rewrite (consume_pack _ _ _ _ _ (pack_eprefix_ok a n Ha Hn)).
  reflexivity.
Qed.

(** The elements loop on a target body.  What is left of the body
    when the loop ends is what followed the elements. *)
Lemma parse_elements_enc file dump t : forall es e rest,
  elements_ok es rest ->
  parse_elements file dump t (List.length es) e (enc_elements es ++ rest)
  = (elements_events file dump t e es, Ok rest).
Proof.
  induction es as [|x es IH]; intros e rest Hok.
  - reflexivity.
  - destruct Hok as (Ra & Rs & Hsize & Hok).
    cbn [List.length parse_elements enc_elements flat_map].
    unfold enc_element at 1. rewrite <- !app_assoc.
    rewrite consume_eprefix by assumption.
    rewrite bind_ret. cbn [set_e_num e_address e_size e_num].
    rewrite bind_emit.
    assert (Hcut : Py.slice_to (el_data x ++ flat_map enc_element es ++ rest) (el_size x)
                   = el_data x
                   /\ Py.slice_from (el_data x ++ flat_map enc_element es ++ rest) (el_size x)
                      = enc_elements es ++ rest).
    { destruct Hsize as [E|(-> & -> & Hlt)].
      - split; [apply slice_to_app|apply slice_from_app]; exact E.
      - cbn [flat_map app]. rewrite app_nil_r.
        split; [apply slice_to_all|apply slice_from_all]; lia. }
    destruct Hcut as [-> ->].
    rewrite (IH (e + 1) rest Hok).
    destruct dump; reflexivity.
Qed.

(** Reading a target header that was laid out in range. *)
Lemma consume_tprefix x rest :
  target_ok x ->
  consume fmt_tprefix
    (tg_signature x ++ le_split 1 (tg_altsetting x) ++ le_split 4 (tg_named x)
     ++ tg_name x ++ le_split 4 (len (target_body x))
     ++ le_split 4 (len (tg_elements x)) ++ rest) names_tprefix
  = ret ({| t_signature := tg_signature x; t_altsetting := tg_altsetting x;
            t_named := tg_named x; t_name := tg_name x;
            t_size := len (target_body x); t_elements := len (tg_elements x);
            t_num := 0 |}, rest).
Proof.
  intros (Hsig & Ra & Rn & Hname & Rsize & Rcount & _).
  pose proof (pack_tprefix_ok (tg_signature x) _ _ (tg_name x) _ _ Ra Rn Rsize Rcount) as P.
  rewrite (pack_s_exact _ _ Hsig), (pack_s_exact _ _ Hname) in P.
  replace (tg_signature x ++ le_split 1 (tg_altsetting x) ++ le_split 4 (tg_named x)
           ++ tg_name x ++ le_split 4 (len (target_body x))
           ++ le_split 4 (len (tg_elements x)) ++ rest)
    with ((tg_signature x ++ le_split 1 (tg_altsetting x) ++ le_split 4 (tg_named x)
           ++ tg_name x ++ le_split 4 (len (target_body x))
           ++ le_split 4 (len (tg_elements x))) ++ rest)
    by (rewrite <- !app_assoc; reflexivity).
  rewrite (consume_pack _ _ _ _ _ P).
  cbn [stored_all fmt_tprefix stored].
  rewrite (pack_s_exact _ _ Hsig), (pack_s_exact _ _ Hname).
  reflexivity.
Qed.

Lemma nat_of_len {A} (x : list A) : Z.to_nat (len x) = List.length x.
Proof. unfold len. apply Nat2Z.id. Qed.

(** The targets loop on a sequence of targets followed by [rest]. *)
Lemma parse_targets_enc file dump : forall ts t rest,
  Forall target_ok ts ->
  parse_targets file dump (List.length ts) t (enc_targets ts ++ rest)
  = (targets_events file dump t ts, Ok rest).
Proof.
  induction ts as [|x ts IH]; intros t rest Hok.
  - reflexivity.
  - inversion Hok as [|? ? Hx Hts]. subst.
    cbn [List.length parse_targets enc_targets flat_map].
    unfold enc_target at 1. rewrite <- !app_assoc.
    rewrite (consume_tprefix _ _ Hx), bind_ret.
    match goal with
    | |- context [PrintTarget ?l] =>
        replace l with (target_line t x)
          by (unfold target_line; cbn [set_t_num set_t_name t_named t_name];
              destruct (tg_named x =? 0); reflexivity)
    end.
    rewrite bind_emit.
    cbn [target_line t_size t_elements].
    rewrite SliceFacts.slice_to_app, SliceFacts.slice_from_app by reflexivity.
    rewrite nat_of_len. unfold target_body.
    destruct Hx as (_ & _ & _ & _ & _ & _ & Hels).
    rewrite (parse_elements_enc file dump t _ 0 _ Hels).
    fold (enc_targets ts). rewrite bind_out, (IH (t + 1) rest Hts), when_emit_then.
    cbn [targets_events fst snd]. unfold target_events.
    rewrite <- app_comm_cons, <- app_assoc.
    destruct (tg_rest x) as [|c r]; reflexivity.
Qed.

(** Reading a file prefix that was laid out in range. *)
Lemma consume_prefix c rest :
  container_ok c ->
  consume fmt_prefix (enc_prefix c ++ rest) names_prefix = ret (prefix_line c, rest).
Proof.
  intros (Hsig & Rv & Rs & Rc & _).
  pose proof (pack_prefix_ok (ct_signature c) _ _ _ Rv Rs Rc) as P.
  rewrite (pack_s_exact _ _ Hsig) in P.
  unfold enc_prefix.
  rewrite (consume_pack _ _ _ _ _ P).
  cbn [stored_all fmt_prefix stored].
  rewrite (pack_s_exact _ _ Hsig).
  reflexivity.
Qed.

(** Reading a suffix that was laid out in range. *)
Lemma unpack_suffix x :
  suffix_ok x ->
  Struct.unpack fmt_suffix (enc_suffix_head x ++ le_split 4 (s_crc x))
  = Some [Int (s_device x); Int (s_product x); Int (s_vendor x); Int (s_dfu x);
          Bytes (s_ufd x); Int (s_len x); Int (s_crc x)]
  /\ len (enc_suffix_head x ++ le_split 4 (s_crc x)) = SUFFIX_SIZE.
Proof.
  intros (R1 & R2 & R3 & R4 & Hufd & R5 & R6).
  pose proof (pack_suffix_ok _ _ _ _ (s_ufd x) _ _ R1 R2 R3 R4 R5 R6) as P.
  rewrite (pack_s_exact _ _ Hufd) in P.
  assert (E : enc_suffix_head x ++ le_split 4 (s_crc x)
              = le_split 2 (s_device x) ++ le_split 2 (s_product x)
                ++ le_split 2 (s_vendor x) ++ le_split 2 (s_dfu x)
                ++ s_ufd x ++ le_split 1 (s_len x) ++ le_split 4 (s_crc x)).
  { unfold enc_suffix_head. rewrite <- !app_assoc. reflexivity. }
  rewrite E. split.
  - rewrite (unpack_pack _ _ _ P). cbn [stored_all fmt_suffix stored].
    rewrite (pack_s_exact _ _ Hufd). reflexivity.
  - unfold len. rewrite (length_pack _ _ _ P). reflexivity.
Qed.

Lemma suffix_eta x :
  names_suffix [Int (s_device x); Int (s_product x); Int (s_vendor x); Int (s_dfu x);
                Bytes (s_ufd x); Int (s_len x); Int (s_crc x)] = x.
Proof. destruct x; reflexivity. Qed.

(** [parse] on a container laid out in range: it comes to an end and
    prints the fields of the container, one diagnostic for each target
    with bytes left over, and the two file diagnostics when they apply. *)
Lemma parse_enc file dump c :
  container_ok c ->
  parse file (enc_container c) dump = (container_events file dump c, Ok tt).
Proof.
  intros Hc. pose proof Hc as (_ & _ & _ & _ & Hts & Hsfx).
  destruct (unpack_suffix _ Hsfx) as [Hun Hlen].
  unfold parse. rewrite bind_emit.
  set (crc := compute_crc (Py.slice_to (enc_container c) (-4))).
  unfold enc_container at 1 2. unfold enc_checked. rewrite <- !app_assoc.
  rewrite (consume_prefix _ _ Hc), bind_ret, bind_emit.
  cbn [prefix_line p_targets]. rewrite nat_of_len.
  rewrite (parse_targets_enc file dump _ 0 _ Hts), bind_out.
  rewrite app_assoc.
  rewrite SliceFacts.slice_to_app, SliceFacts.slice_from_app by (symmetry; exact Hlen).
  rewrite Hun. cbn [orelse]. rewrite bind_ret. unfold named. rewrite suffix_eta.
  unfold container_events, file_diagnostics. fold crc. clearbody crc.
  destruct (crc =? s_crc (ct_suffix c)); destruct (ct_rest c); reflexivity.
Qed.

End ParseFacts.

(* ================================================================= *)
(** ** The container [build] writes, as [parse] reads it back *)

Module ContainerFacts.
Import Wire Struct StructFacts SliceFacts BuildFacts ParseFacts.

Lemma len_enc_elements target :
  len (enc_elements (map element_of target)) = elements_size target.
Proof.
  induction target as [|i target IH].
  - reflexivity.
  - cbn [map enc_elements flat_map elements_size fold_right].
    fold (enc_elements (map element_of target)). fold (elements_size target).
    unfold enc_element. cbn [element_of el_address el_size el_data].
    rewrite !len_app, !len_le_split, IH. lia.
Qed.

Lemma len_blit_target : len (blit "Target") = 6.
Proof. reflexivity. Qed.

Lemma len_pack_s n x : len (pack_s n x) = Z.of_nat n.
Proof. unfold len. rewrite length_pack_s. reflexivity. Qed.

Lemma len_enc_target_of name ealt target :
  len (enc_target (target_of name ealt target)) = target_blob_size target.
Proof.
  unfold enc_target, target_body, target_blob_size.
  cbn [target_of tg_signature tg_altsetting tg_named tg_name tg_elements tg_rest].
  rewrite !len_app, !len_le_split, len_pack_s, len_blit_target, len_enc_elements.
  change (len (@nil byte)) with 0. lia.
Qed.

Lemma len_enc_targets_of name : forall targets ealt,
  len (enc_targets (targets_of name ealt targets)) = blobs_size targets.
Proof.
  induction targets as [|target targets IH]; intros ealt.
  - reflexivity.
  - cbn [targets_of enc_targets flat_map blobs_size fold_right].
    fold (enc_targets (targets_of name (last_alt ealt target) targets)).
    fold (blobs_size targets).
    rewrite len_app, len_enc_target_of, IH. reflexivity.
Qed.

Lemma len_enc_checked targets name v d crc :
  len (enc_checked (unchecked_container_of targets name v d crc))
  = PREFIX_SIZE + blobs_size targets + 12.
Proof.
  unfold enc_checked, enc_prefix, enc_suffix_head.
  cbn [unchecked_container_of ct_signature ct_version ct_size ct_targets ct_suffix
       suffix_of s_device s_product s_vendor s_dfu s_ufd s_len].
  rewrite !len_app, !len_le_split, len_enc_targets_of.
  change (len (blit "DfuSe")) with 5. change (len (blit "UFD")) with 3.
  unfold PREFIX_SIZE. lia.
Qed.

(** The length of the file [build] writes. *)
Lemma len_enc_container targets name v d :
  len (enc_container (container_of targets name v d))
  = PREFIX_SIZE + blobs_size targets + SUFFIX_SIZE.
Proof.
  unfold enc_container, container_of.
  rewrite !len_app, len_enc_checked, len_le_split.
  change (len (ct_rest (unchecked_container_of targets name v d
     (compute_crc (enc_checked (unchecked_container_of targets name v d 0))))))
    with 0.
  unfold SUFFIX_SIZE. lia.
Qed.

(** A name without NUL that fits the field is read back as it was. *)
Lemma cstring_nul_free name rest :
  ~ In Byte.x00 name -> cstring (name ++ Byte.x00 :: rest) = name.
Proof.
  induction name as [|c name IH]; intros H.
  - reflexivity.
  - cbn [app cstring].
    destruct (Byte.eqb c Byte.x00) eqn:E.
    + apply Byte.byte_dec_bl in E. subst c. exfalso. apply H. left. reflexivity.
    + rewrite IH; [reflexivity|]. intros H'. apply H. right. exact H'.
Qed.

Lemma cstring_whole name : ~ In Byte.x00 name -> cstring name = name.
Proof.
  induction name as [|c name IH]; intros H.
  - reflexivity.
  - cbn [cstring].
    destruct (Byte.eqb c Byte.x00) eqn:E.
    + apply Byte.byte_dec_bl in E. subst c. exfalso. apply H. left. reflexivity.
    + rewrite IH; [reflexivity|]. intros H'. apply H. right. exact H'.
Qed.

Lemma cstring_pack_s name :
  ~ In Byte.x00 name -> (List.length name <= 255)%nat ->
  cstring (pack_s 255 name) = name.
Proof.
  intros Hnul Hlen. unfold pack_s.
  rewrite firstn_all2 by exact Hlen.
  destruct (255 - List.length name)%nat as [|k] eqn:E.
  - cbn [repeat]. rewrite app_nil_r. apply cstring_whole, Hnul.
  - cbn [repeat]. apply cstring_nul_free, Hnul.
Qed.

Lemma last_alt_cons ealt i target :
  last_alt ealt (i :: target) = last_alt (Some (alt i)) target.
Proof. reflexivity. Qed.

Lemma last_alt_snoc ealt front i : last_alt ealt (front ++ [i]) = Some (alt i).
Proof. unfold last_alt. rewrite fold_left_app. reflexivity. Qed.

(** In a target whose elements share one alternate setting, the one
    [build] writes is that of every element. *)
Lemma last_alt_same target ealt :
  target <> [] -> same_alt target -> last_alt ealt target = Some (target_alt target).
Proof.
  intros Hne Hsame.
  destruct (exists_last Hne) as (front & i & ->).
  rewrite last_alt_snoc. f_equal.
  destruct front as [|j front]; [reflexivity|].
  cbn [app target_alt]. apply Hsame.
  - apply in_or_app. right. left. reflexivity.
  - left. reflexivity.
Qed.

Lemma elements_events_of file dump t : forall target e,
  elements_events file dump t e (map element_of target)
  = images_lines file dump t e target.
Proof.
  induction target as [|i target IH]; intros e.
  - reflexivity.
  - cbn [map elements_events images_lines]. rewrite IH. reflexivity.
Qed.

Lemma targets_events_of file dump name :
  ~ In Byte.x00 name -> (List.length name <= 255)%nat ->
  forall targets t ealt,
    Forall (fun target => target <> []) targets ->
    Forall same_alt targets ->
    targets_events file dump t (targets_of name ealt targets)
    = targets_lines file dump name t targets.
Proof.
  intros Hnul Hlen.
  induction targets as [|target targets IH]; intros t ealt Hne Hsame.
  - reflexivity.
  - inversion Hne as [|? ? Hne1 Hne2]. inversion Hsame as [|? ? Hs1 Hs2]. subst.
    cbn [targets_of targets_events targets_lines].
    rewrite (IH _ _ Hne2 Hs2). f_equal.
    unfold target_events, target_lines, target_line, target_body.
    cbn [target_of tg_signature tg_altsetting tg_named tg_name tg_elements tg_rest].
    rewrite (last_alt_same _ ealt Hne1 Hs1), app_nil_r, app_nil_r.
    rewrite len_enc_elements, len_map, elements_events_of.
    change (1 =? 0) with false. cbv iota.
    rewrite (cstring_pack_s _ Hnul Hlen). reflexivity.
Qed.

Lemma len_targets_of name : forall targets ealt,
  len (targets_of name ealt targets) = len targets.
Proof.
  unfold len. induction targets as [|x l IH]; intros o; cbn [targets_of List.length].
  - reflexivity.
  - rewrite !Nat2Z.inj_succ, IH. reflexivity.
Qed.

(** The bytes the checksum of a built file covers are all but its last
    four. *)
Lemma checked_part targets name v d :
  Py.slice_to (enc_container (container_of targets name v d)) (-4)
  = enc_checked (container_of targets name v d).
Proof.
  unfold enc_container.
  change (ct_rest (container_of targets name v d)) with (@nil byte).
  rewrite app_nil_r.
  apply slice_to_neg_app; [lia|rewrite len_le_split; reflexivity].
Qed.

Lemma crc_of_container targets name v d :
  s_crc (ct_suffix (container_of targets name v d))
  = compute_crc (enc_checked (container_of targets name v d)).
Proof.
  unfold container_of at 1. cbn [unchecked_container_of ct_suffix suffix_of s_crc].
  f_equal.
Qed.

(** What [parse] prints for a built file is the list of targets it
    was built from. *)
Lemma container_events_of file dump targets name v d :
  ~ In Byte.x00 name -> (List.length name <= 255)%nat ->
  Forall (fun target => target <> []) targets ->
  Forall same_alt targets ->
  container_events file dump (container_of targets name v d)
  = shown file dump targets name v d (enc_container (container_of targets name v d)).
Proof.
  intros Hnul Hlen Hne Hsame.
  unfold container_events, file_diagnostics, shown.
  rewrite checked_part, crc_of_container, Z.eqb_refl.
  change (ct_rest (container_of targets name v d)) with (@nil byte).
  change (ct_targets (container_of targets name v d)) with (targets_of name None targets).
  rewrite (targets_events_of file dump name Hnul Hlen _ _ _ Hne Hsame).
  rewrite len_enc_container.
  unfold prefix_line.
  change (ct_targets (container_of targets name v d)) with (targets_of name None targets).
  change (ct_signature (container_of targets name v d)) with (blit "DfuSe").
  change (ct_version (container_of targets name v d)) with 1.
  change (ct_size (container_of targets name v d))
    with (PREFIX_SIZE + len (enc_targets (targets_of name None targets)) + SUFFIX_SIZE).
  rewrite len_enc_targets_of, len_targets_of.
  change (ct_suffix (container_of targets name v d))
    with (suffix_of v d (compute_crc (enc_checked (unchecked_container_of targets name v d 0)))).
  unfold suffix_of. rewrite !app_nil_r.
  change (enc_checked (container_of targets name v d))
    with (enc_checked (unchecked_container_of targets name v d 0)).
  reflexivity.
Qed.

End ContainerFacts.

(* ================================================================= *)
(** ** When [build] writes its file *)

Module FitFacts.
Import Wire Struct StructFacts BuildFacts ParseFacts ContainerFacts.

Lemma elements_size_cons i target :
  elements_size (i :: target) = 8 + len (data i) + elements_size target.
Proof. reflexivity. Qed.

Lemma blobs_size_cons target rest :
  blobs_size (target :: rest) = 274 + elements_size target + blobs_size rest.
Proof. reflexivity. Qed.

Lemma elements_size_nonneg : forall target, 0 <= elements_size target.
Proof.
  induction target as [|i target IH]; [reflexivity|].
  rewrite elements_size_cons. pose proof (len_nonneg (data i)). lia.
Qed.

Lemma blobs_size_nonneg : forall targets, 0 <= blobs_size targets.
Proof.
  induction targets as [|target rest IH]; [reflexivity|].
  rewrite blobs_size_cons. pose proof (elements_size_nonneg target). lia.
Qed.

Lemma len_cons {A} (x : A) l : len (x :: l) = 1 + len l.
Proof. unfold len. cbn [List.length]. lia. Qed.

(** Every image takes at least the 8 bytes of its header. *)
Lemma len_le_elements_size : forall target, len target <= elements_size target.
Proof.
  induction target as [|i target IH]; [reflexivity|].
  rewrite len_cons, elements_size_cons. pose proof (len_nonneg (data i)). lia.
Qed.

Lemma fits_elements_ok : forall target,
  forallb image_fits target = true ->
  elements_size target < 2 ^ 32 ->
  elements_ok (map element_of target) [].
Proof.
  induction target as [|i target IH]; intros Hfit Hsize; [exact I|].
  cbn [forallb] in Hfit. apply andb_prop in Hfit. destruct Hfit as [Hi Hfit].
  unfold image_fits in Hi. apply andb_prop in Hi. destruct Hi as [Hlo Hhi].
  apply Z.leb_le in Hlo. apply Z.ltb_lt in Hhi.
  rewrite elements_size_cons in Hsize.
  pose proof (len_nonneg (data i)). pose proof (elements_size_nonneg target).
  cbn [map elements_ok element_of el_address el_size el_data].
  split; [split; assumption|].
  split; [split; [assumption|lia]|].
  split; [left; reflexivity|].
  apply IH; [exact Hfit|lia].
Qed.

(** The headers of targets that fit hold numbers of their widths. *)
Lemma fits_targets_ok name : forall targets ealt,
  targets_fit_from ealt targets = true ->
  blobs_size targets < 2 ^ 32 ->
  Forall target_ok (targets_of name ealt targets).
Proof.
  induction targets as [|target rest IH]; intros ealt Hfit Hsize; [constructor|].
  cbn [targets_fit_from] in Hfit.
  destruct (last_alt ealt target) as [a|] eqn:Ea; [|discriminate Hfit].
  apply andb_prop in Hfit. destruct Hfit as [Hfit Hrest].
  apply andb_prop in Hfit. destruct Hfit as [Halt Himages].
  apply andb_prop in Halt. destruct Halt as [Hlo Hhi].
  apply Z.leb_le in Hlo. apply Z.ltb_lt in Hhi.
  rewrite blobs_size_cons in Hsize.
  pose proof (elements_size_nonneg target). pose proof (blobs_size_nonneg rest).
  pose proof (len_le_elements_size target). pose proof (len_nonneg target).
  cbn [targets_of]. constructor.
  - unfold target_ok, target_body.
    cbn [target_of tg_signature tg_altsetting tg_named tg_name tg_elements tg_rest].
    rewrite Ea, app_nil_r, len_enc_elements, len_map.
    split; [reflexivity|]. split; [split; assumption|].
    split; [unfold u32; lia|]. split; [apply length_pack_s|].
    split; [unfold u32; lia|]. split; [unfold u32; lia|].
    apply fits_elements_ok; [exact Himages|lia].
  - rewrite Ea. apply IH; [exact Hrest|lia].
Qed.

(** The loop over targets that fit comes to its end. *)
Lemma build_targets_fit name : forall targets data ealt,
  targets_fit_from ealt targets = true ->
  Forall target_ok (targets_of name ealt targets) ->
  build_targets targets name data ealt
  = ret (data ++ enc_targets (targets_of name ealt targets)).
Proof.
  induction targets as [|target targets IH]; intros data ealt Hfit Hok.
  - cbn [build_targets targets_of enc_targets flat_map]. rewrite app_nil_r. reflexivity.
  - cbn [targets_fit_from] in Hfit.
    destruct (last_alt ealt target) as [a|] eqn:Ea; [|discriminate Hfit].
    apply andb_prop in Hfit. destruct Hfit as [_ Hrest].
    cbn [targets_of] in Hok. inversion Hok as [|? ? Hx Hts]. subst.
    destruct Hx as (_ & Ra & Rn & _ & Rsize & Rcount & Hels).
    cbn [target_of tg_altsetting tg_named tg_elements tg_rest] in Ra, Rn, Rcount, Hels.
    unfold target_body in Rsize.
    cbn [target_of tg_elements tg_rest] in Rsize.
    rewrite app_nil_r in Rsize. rewrite len_map in Rcount.
    rewrite Ea in Ra, Hts.
    cbn [build_targets]. rewrite (build_images_ok _ _ _ Hels), bind_ret.
    rewrite Ea. cbn [orelse app]. rewrite bind_ret.
    rewrite (pack_tprefix_ok _ _ _ _ _ _ Ra Rn Rsize Rcount). cbn [orelse].
    rewrite bind_ret, (IH _ _ Hrest Hts).
    cbn [targets_of enc_targets flat_map]. rewrite Ea.
    fold (enc_targets (targets_of name (Some a) targets)).
    unfold enc_target, target_body.
    cbn [target_of tg_signature tg_altsetting tg_named tg_name tg_elements tg_rest].
    rewrite Ea, len_map, !app_nil_r, <- !app_assoc. reflexivity.
Qed.

Lemma device_u16 device v d :
  parse_device device = Some (v, d) -> u16 v /\ u16 d.
Proof.
  unfold parse_device.
  destruct (Py.split1 ":" device) as [|x [|y [|? ?]]]; try discriminate.
  destruct (Py.int x 0) as [a|]; [|discriminate].
  destruct (Py.int y 0) as [c|]; [|discriminate].
  intros H.
  assert (Ev : v = Z.land a 0xFFFF)
    by exact (f_equal (fun o => match o with Some (p, _) => p | None => v end) (eq_sym H)).
  assert (Ed : d = Z.land c 0xFFFF)
    by exact (f_equal (fun o => match o with Some (_, q) => q | None => d end) (eq_sym H)).
  subst v d. change 0xFFFF with (Z.ones 16). rewrite !Z.land_ones by lia.
  split; apply Z.mod_pos_bound; lia.
Qed.

(** The container of targets that fit is well formed. *)
Lemma fits_container_ok targets name device v d :
  targets_fit targets = true ->
  parse_device device = Some (v, d) ->
  container_ok (container_of targets name v d).
Proof.
  intros Hfit Hdev. destruct (device_u16 _ _ _ Hdev) as [Rv Rd].
  unfold targets_fit in Hfit.
  apply andb_prop in Hfit. destruct Hfit as [Hfit Hfrom].
  apply andb_prop in Hfit. destruct Hfit as [Hcount Hsize].
  apply Z.ltb_lt in Hcount, Hsize.
  pose proof (blobs_size_nonneg targets). pose proof (len_nonneg targets).
  unfold PREFIX_SIZE, SUFFIX_SIZE in Hsize.
  unfold container_ok.
  change (ct_signature (container_of targets name v d)) with (blit "DfuSe").
  change (ct_version (container_of targets name v d)) with 1.
  change (ct_size (container_of targets name v d))
    with (PREFIX_SIZE + len (enc_targets (targets_of name None targets)) + SUFFIX_SIZE).
  change (ct_targets (container_of targets name v d)) with (targets_of name None targets).
  change (ct_suffix (container_of targets name v d))
    with (suffix_of v d (compute_crc (enc_checked (unchecked_container_of targets name v d 0)))).
  rewrite len_enc_targets_of, len_targets_of.
  split; [reflexivity|]. split; [unfold u8; lia|].
  split; [unfold u32, PREFIX_SIZE, SUFFIX_SIZE; lia|].
  split; [unfold u8; lia|].
  split; [apply fits_targets_ok; [exact Hfrom|lia]|].
  unfold suffix_ok, suffix_of.
  cbn [s_device s_product s_vendor s_dfu s_ufd s_len s_crc].
  split_all;
    [ unfold u16; lia | exact Rd | exact Rv | unfold u16; lia | reflexivity
    | unfold u8, SUFFIX_SIZE; lia | apply compute_crc_range ].
Qed.

(** [build] on targets that fit, with a device it can read, writes the
    container of the targets. *)
Lemma build_fits file targets name device v d :
  targets_fit targets = true ->
  parse_device device = Some (v, d) ->
  build file targets name device
  = ([Write (File file) (enc_container (container_of targets name v d))], Ok tt).
Proof.
  intros Hfit Hdev.
  pose proof (fits_container_ok targets name device v d Hfit Hdev)
    as (_ & Rver & Rsize & Rcount & Hts & Hsfx).
  unfold targets_fit in Hfit. apply andb_prop in Hfit. destruct Hfit as [_ Hfrom].
  change (ct_targets (container_of targets name v d))
    with (targets_of name None targets) in Hts, Rcount.
  change (ct_size (container_of targets name v d))
    with (PREFIX_SIZE + len (enc_targets (targets_of name None targets)) + SUFFIX_SIZE)
    in Rsize.
  change (ct_version (container_of targets name v d)) with 1 in Rver.
  destruct Hsfx as (R1 & R2 & R3 & R4 & _ & R5 & _).
  change (ct_suffix (container_of targets name v d))
    with (suffix_of v d (compute_crc (enc_checked (unchecked_container_of targets name v d 0))))
    in R1, R2, R3, R4, R5.
  cbn [suffix_of s_device s_product s_vendor s_dfu s_len] in R1, R2, R3, R4, R5.
  rewrite len_targets_of in Rcount.
  assert (Hend : exists out, build file targets name device = (out, Ok tt)).
  { unfold build. rewrite (build_targets_fit name targets [] None Hfrom Hts), bind_ret.
    cbn [app].
    rewrite (pack_prefix_ok _ _ _ _ Rver Rsize Rcount). cbn [orelse]. rewrite bind_ret.
    rewrite Hdev. cbn [orelse]. rewrite bind_ret.
    rewrite (pack_suffix_head_ok _ _ _ _ _ _ R1 R2 R3 R4 R5). cbn [orelse].
    rewrite bind_ret.
    rewrite (pack_crc_ok _ (compute_crc_range _)). cbn [orelse]. rewrite bind_ret.
    unfold emit. eexists. reflexivity. }
  destruct Hend as (out & Hend).
  destruct (build_inv _ _ _ _ _ Hend) as (v' & d' & Hdev' & Hout & _).
  rewrite Hdev in Hdev'. injection Hdev' as <- <-.
  rewrite Hend, Hout. reflexivity.
Qed.

Lemma elements_ok_fit : forall target,
  elements_ok (map element_of target) [] -> forallb image_fits target = true.
Proof.
  induction target as [|i target IH]; intros Hok; [reflexivity|].
  cbn [map elements_ok element_of el_address] in Hok.
  destruct Hok as ([Hlo Hhi] & _ & _ & Hok).
  cbn [forallb]. unfold image_fits at 1.
  apply Z.leb_le in Hlo. apply Z.ltb_lt in Hhi.
  rewrite Hlo, Hhi, (IH Hok). reflexivity.
Qed.

(** The loop over the targets comes to its end only when they fit. *)
Lemma build_targets_fit_inv : forall targets name data ealt out r,
  build_targets targets name data ealt = (out, Ok r) ->
  targets_fit_from ealt targets = true.
Proof.
  induction targets as [|target targets IH]; intros name data ealt out r H;
    cbn [build_targets] in H; [reflexivity|].
  run_inv H. destruct a as [tdata ealt'].
  apply build_images_inv in Hrun. destruct Hrun as (_ & E & Hels).
  assert (Ealt : ealt' = last_alt ealt target) by exact (f_equal snd E).
  run_inv H.
  apply pack_tprefix_inv in Hrun0. destruct Hrun0 as (_ & [Hlo Hhi] & _).
  apply IH in H.
  cbn [targets_fit_from]. rewrite <- Ealt, Hrun.
  apply Z.leb_le in Hlo. apply Z.ltb_lt in Hhi.
  rewrite Hrun in H.
  rewrite Hlo, Hhi, (elements_ok_fit _ Hels), H. reflexivity.
Qed.

(** [build] writes its file exactly for the targets that fit and the
    devices it can read. *)
Lemma build_writes_iff_fits file targets name device :
  (exists out, build file targets name device = (out, Ok tt))
  <-> (targets_fit targets = true /\ exists v d, parse_device device = Some (v, d)).
Proof.
  split.
  - intros (out & H).
    destruct (build_inv _ _ _ _ _ H) as (v & d & Hdev & _ & Hok).
    split; [|exists v, d; exact Hdev].
    destruct Hok as (_ & _ & Rsize & Rcount & _).
    change (ct_size (container_of targets name v d))
      with (PREFIX_SIZE + len (enc_targets (targets_of name None targets)) + SUFFIX_SIZE)
      in Rsize.
    change (ct_targets (container_of targets name v d))
      with (targets_of name None targets) in Rcount.
    rewrite len_enc_targets_of in Rsize. rewrite len_targets_of in Rcount.
    unfold build in H. apply bind_ok_inv in H.
    destruct H as (o1 & data & o2 & Hloop & _ & _).
    apply build_targets_fit_inv in Hloop.
    unfold targets_fit. rewrite Hloop.
    destruct Rsize as [_ Rsize]. destruct Rcount as [_ Rcount].
    apply Z.ltb_lt in Rsize, Rcount. rewrite Rsize, Rcount. reflexivity.
  - intros (Hfit & v & d & Hdev). eexists. exact (build_fits file _ name _ v d Hfit Hdev).
Qed.

End FitFacts.

(* ================================================================= *)
(** ** The claims about the container codec *)

(** C2: for every list of well-formed targets (none empty, one alternate
    setting per target, a NUL-free name of at most 255 bytes) that fits
    the fields of the format, and every device string [build] can read,
    [build] writes a file, and [parse] on the bytes written shows the
    targets again: every element's address, size and data, every
    target's alternate setting, size and element count, and the name,
    with no diagnostic. *)
Theorem build_parse_roundtrip :
  forall file targets name device v d,
    targets_fit targets = true ->
    parse_device device = Some (v, d) ->
    Forall (fun target => target <> []) targets ->
    Forall same_alt targets ->
    ~ In Byte.x00 name ->
    (List.length name <= 255)%nat ->
    exists content,
      build file targets name device = ([Write (File file) content], Ok tt)
      /\ forall dump_images,
           parse file content dump_images
           = (shown file dump_images targets name v d content, Ok tt).
Proof.
  intros file targets name device v d Hfit Hdev Hne Hsame Hnul Hlen.
  pose proof (FitFacts.fits_container_ok targets name device v d Hfit Hdev) as Hok.
  exists (Wire.enc_container (Wire.container_of targets name v d)).
  split; [exact (FitFacts.build_fits file targets name device v d Hfit Hdev)|].
  intros dump_images.
  rewrite (ParseFacts.parse_enc file dump_images _ Hok).
  rewrite (ContainerFacts.container_events_of file dump_images targets name v d
             Hnul Hlen Hne Hsame).
  reflexivity.
Qed.

Module FieldFacts.
Import Wire Struct StructFacts SliceFacts BuildFacts ParseFacts ContainerFacts.

(** The middle of three parts, cut out by its offsets. *)
Lemma slice_mid {A} (x y z : list A) i j :
  i = len x -> j = len x + len y -> Py.slice (x ++ y ++ z) i j = y.
Proof.
  intros -> ->. unfold Py.slice.
  pose proof (len_nonneg x). pose proof (len_nonneg y).
  rewrite !norm_index_nonneg by lia.
  rewrite Z2Nat.inj_add by lia. rewrite !nat_of_len.
  replace (List.length x + List.length y - List.length x)%nat
    with (List.length y) by lia.
  rewrite skipn_app, skipn_all, Nat.sub_diag. cbn [skipn app].
  rewrite firstn_app, Nat.sub_diag, firstn_all. cbn [firstn]. apply app_nil_r.
Qed.

Lemma nth_error_middle {A} (x : list A) c y n :
  n = List.length x -> nth_error (x ++ c :: y) n = Some c.
Proof.
  intros ->. rewrite nth_error_app2 by lia. rewrite Nat.sub_diag. reflexivity.
Qed.

Lemma targets_of_app name : forall before ealt rest,
  targets_of name ealt (before ++ rest)
  = targets_of name ealt before
    ++ targets_of name (fold_left last_alt before ealt) rest.
Proof.
  induction before as [|x before IH]; intros ealt rest.
  - reflexivity.
  - cbn [app targets_of fold_left]. rewrite IH. reflexivity.
Qed.

Lemma enc_targets_app x y : enc_targets (x ++ y) = enc_targets x ++ enc_targets y.
Proof. unfold enc_targets. apply flat_map_app. Qed.

Lemma le_split_1 z : le_split 1 z = [byte.of_Z z].
Proof. reflexivity. Qed.

Lemma unsigned_of_Z_u8 z : u8 z -> byte.unsigned (byte.of_Z z) = z.
Proof.
  intros H. rewrite byte.unsigned_of_Z. unfold byte.wrap.
  apply Z.mod_small. exact H.
Qed.

End FieldFacts.

(** C3: for every list of targets that fits the fields of the format,
    and every device string [build] can read, [build] writes a file in
    which the four bytes at offset 6, read as a little-endian integer,
    are 11 plus the length of the target blobs plus 16, and that is the
    length of the whole file, checksum included. *)
Theorem size_field_is_file_length :
  forall file targets name device v d,
    targets_fit targets = true ->
    parse_device device = Some (v, d) ->
    exists content prefix blobs suffix,
      build file targets name device = ([Write (File file) content], Ok tt)
      /\ content = prefix ++ blobs ++ suffix
      /\ len prefix = PREFIX_SIZE
      /\ blobs = Wire.enc_targets (Wire.targets_of name None targets)
      /\ len blobs = blobs_size targets
      /\ len suffix = SUFFIX_SIZE
      /\ le_combine (Py.slice content 6 10) = PREFIX_SIZE + len blobs + SUFFIX_SIZE
      /\ le_combine (Py.slice content 6 10) = len content.
Proof.
  intros file targets name device v d Hfit Hdev.
  pose proof (FitFacts.build_fits file targets name device v d Hfit Hdev) as Hbuild.
  pose proof (FitFacts.fits_container_ok targets name device v d Hfit Hdev) as Hok.
  set (c := Wire.container_of targets name v d) in *.
  set (ts := Wire.targets_of name None targets).
  exists (Wire.enc_container c), (Wire.enc_prefix c), (Wire.enc_targets ts),
    (Wire.enc_suffix_head (Wire.ct_suffix c) ++ le_split 4 (s_crc (Wire.ct_suffix c))).
  destruct Hok as (_ & _ & Rsize & _ & _ & Hsfx).
  assert (Eprefix : Wire.enc_prefix c
                    = (blit "DfuSe" ++ le_split 1 1)
                      ++ le_split 4 (PREFIX_SIZE + len (Wire.enc_targets ts) + SUFFIX_SIZE)
                      ++ le_split 1 (len ts)).
  { unfold Wire.enc_prefix. rewrite <- app_assoc. reflexivity. }
  assert (Econtent : Wire.enc_container c
                     = Wire.enc_prefix c ++ Wire.enc_targets ts
                       ++ Wire.enc_suffix_head (Wire.ct_suffix c)
                       ++ le_split 4 (s_crc (Wire.ct_suffix c))).
  { unfold Wire.enc_container, Wire.enc_checked.
    change (Wire.ct_rest c) with (@nil byte).
    change (Wire.ct_targets c) with ts.
    rewrite app_nil_r, <- !app_assoc. reflexivity. }
  assert (Efield : le_combine (Py.slice (Wire.enc_container c) 6 10)
                   = PREFIX_SIZE + len (Wire.enc_targets ts) + SUFFIX_SIZE).
  { rewrite Econtent, Eprefix, <- !app_assoc.
    rewrite (app_assoc (blit "DfuSe")).
    rewrite FieldFacts.slice_mid
      by (rewrite ?len_app, ?ParseFacts.len_le_split; reflexivity).
    rewrite le_combine_split. apply Z.mod_small. exact Rsize. }
  split; [exact Hbuild|]. split; [exact Econtent|].
  split; [rewrite Eprefix, !len_app, !ParseFacts.len_le_split; reflexivity|].
  split; [reflexivity|].
  split; [apply ContainerFacts.len_enc_targets_of|].
  split; [apply (proj2 (ParseFacts.unpack_suffix _ Hsfx))|].
  split; [exact Efield|].
  rewrite Efield. unfold c. rewrite ContainerFacts.len_enc_container.
  unfold ts. rewrite ContainerFacts.len_enc_targets_of. reflexivity.
Qed.

(** C10: for every list of targets that fits the fields of the format,
    and every device string [build] can read, [build] writes a file in
    which the alternate-setting byte of each non-empty target (offset 6
    of its blob) is the [alt] of the target's last element, whatever
    the [alt] of the elements before it. *)
Theorem last_element_alt_is_written :
  forall file targets name device v d before front i after,
    targets_fit targets = true ->
    parse_device device = Some (v, d) ->
    targets = before ++ (front ++ [i]) :: after ->
    exists content c,
      build file targets name device = ([Write (File file) content], Ok tt)
      /\ nth_error content (Z.to_nat (PREFIX_SIZE + blobs_size before + 6)) = Some c
      /\ byte.unsigned c = alt i.
Proof.
  intros file targets name device v d before front i after Hfit Hdev ->.
  pose proof (FitFacts.build_fits file _ name device v d Hfit Hdev) as Hbuild.
  pose proof (FitFacts.fits_container_ok _ name device v d Hfit Hdev) as Hok.
  set (c := Wire.container_of (before ++ (front ++ [i]) :: after) name v d) in *.
  destruct Hok as (_ & _ & _ & _ & Hts & _).
  change (Wire.ct_targets c)
    with (Wire.targets_of name None (before ++ (front ++ [i]) :: after)) in Hts.
  rewrite FieldFacts.targets_of_app in Hts. cbn [Wire.targets_of] in Hts.
  apply Forall_elt in Hts. destruct Hts as (_ & Ralt & _).
  cbn [Wire.target_of Wire.tg_altsetting] in Ralt.
  rewrite ContainerFacts.last_alt_snoc in Ralt.
  exists (Wire.enc_container c), (byte.of_Z (alt i)).
  split; [exact Hbuild|]. split; [|apply FieldFacts.unsigned_of_Z_u8, Ralt].
  set (ts0 := Wire.targets_of name None before).
  assert (Econtent : exists rest,
            Wire.enc_container c
            = (Wire.enc_prefix c ++ Wire.enc_targets ts0 ++ blit "Target")
              ++ byte.of_Z (alt i) :: rest).
  { unfold Wire.enc_container, Wire.enc_checked.
    change (Wire.ct_targets c)
      with (Wire.targets_of name None (before ++ (front ++ [i]) :: after)).
    rewrite FieldFacts.targets_of_app. cbn [Wire.targets_of].
    rewrite FieldFacts.enc_targets_app. fold ts0.
    cbn [Wire.enc_targets flat_map]. unfold Wire.enc_target at 1.
    cbn [Wire.target_of Wire.tg_signature Wire.tg_altsetting].
    rewrite ContainerFacts.last_alt_snoc, FieldFacts.le_split_1.
    rewrite <- !app_assoc. cbn [app].
    eexists. rewrite <- !app_assoc. reflexivity. }
  destruct Econtent as (rest & ->).
  apply FieldFacts.nth_error_middle.
  rewrite <- ParseFacts.nat_of_len. f_equal.
  rewrite !len_app. unfold ts0. rewrite ContainerFacts.len_enc_targets_of.
  unfold Wire.enc_prefix. rewrite !len_app, !ParseFacts.len_le_split.
  change (len (Wire.ct_signature c)) with 5.
  change (len (blit "Target")) with 6. unfold PREFIX_SIZE. lia.
Qed.

Lemma build_parse_roundtrip_witness :
  exists content,
    build Examples.out_file Examples.long_targets DEFAULT_NAME DEFAULT_DEVICE
    = ([Write (File Examples.out_file) content], Ok tt)
    /\ forall dump_images,
         parse Examples.out_file content dump_images
         = (shown Examples.out_file dump_images Examples.long_targets DEFAULT_NAME
              0x0483 0xdf11 content, Ok tt).
Proof.
  apply (build_parse_roundtrip Examples.out_file Examples.long_targets
           DEFAULT_NAME DEFAULT_DEVICE 0x0483 0xdf11).
  - reflexivity.
  - vm_compute. reflexivity.
  - repeat constructor; discriminate.
  - repeat constructor; intros i j Hi Hj; cbn [In] in Hi, Hj;
      repeat (destruct Hi as [<-|Hi]); try contradiction;
      repeat (destruct Hj as [<-|Hj]); try contradiction; reflexivity.
  - intros H. repeat (destruct H as [H|H]; [discriminate H|]). exact H.
  - cbn. lia.
Defined.

Lemma size_field_is_file_length_witness :
  exists content prefix blobs suffix,
    build Examples.out_file Examples.long_targets DEFAULT_NAME DEFAULT_DEVICE
    = ([Write (File Examples.out_file) content], Ok tt)
    /\ content = prefix ++ blobs ++ suffix
    /\ len prefix = PREFIX_SIZE
    /\ blobs = Wire.enc_targets (Wire.targets_of DEFAULT_NAME None Examples.long_targets)
    /\ len blobs = blobs_size Examples.long_targets
    /\ len suffix = SUFFIX_SIZE
    /\ le_combine (Py.slice content 6 10) = PREFIX_SIZE + len blobs + SUFFIX_SIZE
    /\ le_combine (Py.slice content 6 10) = len content.
Proof.
  apply (size_field_is_file_length Examples.out_file Examples.long_targets
           DEFAULT_NAME DEFAULT_DEVICE 0x0483 0xdf11).
  - reflexivity.
  - vm_compute. reflexivity.
Defined.

Lemma last_element_alt_is_written_witness :
  exists content c,
    build Examples.out_file Examples.long_mixed_targets DEFAULT_NAME DEFAULT_DEVICE
    = ([Write (File Examples.out_file) content], Ok tt)
    /\ nth_error content
         (Z.to_nat (PREFIX_SIZE + blobs_size [[Examples.fw_main]] + 6)) = Some c
    /\ byte.unsigned c = alt Examples.fw_ext.
Proof.
  apply (last_element_alt_is_written Examples.out_file Examples.long_mixed_targets
           DEFAULT_NAME DEFAULT_DEVICE 0x0483 0xdf11
           [[Examples.fw_main]] [Examples.fw_loader] Examples.fw_ext []).
  - reflexivity.
  - vm_compute. reflexivity.
  - reflexivity.
Defined.

(* ================================================================= *)
(** ** Targets that do not add up *)

Module DiagnosticFacts.
Import Wire Struct StructFacts SliceFacts BuildFacts ParseFacts.

Lemma targets_events_app file dump : forall ts1 ts2 t,
  targets_events file dump t (ts1 ++ ts2)
  = targets_events file dump t ts1
    ++ targets_events file dump (t + len ts1) ts2.
Proof.
  induction ts1 as [|x ts1 IH]; intros ts2 t.
  - cbn [app targets_events]. change (len (@nil tgt)) with 0.
    rewrite Z.add_0_r. reflexivity.
  - cbn [app targets_events]. rewrite IH, <- app_assoc.
    replace (t + 1 + len ts1) with (t + len (x :: ts1))
      by (unfold len; cbn [List.length]; lia).
    reflexivity.
Qed.

(** Reading a target header whose element count is [count]. *)
Lemma consume_tprefix_counted x count rest :
  target_ok x -> u32 count ->
  consume fmt_tprefix
    (tg_signature x ++ le_split 1 (tg_altsetting x) ++ le_split 4 (tg_named x)
     ++ tg_name x ++ le_split 4 (len (target_body x))
     ++ le_split 4 count ++ rest) names_tprefix
  = ret ({| t_signature := tg_signature x; t_altsetting := tg_altsetting x;
            t_named := tg_named x; t_name := tg_name x;
            t_size := len (target_body x); t_elements := count;
            t_num := 0 |}, rest).
Proof.
  intros (Hsig & Ra & Rn & Hname & Rsize & _ & _) Rcount.
  pose proof (pack_tprefix_ok (tg_signature x) _ _ (tg_name x) _ _ Ra Rn Rsize Rcount) as P.
  rewrite (pack_s_exact _ _ Hsig), (pack_s_exact _ _ Hname) in P.
  replace (tg_signature x ++ le_split 1 (tg_altsetting x) ++ le_split 4 (tg_named x)
           ++ tg_name x ++ le_split 4 (len (target_body x))
           ++ le_split 4 count ++ rest)
    with ((tg_signature x ++ le_split 1 (tg_altsetting x) ++ le_split 4 (tg_named x)
           ++ tg_name x ++ le_split 4 (len (target_body x))
           ++ le_split 4 count) ++ rest)
    by (rewrite <- !app_assoc; reflexivity).
  rewrite (consume_pack _ _ _ _ _ P).
  cbn [stored_all fmt_tprefix stored].
  rewrite (pack_s_exact _ _ Hsig), (pack_s_exact _ _ Hname).
  reflexivity.
Qed.

(** When the elements use up the target body and the header declares
    more of them, the next header is read from nothing: [struct.error]. *)
Lemma parse_elements_short file dump t more : forall es e,
  elements_ok es [] ->
  parse_elements file dump t (List.length es + S more) e (enc_elements es)
  = (elements_events file dump t e es, Raise Py.StructError).
Proof.
  induction es as [|x es IH]; intros e Hok.
  - cbn [List.length Nat.add parse_elements enc_elements flat_map].
    rewrite consume_short by (cbn; lia). reflexivity.
  - destruct Hok as (Ra & Rs & Hsize & Hok).
    cbn [List.length Nat.add parse_elements enc_elements flat_map].
    unfold enc_element at 1. rewrite <- !app_assoc.
    rewrite consume_eprefix by assumption.
    rewrite bind_ret. cbn [set_e_num e_address e_size e_num].
    rewrite bind_emit.
    assert (Hcut : Py.slice_to (el_data x ++ flat_map enc_element es) (el_size x)
                   = el_data x
                   /\ Py.slice_from (el_data x ++ flat_map enc_element es) (el_size x)
                      = enc_elements es).
    { destruct Hsize as [E|(-> & _ & Hlt)].
      - split; [apply slice_to_app|apply slice_from_app]; exact E.
      - cbn [flat_map enc_elements]. rewrite app_nil_r.
        split; [apply slice_to_all|apply slice_from_all]; lia. }
    destruct Hcut as [-> ->].
    rewrite (IH (e + 1) Hok).
    destruct dump; reflexivity.
Qed.

(** The targets loop run for more turns than there are targets laid
    out at the front of the buffer. *)
Lemma parse_targets_more file dump more : forall ts t rest,
  Forall target_ok ts ->
  parse_targets file dump (List.length ts + more) t (enc_targets ts ++ rest)
  = (targets_events file dump t ts
     ++ fst (parse_targets file dump more (t + len ts) rest),
     snd (parse_targets file dump more (t + len ts) rest)).
Proof.
  induction ts as [|x ts IH]; intros t rest Hok.
  - cbn [List.length Nat.add enc_targets flat_map app targets_events].
    change (len (@nil tgt)) with 0. rewrite Z.add_0_r. apply run_pair.
  - inversion Hok as [|? ? Hx Hts]. subst.
    cbn [List.length Nat.add parse_targets enc_targets flat_map].
    unfold enc_target at 1. rewrite <- !app_assoc.
    rewrite (consume_tprefix _ _ Hx), bind_ret.
    match goal with
    | |- context [PrintTarget ?l] =>
        replace l with (target_line t x)
          by (unfold target_line; cbn [set_t_num set_t_name t_named t_name];
              destruct (tg_named x =? 0); reflexivity)
    end.
    rewrite bind_emit.
    cbn [target_line t_size t_elements].
    rewrite SliceFacts.slice_to_app, SliceFacts.slice_from_app by reflexivity.
    rewrite nat_of_len. unfold target_body.
    destruct Hx as (_ & _ & _ & _ & _ & _ & Hels).
    rewrite (parse_elements_enc file dump t _ 0 _ Hels).
    fold (enc_targets ts). rewrite bind_out, (IH (t + 1) rest Hts), when_emit_then.
    cbn [targets_events fst snd]. unfold target_events.
    replace (t + 1 + len ts) with (t + len (x :: ts))
      by (unfold len; cbn [List.length]; lia).
    destruct (tg_rest x) as [|c r]; cbn [app];
      rewrite <- ?app_comm_cons, <- ?app_assoc; cbn [app]; reflexivity.
Qed.

(** A target that declares [extra] elements beyond those its body
    holds ends the targets loop with [struct.error], after its header
    and its elements have been printed. *)
Lemma parse_target_short file dump more t x extra tail :
  target_ok x -> tg_rest x = [] -> 0 < extra ->
  u32 (len (tg_elements x) + extra) ->
  parse_targets file dump (S more) t
    (enc_target_counted (len (tg_elements x) + extra) x ++ tail)
  = (PrintTarget (target_line_counted (len (tg_elements x) + extra) t x)
     :: elements_events file dump t 0 (tg_elements x),
     Raise Py.StructError).
Proof.
  intros Hx Hrest Hextra Rcount.
  cbn [parse_targets]. unfold enc_target_counted. rewrite <- !app_assoc.
  rewrite (consume_tprefix_counted _ _ _ Hx Rcount), bind_ret.
  match goal with
  | |- context [PrintTarget ?l] =>
      replace l with (target_line_counted (len (tg_elements x) + extra) t x)
        by (unfold target_line_counted; cbn [set_t_num set_t_name t_named t_name];
            destruct (tg_named x =? 0); reflexivity)
  end.
  rewrite bind_emit.
  cbn [target_line_counted t_size t_elements].
  rewrite SliceFacts.slice_to_app by reflexivity.
  unfold target_body. rewrite Hrest, app_nil_r.
  pose proof (len_nonneg (tg_elements x)).
  rewrite Z2Nat.inj_add, nat_of_len by lia.
  destruct (Z.to_nat extra) as [|k] eqn:E; [lia|].
  destruct Hx as (_ & _ & _ & _ & _ & _ & Hels). rewrite Hrest in Hels.
  rewrite (parse_elements_short file dump t k _ 0 Hels).
  reflexivity.
Qed.

Lemma elements_events_app file dump t : forall es1 es2 e,
  elements_events file dump t e (es1 ++ es2)
  = elements_events file dump t e es1
    ++ elements_events file dump t (e + len es1) es2.
Proof.
  induction es1 as [|x es1 IH]; intros es2 e.
  - cbn [app elements_events]. change (len (@nil elem)) with 0.
    rewrite Z.add_0_r. reflexivity.
  - cbn [app elements_events]. rewrite IH, <- app_assoc.
    replace (e + 1 + len es1) with (e + len (x :: es1))
      by (unfold len; cbn [List.length]; lia).
    reflexivity.
Qed.

(** An element that declares more than it has is the last one, and
    nothing follows it in the target. *)
Lemma overlong_is_last : forall front e rest,
  elements_ok (front ++ [e]) rest -> len (el_data e) < el_size e -> rest = [].
Proof.
  induction front as [|x front IH]; intros e rest Hok Hlt.
  - destruct Hok as (_ & _ & [E|(_ & E & _)] & _); [lia|exact E].
  - destruct Hok as (_ & _ & _ & Hok). exact (IH _ _ Hok Hlt).
Qed.

(** Bytes left over in a target mean every element declared the size
    of its data. *)
Lemma leftover_means_exact : forall es rest,
  elements_ok es rest -> rest <> [] ->
  Forall (fun e => el_size e = len (el_data e)) es.
Proof.
  induction es as [|x es IH]; intros rest Hok Hne.
  - constructor.
  - destruct Hok as (_ & _ & [E|(_ & E & _)] & Hok); [|contradiction].
    constructor; [exact E|exact (IH _ Hok Hne)].
Qed.

(** The output for a container, around one of its targets. *)
Lemma container_events_at file dump c before x after :
  ct_targets c = before ++ x :: after ->
  container_events file dump c
  = [PrintFile file; PrintPrefix (prefix_line c)]
    ++ targets_events file dump 0 before
    ++ target_events file dump (len before) x
    ++ targets_events file dump (len before + 1) after
    ++ [PrintSuffix (ct_suffix c)]
    ++ file_diagnostics c.
Proof.
  intros E. unfold container_events. rewrite E, targets_events_app.
  cbn [targets_events]. rewrite Z.add_0_l, <- !app_assoc. reflexivity.
Qed.

(** [parse] on a file whose target number [len before] declares
    [extra] more elements than its body holds. *)
Lemma parse_short_target file dump c before x after extra tail :
  container_ok c ->
  ct_targets c = before ++ x :: after ->
  tg_rest x = [] -> 0 < extra ->
  u32 (len (tg_elements x) + extra) ->
  parse file
    (enc_prefix c ++ enc_targets before
     ++ enc_target_counted (len (tg_elements x) + extra) x ++ tail) dump
  = ([PrintFile file; PrintPrefix (prefix_line c)]
     ++ targets_events file dump 0 before
     ++ PrintTarget (target_line_counted (len (tg_elements x) + extra) (len before) x)
        :: elements_events file dump (len before) 0 (tg_elements x),
     Raise Py.StructError).
Proof.
  intros Hc E Hrest Hextra Rcount.
  pose proof Hc as (_ & _ & _ & _ & Hts & _).
  rewrite E in Hts. apply Forall_app in Hts. destruct Hts as [Hbefore Hx].
  apply Forall_cons_iff in Hx. destruct Hx as [Hx _].
  unfold parse. rewrite bind_emit.
  rewrite (consume_prefix _ _ Hc), bind_ret, bind_emit.
  cbn [prefix_line p_targets]. rewrite nat_of_len, E.
  rewrite length_app. cbn [List.length].
  rewrite (parse_targets_more file dump _ _ 0 _ Hbefore).
  rewrite Z.add_0_l.
  rewrite (parse_target_short file dump _ _ x extra tail Hx Hrest Hextra Rcount).
  cbn [fst snd bind app]. reflexivity.
Qed.

End DiagnosticFacts.

(* ================================================================= *)
(** ** The claims about diagnostics *)

(** C7: when the elements of a target leave one byte of the target's
    declared size unused, [parse] prints the diagnostic of that target
    after the target's elements, comes to a normal end, and prints the
    targets after it and the suffix as laid out. *)
Theorem trailing_byte_is_reported :
  forall file dump_images c before x after extra,
    Wire.container_ok c ->
    Wire.ct_targets c = before ++ x :: after ->
    Wire.tg_rest x = [extra] ->
    len (Wire.target_body x) = len (Wire.enc_elements (Wire.tg_elements x)) + 1
    /\ Forall (fun e => Wire.el_size e = len (Wire.el_data e)) (Wire.tg_elements x)
    /\ parse file (Wire.enc_container c) dump_images
       = ([PrintFile file; PrintPrefix (Wire.prefix_line c)]
          ++ Wire.targets_events file dump_images 0 before
          ++ (PrintTarget (Wire.target_line (len before) x)
              :: Wire.elements_events file dump_images (len before) 0
                   (Wire.tg_elements x))
          ++ [PrintTargetParseError (len before)]
          ++ Wire.targets_events file dump_images (len before + 1) after
          ++ [PrintSuffix (Wire.ct_suffix c)]
          ++ Wire.file_diagnostics c,
          Ok tt).
Proof.
  intros file dump_images c before x after extra Hc E Hrest.
  pose proof Hc as (_ & _ & _ & _ & Hts & _).
  rewrite E in Hts. apply Forall_app in Hts. destruct Hts as [_ Hx].
  apply Forall_cons_iff in Hx. destruct Hx as [(_ & _ & _ & _ & _ & _ & Hels) _].
  split; [|split].
  - unfold Wire.target_body. rewrite len_app, Hrest. reflexivity.
  - apply (DiagnosticFacts.leftover_means_exact _ _ Hels).
    rewrite Hrest. discriminate.
  - rewrite (ParseFacts.parse_enc file dump_images c Hc).
    rewrite (DiagnosticFacts.container_events_at file dump_images c _ _ _ E).
    unfold Wire.target_events. rewrite Hrest. cbn [app].
    rewrite <- ?app_assoc. reflexivity.
Qed.

(** C9, as the code has it: an element that declares more bytes than
    its target has left gets the bytes that are left, with no
    diagnostic.  When it is the last element its target declares,
    [parse] comes to a normal end and prints no diagnostic for the
    target.  When the target declares [extra] elements more, the next
    element header is read from an empty slice and [parse] ends with
    [struct.error], the targets after it and the suffix unread. *)
Theorem overlong_element_truncated_then_raises :
  forall file dump_images c before x after front e extra tail,
    Wire.container_ok c ->
    Wire.ct_targets c = before ++ x :: after ->
    Wire.tg_elements x = front ++ [e] ->
    len (Wire.el_data e) < Wire.el_size e ->
    0 < extra ->
    Wire.u32 (len (Wire.tg_elements x) + extra) ->
    parse file (Wire.enc_container c) dump_images
    = ([PrintFile file; PrintPrefix (Wire.prefix_line c)]
       ++ Wire.targets_events file dump_images 0 before
       ++ (PrintTarget (Wire.target_line (len before) x)
           :: Wire.elements_events file dump_images (len before) 0 front
           ++ Wire.element_events file dump_images (len before) (len front) e)
       ++ Wire.targets_events file dump_images (len before + 1) after
       ++ [PrintSuffix (Wire.ct_suffix c)]
       ++ Wire.file_diagnostics c,
       Ok tt)
    /\ parse file
         (Wire.enc_prefix c ++ Wire.enc_targets before
          ++ Wire.enc_target_counted (len (Wire.tg_elements x) + extra) x ++ tail)
         dump_images
       = ([PrintFile file; PrintPrefix (Wire.prefix_line c)]
          ++ Wire.targets_events file dump_images 0 before
          ++ PrintTarget (Wire.target_line_counted
                            (len (Wire.tg_elements x) + extra) (len before) x)
             :: Wire.elements_events file dump_images (len before) 0 front
             ++ Wire.element_events file dump_images (len before) (len front) e,
          Raise Py.StructError).
Proof.
  intros file dump_images c before x after front e extra tail
    Hc E Hels Hlong Hextra Rcount.
  pose proof Hc as (_ & _ & _ & _ & Hts & _).
  rewrite E in Hts. apply Forall_app in Hts. destruct Hts as [_ Hx].
  apply Forall_cons_iff in Hx. destruct Hx as [(_ & _ & _ & _ & _ & _ & Hok) _].
  rewrite Hels in Hok.
  pose proof (DiagnosticFacts.overlong_is_last _ _ _ Hok Hlong) as Hrest.
  assert (Ee : Wire.elements_events file dump_images (len before) 0 (front ++ [e])
               = Wire.elements_events file dump_images (len before) 0 front
                 ++ Wire.element_events file dump_images (len before) (len front) e).
  { rewrite DiagnosticFacts.elements_events_app. cbn [Wire.elements_events].
    rewrite Z.add_0_l, app_nil_r. reflexivity. }
  split.
  - rewrite (ParseFacts.parse_enc file dump_images c Hc).
    rewrite (DiagnosticFacts.container_events_at file dump_images c _ _ _ E).
    unfold Wire.target_events. rewrite Hrest, Hels, Ee, app_nil_r. reflexivity.
  - rewrite (DiagnosticFacts.parse_short_target file dump_images c _ _ _ extra tail
               Hc E Hrest Hextra Rcount).
    rewrite Hels, Ee. reflexivity.
Qed.

Module ExampleFacts.
Import Wire Examples.

Lemma tgt_plain_ok : target_ok tgt_plain.
Proof.
  unfold target_ok. split_all; try reflexivity; try (vm_compute; split; congruence).
  cbn [tgt_plain wire_target tg_elements tg_rest elements_ok el_boot el_app
       el_address el_size el_data].
  split_all; try (vm_compute; split; congruence); try exact I.
  left. reflexivity.
Qed.

Lemma tgt_trailing_ok : target_ok tgt_trailing.
Proof.
  unfold target_ok. split_all; try reflexivity; try (vm_compute; split; congruence).
  cbn [tgt_trailing wire_target tg_elements tg_rest elements_ok el_boot
       el_address el_size el_data].
  split_all; try (vm_compute; split; congruence); try exact I.
  left. reflexivity.
Qed.

Lemma tgt_overlong_ok : target_ok tgt_overlong.
Proof.
  unfold target_ok. split_all; try reflexivity; try (vm_compute; split; congruence).
  cbn [tgt_overlong wire_target tg_elements tg_rest elements_ok el_long
       el_address el_size el_data].
  split_all; try (vm_compute; split; congruence); try exact I.
  right. split_all; try reflexivity.
Qed.

Lemma wire_file_ok ts :
  Forall target_ok ts -> u8 (len ts) ->
  u32 (PREFIX_SIZE + len (enc_targets ts) + SUFFIX_SIZE) ->
  container_ok (wire_file ts).
Proof.
  intros Hts Hcount Hsize. unfold container_ok.
  cbn [wire_file ct_signature ct_version ct_size ct_targets ct_suffix].
  split_all; try assumption; try reflexivity; try (vm_compute; split; congruence).
  unfold suffix_ok.
  split_all; try reflexivity; try (vm_compute; split; congruence).
Qed.

Lemma file_trailing_ok : container_ok file_trailing.
Proof.
  apply wire_file_ok.
  - apply Forall_cons; [apply tgt_trailing_ok|].
    apply Forall_cons; [apply tgt_plain_ok|apply Forall_nil].
  - vm_compute. split; congruence.
  - vm_compute. split; congruence.
Qed.

Lemma file_overlong_ok : container_ok file_overlong.
Proof.
  apply wire_file_ok.
  - apply Forall_cons; [apply tgt_overlong_ok|].
    apply Forall_cons; [apply tgt_plain_ok|apply Forall_nil].
  - vm_compute. split; congruence.
  - vm_compute. split; congruence.
Qed.

End ExampleFacts.

Lemma trailing_byte_is_reported_witness :
  len (Wire.target_body Examples.tgt_trailing)
  = len (Wire.enc_elements (Wire.tg_elements Examples.tgt_trailing)) + 1
  /\ Forall (fun e => Wire.el_size e = len (Wire.el_data e))
       (Wire.tg_elements Examples.tgt_trailing)
  /\ parse Examples.out_file (Wire.enc_container Examples.file_trailing) true
     = ([PrintFile Examples.out_file; PrintPrefix (Wire.prefix_line Examples.file_trailing)]
        ++ Wire.targets_events Examples.out_file true 0 []
        ++ (PrintTarget (Wire.target_line (len (@nil Wire.tgt)) Examples.tgt_trailing)
            :: Wire.elements_events Examples.out_file true (len (@nil Wire.tgt)) 0
                 (Wire.tg_elements Examples.tgt_trailing))
        ++ [PrintTargetParseError (len (@nil Wire.tgt))]
        ++ Wire.targets_events Examples.out_file true (len (@nil Wire.tgt) + 1)
             [Examples.tgt_plain]
        ++ [PrintSuffix (Wire.ct_suffix Examples.file_trailing)]
        ++ Wire.file_diagnostics Examples.file_trailing,
        Ok tt).
Proof.
  apply (trailing_byte_is_reported Examples.out_file true Examples.file_trailing
           [] Examples.tgt_trailing [Examples.tgt_plain] Byte.x2a).
  - exact ExampleFacts.file_trailing_ok.
  - reflexivity.
  - reflexivity.
Defined.

(** C9 as stated fails: the first target of this file declares two
    elements and holds 12 bytes; its first element declares 100 bytes
    where 4 are left, and the header of the second is then read from
    an empty slice.  [parse] ends with [struct.error]. *)
Lemma overlong_element_raises :
  parse Examples.out_file Examples.bytes_overlong_two false
  = ([PrintFile Examples.out_file;
      PrintPrefix {| p_signature := blit "DfuSe"; p_version := 1;
                     p_size := 598; p_targets := 2 |};
      PrintTarget {| t_signature := blit "Target"; t_altsetting := 0; t_named := 1;
                     t_name := blit "ST..."; t_size := 12; t_elements := 2;
                     t_num := 0 |};
      PrintElement {| e_address := 0x08000000; e_size := 100; e_num := 0 |}],
     Raise Py.StructError).
Proof. vm_compute. reflexivity. Qed.

Lemma overlong_element_truncated_then_raises_witness :
  parse Examples.out_file (Wire.enc_container Examples.file_overlong) true
  = ([PrintFile Examples.out_file; PrintPrefix (Wire.prefix_line Examples.file_overlong)]
     ++ Wire.targets_events Examples.out_file true 0 []
     ++ (PrintTarget (Wire.target_line (len (@nil Wire.tgt)) Examples.tgt_overlong)
         :: Wire.elements_events Examples.out_file true (len (@nil Wire.tgt)) 0 []
         ++ Wire.element_events Examples.out_file true (len (@nil Wire.tgt))
              (len (@nil Wire.elem)) Examples.el_long)
     ++ Wire.targets_events Examples.out_file true (len (@nil Wire.tgt) + 1)
          [Examples.tgt_plain]
     ++ [PrintSuffix (Wire.ct_suffix Examples.file_overlong)]
     ++ Wire.file_diagnostics Examples.file_overlong,
     Ok tt)
  /\ parse Examples.out_file
       (Wire.enc_prefix Examples.file_overlong ++ Wire.enc_targets []
        ++ Wire.enc_target_counted
             (len (Wire.tg_elements Examples.tgt_overlong) + 1) Examples.tgt_overlong
        ++ Wire.enc_target Examples.tgt_plain)
       true
     = ([PrintFile Examples.out_file; PrintPrefix (Wire.prefix_line Examples.file_overlong)]
        ++ Wire.targets_events Examples.out_file true 0 []
        ++ PrintTarget (Wire.target_line_counted
                          (len (Wire.tg_elements Examples.tgt_overlong) + 1)
                          (len (@nil Wire.tgt)) Examples.tgt_overlong)
           :: Wire.elements_events Examples.out_file true (len (@nil Wire.tgt)) 0 []
           ++ Wire.element_events Examples.out_file true (len (@nil Wire.tgt))
                (len (@nil Wire.elem)) Examples.el_long,
        Raise Py.StructError).
Proof.
  apply (overlong_element_truncated_then_raises Examples.out_file true
           Examples.file_overlong [] Examples.tgt_overlong [Examples.tgt_plain]
           [] Examples.el_long 1 (Wire.enc_target Examples.tgt_plain)).
  - exact ExampleFacts.file_overlong_ok.
  - reflexivity.
  - reflexivity.
  - vm_compute. reflexivity.
  - lia.
  - vm_compute. split; congruence.
Defined.

(* ================================================================= *)
(** ** Ingesting raw binaries *)

Module IngestFacts.
Import Wire Struct StructFacts SliceFacts BuildFacts ParseFacts.

Lemma files_written_app x y : files_written (x ++ y) = files_written x ++ files_written y.
Proof.
  induction x as [|e x IH]; [reflexivity|].
  destruct e; cbn [app files_written]; rewrite IH; reflexivity.
Qed.

(** A computation that writes no file and ends normally or with
    [sys.exit(1)]. *)
Definition benign {A} (m : M A) : Prop :=
  exists out, files_written out = []
    /\ ((exists a, m = (out, Ok a)) \/ m = (out, Raise (Py.SystemExit 1))).

(** A computation that writes no file and ends with [sys.exit(1)]. *)
Definition exits {A} (m : M A) : Prop :=
  exists out, files_written out = [] /\ m = (out, Raise (Py.SystemExit 1)).

Lemma benign_ret {A} (a : A) : benign (ret a).
Proof. exists []. split; [reflexivity|]. left. exists a. reflexivity. Qed.

Lemma exits_benign {A} (m : M A) : exits m -> benign m.
Proof. intros (out & H & E). exists out. auto. Qed.

Lemma benign_bind {A B} (m : M A) (k : A -> M B) :
  benign m -> (forall a, benign (k a)) -> benign (bind m k).
Proof.
  intros (o1 & H1 & [(a & ->)| ->]) Hk.
  - destruct (Hk a) as (o2 & H2 & [(r & E)|E]); rewrite bind_out, E; cbn [fst snd];
      exists (o1 ++ o2); (split; [rewrite files_written_app, H1, H2; reflexivity|]).
    + left. exists r. reflexivity.
    + right. reflexivity.
  - exists o1. split; [exact H1|]. right. reflexivity.
Qed.

Lemma exits_bind {A B} (m : M A) (k : A -> M B) : exits m -> exits (bind m k).
Proof. intros (o1 & H1 & ->). exists o1. split; [exact H1|reflexivity]. Qed.

Lemma benign_then_exits {A B} (m : M A) (k : A -> M B) :
  benign m -> (forall a, exits (k a)) -> exits (bind m k).
Proof.
  intros (o1 & H1 & [(a & ->)| ->]) Hk.
  - destruct (Hk a) as (o2 & H2 & E). rewrite bind_out, E. cbn [fst snd].
    exists (o1 ++ o2). split; [rewrite files_written_app, H1, H2; reflexivity|reflexivity].
  - exists o1. split; [exact H1|reflexivity].
Qed.

Lemma exits_print {A} (e : event) :
  files_written [e] = [] -> exits (emit e ;; sys_exit (A := A) 1)%run.
Proof. intros H. exists [e]. split; [exact H|reflexivity]. Qed.

(** The last 16 bytes of a buffer that has them. *)
Lemma length_last16 (x : bytes) :
  16 <= len x -> List.length (Py.slice_from x (- SUFFIX_SIZE)) = 16%nat.
Proof.
  intros H. unfold Py.slice_from, SUFFIX_SIZE. cbn [Z.opp].
  rewrite (norm_index_neg x (-16)) by lia.
  rewrite length_skipn. unfold len in *. lia.
Qed.

(** [checkbin] returns or leaves with [sys.exit(1)]; it writes nothing. *)
Lemma benign_checkbin binfile x : benign (checkbin binfile x).
Proof.
  unfold checkbin.
  destruct (len x <? SUFFIX_SIZE) eqn:E; [apply benign_ret|].
  apply Z.ltb_ge in E. unfold SUFFIX_SIZE in E.
  unfold Struct.unpack. rewrite (length_last16 x E). cbn [calcsize fmt_suffix code_size
    Nat.add Nat.eqb orelse].
  rewrite bind_ret.
  match goal with |- benign (if ?c then _ else _) => destruct c end;
    [|apply benign_ret].
  apply exits_benign. eexists. split; [|reflexivity]. reflexivity.
Qed.

(** [checkbin] on a buffer that ends with a valid suffix. *)
Lemma checkbin_detects binfile payload x :
  valid_suffix payload x ->
  checkbin binfile (with_suffix payload x)
  = ([PrintSuffix x; PrintHasSuffix binfile; PrintRemoveSuffix],
     Raise (Py.SystemExit 1)).
Proof.
  intros (Hok & Hufd & Hcrc).
  destruct (unpack_suffix x Hok) as [Hun Hlen].
  unfold checkbin, with_suffix.
  assert (Hlong : (len (payload ++ enc_suffix_head x ++ le_split 4 (s_crc x))
                   <? SUFFIX_SIZE) = false).
  { apply Z.ltb_ge. rewrite len_app, Hlen. pose proof (len_nonneg payload). lia. }
  rewrite Hlong.
  rewrite slice_from_neg_app
    by (rewrite ?Hlen; unfold SUFFIX_SIZE; first [lia|reflexivity]).
  rewrite Hun. cbn [orelse]. rewrite bind_ret. unfold named. rewrite suffix_eta.
  replace (payload ++ enc_suffix_head x ++ le_split 4 (s_crc x))
    with ((payload ++ enc_suffix_head x) ++ le_split 4 (s_crc x))
    by (rewrite <- app_assoc; reflexivity).
  rewrite slice_to_neg_app by (rewrite ?len_le_split; first [lia|reflexivity]).
  rewrite <- Hcrc, Z.eqb_refl, Hufd. reflexivity.
Qed.

Ltac no_write := first [reflexivity | apply exits_print; reflexivity].

(** One turn of the ingester returns or leaves with [sys.exit(1)]; it
    writes nothing. *)
Lemma benign_body w default_alt arg targets target old_ealt :
  benign (binfiles_body w default_alt arg targets target old_ealt).
Proof.
  unfold binfiles_body.
  apply benign_bind.
  { destruct (Py.split1 ":" arg) as [|a [|f [|? ?]]];
      first [apply benign_ret | apply exits_benign, exits_print; reflexivity]. }
  intros [address binfile].
  apply benign_bind.
  { destruct (Py.split1 "@" address) as [|a [|alts [|? ?]]]; try apply benign_ret.
    destruct alts as [|? ?]; [apply benign_ret|].
    match goal with |- benign (match ?o with _ => _ end) => destruct o end;
      first [apply benign_ret | apply exits_benign, exits_print; reflexivity]. }
  intros [address' ealt].
  apply benign_bind.
  { destruct (Py.int address' 0);
      first [apply benign_ret | apply exits_benign, exits_print; reflexivity]. }
  intros a. unfold isfile, read.
  destruct (file_bytes w binfile) as [content|]; cbn [negb orelse].
  - rewrite !bind_ret. apply benign_bind; [apply benign_checkbin|].
    intros _.
    destruct (match old_ealt with
              | Some old => if negb (ealt =? old) then (targets ++ [target], [])
                            else (targets, target)
              | None => (targets, target)
              end) as [ts tg].
    rewrite bind_ret. apply benign_ret.
  - apply exits_benign, exits_bind, exits_print. reflexivity.
Qed.

(** One turn of the ingester on a descriptor whose file ends with a
    valid suffix leaves with [sys.exit(1)]. *)
Lemma exits_body w default_alt arg targets target old_ealt address binfile payload x :
  Py.split1 ":" arg = [address; binfile] ->
  file_bytes w binfile = Some (with_suffix payload x) ->
  valid_suffix payload x ->
  exits (binfiles_body w default_alt arg targets target old_ealt).
Proof.
  intros Hsplit Hfile Hvalid. unfold binfiles_body.
  rewrite Hsplit, bind_ret.
  apply benign_then_exits.
  { destruct (Py.split1 "@" address) as [|a [|alts [|? ?]]]; try apply benign_ret.
    destruct alts as [|? ?]; [apply benign_ret|].
    match goal with |- benign (match ?o with _ => _ end) => destruct o end;
      first [apply benign_ret | apply exits_benign, exits_print; reflexivity]. }
  intros [address' ealt].
  apply benign_then_exits.
  { destruct (Py.int address' 0);
      first [apply benign_ret | apply exits_benign, exits_print; reflexivity]. }
  intros a. unfold isfile, read. rewrite Hfile. cbn [negb orelse].
  rewrite !bind_ret, (checkbin_detects binfile payload x Hvalid).
  apply exits_bind. eexists. split; [|reflexivity]. reflexivity.
Qed.


(** The ingester on a list of descriptors one of which names a file
    that ends with a valid suffix. *)
Lemma exits_loop w default_alt arg address binfile payload x :
  Py.split1 ":" arg = [address; binfile] ->
  file_bytes w binfile = Some (with_suffix payload x) ->
  valid_suffix payload x ->
  forall binfiles targets target old_ealt,
    In arg binfiles ->
    exits (binfiles_loop w default_alt binfiles targets target old_ealt).
Proof.
  intros Hsplit Hfile Hvalid.
  induction binfiles as [|arg' rest IH]; intros targets target old_ealt Hin;
    [contradiction|].
  cbn [binfiles_loop]. destruct Hin as [->|Hin].
  - apply exits_bind. exact (exits_body _ _ _ _ _ _ _ _ _ _ Hsplit Hfile Hvalid).
  - apply benign_then_exits; [apply benign_body|].
    intros [[ts tg] o]. apply IH, Hin.
Qed.

End IngestFacts.

(** C4: a raw binary that ends with a valid DFU suffix (the marker, and
    a checksum field equal to [compute_crc] of all the bytes before it)
    is detected by [checkbin], which prints the suffix and the two
    messages and calls [sys.exit(1)]; a run whose [-b] descriptors name
    such a file ends with exit status 1 and has written no file. *)
Theorem already_suffixed_input_is_refused :
  forall w options args binfiles arg address binfile payload x,
    o_binfiles options = Some binfiles ->
    In arg binfiles ->
    Py.split1 ":" arg = [address; binfile] ->
    file_bytes w binfile = Some (with_suffix payload x) ->
    valid_suffix payload x ->
    checkbin binfile (with_suffix payload x)
    = ([PrintSuffix x; PrintHasSuffix binfile; PrintRemoveSuffix],
       Raise (Py.SystemExit 1))
    /\ exists out,
         main w options args = (out, Raise (Py.SystemExit 1))
         /\ files_written out = [].
Proof.
  intros w options args binfiles arg address binfile payload x
    Hopt Hin Hsplit Hfile Hvalid.
  split; [apply IngestFacts.checkbin_detects, Hvalid|].
  assert (Htruthy : truthy (o_binfiles options) = true).
  { rewrite Hopt. destruct binfiles; [contradiction|reflexivity]. }
  assert (Hgoal : IngestFacts.exits (main w options args)).
  { unfold main. apply IngestFacts.benign_then_exits.
    - destruct (truthy (o_alt options)); [|apply IngestFacts.benign_ret].
      destruct (Py.int _ 10);
        first [apply IngestFacts.benign_ret
              |apply IngestFacts.exits_benign, IngestFacts.exits_print; reflexivity].
    - intros default_alt. rewrite Htruthy. cbn [orb andb].
      destruct (len args =? 1).
      + unfold build_from_files. rewrite Htruthy, Hopt.
        apply IngestFacts.exits_bind, IngestFacts.exits_bind.
        exact (IngestFacts.exits_loop w default_alt arg address binfile payload x
                 Hsplit Hfile Hvalid binfiles [] [] None Hin).
      + rewrite andb_false_r.
        destruct (IntelHex w); eexists; (split; [|reflexivity]); reflexivity. }
  destruct Hgoal as (out & Hw & E). exists out. split; assumption.
Qed.

Lemma already_suffixed_input_is_refused_witness :
  checkbin (lit "fw.bin") (with_suffix Examples.payload Examples.sealed_suffix)
  = ([PrintSuffix Examples.sealed_suffix; PrintHasSuffix (lit "fw.bin");
      PrintRemoveSuffix],
     Raise (Py.SystemExit 1))
  /\ exists out,
       main (Examples.one_file (lit "fw.bin")
               (with_suffix Examples.payload Examples.sealed_suffix))
            (Examples.build_options [lit "0x08000000:fw.bin"])
            [Examples.out_file]
       = (out, Raise (Py.SystemExit 1))
       /\ files_written out = [].
Proof.
  apply (already_suffixed_input_is_refused
           (Examples.one_file (lit "fw.bin")
              (with_suffix Examples.payload Examples.sealed_suffix))
           (Examples.build_options [lit "0x08000000:fw.bin"])
           [Examples.out_file]
           [lit "0x08000000:fw.bin"] (lit "0x08000000:fw.bin")
           (lit "0x08000000") (lit "fw.bin")
           Examples.payload Examples.sealed_suffix).
  - reflexivity.
  - left. reflexivity.
  - vm_compute. reflexivity.
  - vm_compute. reflexivity.
  - unfold valid_suffix, Wire.suffix_ok. split_all;
      first [ vm_compute; reflexivity | vm_compute; split; congruence ].
Defined.

(* ================================================================= *)
(** ** Integer literals *)

Module IntFacts.
Import Py.

(** A digit is not white space, a sign, an underscore or one of the
    separators of a descriptor. *)
Lemma digit_is_plain c d :
  digit_value c = Some d ->
  int_isspace c = false /\ is_char c "+" = false /\ is_char c "-" = false
  /\ is_char c "_" = false /\ Ascii.eqb c ":" = false /\ Ascii.eqb c "@" = false.
Proof.
  destruct c as [b0 b1 b2 b3 b4 b5 b6 b7].
  destruct b0, b1, b2, b3, b4, b5, b6, b7; intros H;
    first [discriminate H | repeat split; reflexivity].
Qed.

Lemma is_digits_cons base c ds :
  is_digits base (c :: ds) = true ->
  (exists d, digit_value c = Some d /\ (d <? base) = true) /\ is_digits base ds = true.
Proof.
  unfold is_digits. cbn [forallb]. intros H. apply andb_prop in H.
  destruct H as [H1 H2]. split; [|exact H2].
  destruct (digit_value c) as [d|]; [|discriminate]. exists d. auto.
Qed.

Definition spell (base : Z) (acc : Z) (ds : str) : Z :=
  fold_left (fun acc c => acc * base + match digit_value c with
                                       | Some d => d
                                       | None => 0
                                       end) ds acc.

(** The digit scan on a run of digits that ends the text. *)
Lemma scan_run base : forall ds prev acc n,
  is_digits base ds = true ->
  ds <> [] \/ prev = false ->
  scan_digits base ds prev acc n = Some (spell base acc ds, (n + List.length ds)%nat, []).
Proof.
  induction ds as [|c ds IH]; intros prev acc n Hd Hp.
  - destruct Hp as [Hp| ->]; [contradiction|].
    cbn [scan_digits spell fold_left List.length]. rewrite Nat.add_0_r. reflexivity.
  - apply is_digits_cons in Hd. destruct Hd as [(d & Hc & Hlt) Hds].
    destruct (digit_is_plain c d Hc) as (_ & _ & _ & Hus & _).
    cbn [scan_digits]. rewrite Hus, Hc, Hlt.
    rewrite (IH false (acc * base + d) (S n) Hds) by (right; reflexivity).
    unfold spell. cbn [fold_left List.length]. rewrite Hc.
    replace (S n + List.length ds)%nat with (n + S (List.length ds))%nat by lia.
    reflexivity.
Qed.

Lemma spell_value base ds : spell base 0 ds = digits_value base ds.
Proof. reflexivity. Qed.


(** The digits stage on a run of digits that ends the text. *)
Lemma int_digits_run base e ds :
  ds <> [] -> is_digits base ds = true ->
  int_digits base e ds
  = if negb (is_pow2_base base) && (max_str_digits <? List.length ds)%nat then None
    else if e && negb (digits_value base ds =? 0) then None
    else Some (digits_value base ds).
Proof.
  intros Hne Hd. destruct ds as [|c ds]; [contradiction|].
  pose proof (is_digits_cons _ _ _ Hd) as [(d & Hc & _) _].
  destruct (digit_is_plain c d Hc) as (_ & _ & _ & Hus & _).
  unfold int_digits. rewrite Hus.
  rewrite (scan_run base (c :: ds) false 0 0 Hd) by (left; discriminate).
  rewrite spell_value. cbn [Nat.add List.length Nat.eqb lstrip_by]. reflexivity.
Qed.

(** A hexadecimal literal under [0x]. *)
Lemma int_hex ds :
  ds <> [] -> is_digits 16 ds = true ->
  int ("0" :: "x" :: ds)%char 0 = Some (digits_value 16 ds).
Proof.
  intros Hne Hd. destruct ds as [|c ds]; [contradiction|].
  pose proof (is_digits_cons _ _ _ Hd) as [(d & Hc & _) _].
  destruct (digit_is_plain c d Hc) as (_ & _ & _ & Hus & _).
  unfold int.
  change (lstrip_by int_isspace ("0" :: "x" :: c :: ds)%char)
    with ("0" :: "x" :: c :: ds)%char.
  change (int_sign ("0" :: "x" :: c :: ds)%char) with (1, ("0" :: "x" :: c :: ds)%char).
  cbv iota beta.
  change (int_base 0 ("0" :: "x" :: c :: ds)%char) with (16, false).
  cbv iota beta.
  replace (int_skip_prefix 16 ("0" :: "x" :: c :: ds)%char) with (c :: ds)
    by (cbn [int_skip_prefix]; rewrite Hus; reflexivity).
  rewrite (int_digits_run 16 false (c :: ds) Hne Hd).
  cbn [is_pow2_base Z.eqb orb negb andb Pos.eqb].
  rewrite Z.mul_1_l. reflexivity.
Qed.

(** An octal literal under [0o]. *)
Lemma int_octal ds :
  ds <> [] -> is_digits 8 ds = true ->
  int ("0" :: "o" :: ds)%char 0 = Some (digits_value 8 ds).
Proof.
  intros Hne Hd. destruct ds as [|c ds]; [contradiction|].
  pose proof (is_digits_cons _ _ _ Hd) as [(d & Hc & _) _].
  destruct (digit_is_plain c d Hc) as (_ & _ & _ & Hus & _).
  unfold int.
  change (lstrip_by int_isspace ("0" :: "o" :: c :: ds)%char)
    with ("0" :: "o" :: c :: ds)%char.
  change (int_sign ("0" :: "o" :: c :: ds)%char) with (1, ("0" :: "o" :: c :: ds)%char).
  cbv iota beta.
  change (int_base 0 ("0" :: "o" :: c :: ds)%char) with (8, false).
  cbv iota beta.
  replace (int_skip_prefix 8 ("0" :: "o" :: c :: ds)%char) with (c :: ds)
    by (cbn [int_skip_prefix]; rewrite Hus; reflexivity).
  rewrite (int_digits_run 8 false (c :: ds) Hne Hd).
  cbn [is_pow2_base Z.eqb orb negb andb Pos.eqb].
  rewrite Z.mul_1_l. reflexivity.
Qed.

Lemma is_char_one c x : is_char c (String x EmptyString) = Ascii.eqb c x.
Proof. unfold is_char. cbn [list_ascii_of_string existsb]. apply orb_false_r. Qed.

(** The first stages on a text that starts with a digit other than 0. *)
Lemma int_decimal c ds :
  is_digits 10 (c :: ds) = true -> c <> "0"%char ->
  (List.length (c :: ds) <= max_str_digits)%nat ->
  int (c :: ds) 0 = Some (digits_value 10 (c :: ds)).
Proof.
  intros Hd Hnz Hlen.
  pose proof (is_digits_cons _ _ _ Hd) as [(d & Hc & _) _].
  destruct (digit_is_plain c d Hc) as (Hsp & Hplus & Hminus & Hus & _).
  assert (Hzero : is_char c "0" = false).
  { rewrite is_char_one. apply Ascii.eqb_neq. exact Hnz. }
  unfold int. cbn [lstrip_by]. rewrite Hsp.
  unfold int_sign. rewrite Hplus, Hminus.
  unfold int_base. cbn [Z.eqb]. rewrite Hzero. cbn [negb].
  replace (int_skip_prefix 10 (c :: ds)) with (c :: ds)
    by (unfold int_skip_prefix; destruct ds; [reflexivity|rewrite Hzero; reflexivity]).
  rewrite (int_digits_run 10 false (c :: ds)) by (first [discriminate|exact Hd]).
  replace (max_str_digits <? List.length (c :: ds))%nat with false
    by (symmetry; apply Nat.ltb_ge; exact Hlen).
  rewrite andb_false_r. cbn [andb]. rewrite Z.mul_1_l. reflexivity.
Qed.

(** A leading zero before decimal digits that do not spell zero: the
    old octal notation is refused. *)
Lemma int_leading_zero ds :
  is_digits 10 ds = true -> digits_value 10 ds <> 0 ->
  int ("0"%char :: ds) 0 = None.
Proof.
  intros Hd Hv.
  destruct ds as [|c ds]; [exfalso; apply Hv; reflexivity|].
  pose proof (is_digits_cons _ _ _ Hd) as [(d & Hc & Hlt) _].
  assert (Hx : is_char c "xX" = false /\ is_char c "oO" = false
               /\ is_char c "bB" = false).
  { apply Z.ltb_lt in Hlt. clear - Hc Hlt.
    destruct c as [b0 b1 b2 b3 b4 b5 b6 b7].
    destruct b0, b1, b2, b3, b4, b5, b6, b7;
      first [discriminate Hc | repeat split; reflexivity
            | exfalso; injection Hc as <-; vm_compute in Hlt; discriminate Hlt]. }
  destruct Hx as (Hx & Ho & Hb).
  unfold int.
  change (lstrip_by int_isspace ("0"%char :: c :: ds)) with ("0"%char :: c :: ds).
  change (int_sign ("0"%char :: c :: ds)) with (1, "0"%char :: c :: ds).
  cbv iota beta.
  replace (int_base 0 ("0"%char :: c :: ds)) with (10, true)
    by (unfold int_base; cbn [Z.eqb]; change (is_char "0" "0") with true;
        cbn [negb]; rewrite Hx, Ho, Hb; reflexivity).
  cbv iota beta.
  change (int_skip_prefix 10 ("0"%char :: c :: ds)) with ("0"%char :: c :: ds).
  assert (Hd0 : is_digits 10 ("0"%char :: c :: ds) = true).
  { unfold is_digits in *. cbn [forallb] in *. exact Hd. }
  rewrite (int_digits_run 10 true ("0"%char :: c :: ds)) by (first [discriminate|exact Hd0]).
  assert (Ev : digits_value 10 ("0"%char :: c :: ds) = digits_value 10 (c :: ds)).
  { reflexivity. }
  rewrite Ev.
  destruct (negb (is_pow2_base 10)
            && (max_str_digits <? List.length ("0"%char :: c :: ds))%nat);
    [reflexivity|].
  cbn [andb]. destruct (Z.eqb_spec (digits_value 10 (c :: ds)) 0); [contradiction|].
  reflexivity.
Qed.

End IntFacts.

(* ================================================================= *)
(** ** Addresses of raw binaries *)

Module AddressFacts.
Import Py IntFacts.

Lemma split1_none sep : forall x,
  forallb (fun c => negb (Ascii.eqb c sep)) x = true -> split1 sep x = [x].
Proof.
  induction x as [|c x IH]; intros H; [reflexivity|].
  cbn [forallb] in H. apply andb_prop in H. destruct H as [Hc Hx].
  cbn [split1]. apply negb_true_iff in Hc. rewrite Hc, (IH Hx). reflexivity.
Qed.

Lemma split1_first sep y : forall x,
  forallb (fun c => negb (Ascii.eqb c sep)) x = true ->
  split1 sep (x ++ sep :: y) = [x; y].
Proof.
  induction x as [|c x IH]; intros H.
  - cbn [app split1]. rewrite Ascii.eqb_refl. reflexivity.
  - cbn [forallb] in H. apply andb_prop in H. destruct H as [Hc Hx].
    cbn [app split1]. apply negb_true_iff in Hc. rewrite Hc, (IH Hx). reflexivity.
Qed.

Lemma no_separator_split x :
  no_separator x = true ->
  forallb (fun c => negb (Ascii.eqb c ":")) x = true
  /\ forallb (fun c => negb (Ascii.eqb c "@")) x = true.
Proof.
  unfold no_separator. induction x as [|c x IH]; intros H; [split; reflexivity|].
  cbn [forallb] in *. apply andb_prop in H. destruct H as [Hc Hx].
  apply andb_prop in Hc. destruct Hc as [H1 H2].
  destruct (IH Hx) as [I1 I2]. rewrite H1, H2, I1, I2. split; reflexivity.
Qed.

Lemma digits_no_separator base : forall ds,
  is_digits base ds = true -> no_separator ds = true.
Proof.
  induction ds as [|c ds IH]; intros H; [reflexivity|].
  pose proof (is_digits_cons _ _ _ H) as [(d & Hc & _) Hds].
  destruct (digit_is_plain c d Hc) as (_ & _ & _ & _ & H1 & H2).
  unfold no_separator in *. cbn [forallb]. rewrite H1, H2, (IH Hds). reflexivity.
Qed.

(** The ingester on [address:path], the file being there and free of
    a suffix: what [int(address, 0)] says decides. *)
Lemma ingest_address w default_alt addr path content :
  no_separator addr = true ->
  file_bytes w path = Some content ->
  checkbin path content = ([], Ok tt) ->
  ingest_one w default_alt (addr ++ ":"%char :: path)
  = match Py.int addr 0 with
    | Some v => ingested (Z.land v 0xFFFFFFFF) default_alt content
    | None => address_refused addr
    end.
Proof.
  intros Hsep Hfile Hcheck.
  destruct (no_separator_split _ Hsep) as [Hcolon Hat].
  unfold ingest_one. cbn [binfiles_loop]. unfold binfiles_body.
  rewrite (split1_first ":" path addr Hcolon), bind_ret.
  rewrite (split1_none "@" addr Hat), bind_ret.
  destruct (Py.int addr 0) as [v|]; [|reflexivity].
  rewrite bind_ret. unfold isfile, read. rewrite Hfile. cbn [negb orelse].
  rewrite !bind_ret, Hcheck. reflexivity.
Qed.

End AddressFacts.

(** C8, as the code has it: the address of a descriptor goes through
    [int(address, 0)].  Hexadecimal under [0x], octal under [0o] and
    decimal without a leading zero are accepted and give the element
    the number they spell, masked to 32 bits; a leading zero before
    decimal digits that do not spell zero is refused with the message
    and [sys.exit(1)], as is every address [int] refuses, and no other. *)
Theorem address_literal_notations :
  forall w default_alt path content ds,
    file_bytes w path = Some content ->
    checkbin path content = ([], Ok tt) ->
    ds <> [] ->
    (is_digits 16 ds = true ->
     ingest_one w default_alt (lit "0x" ++ ds ++ lit ":" ++ path)
     = ingested (Z.land (digits_value 16 ds) 0xFFFFFFFF) default_alt content)
    /\ (is_digits 8 ds = true ->
        ingest_one w default_alt (lit "0o" ++ ds ++ lit ":" ++ path)
        = ingested (Z.land (digits_value 8 ds) 0xFFFFFFFF) default_alt content)
    /\ (is_digits 10 ds = true -> hd "0"%char ds <> "0"%char ->
        (List.length ds <= Py.max_str_digits)%nat ->
        ingest_one w default_alt (ds ++ lit ":" ++ path)
        = ingested (Z.land (digits_value 10 ds) 0xFFFFFFFF) default_alt content)
    /\ (is_digits 10 ds = true -> digits_value 10 ds <> 0 ->
        ingest_one w default_alt (lit "0" ++ ds ++ lit ":" ++ path)
        = address_refused (lit "0" ++ ds))
    /\ (forall address, no_separator address = true ->
        (ingest_one w default_alt (address ++ lit ":" ++ path)
         = address_refused address
         <-> Py.int address 0 = None)).
Proof.
  intros w default_alt path content ds Hfile Hcheck Hne.
  split_all.
  - intros Hd.
    change (lit "0x" ++ ds ++ lit ":" ++ path)
      with (("0" :: "x" :: ds)%char ++ ":"%char :: path).
    rewrite (AddressFacts.ingest_address w default_alt _ path content)
      by (first [exact Hfile|exact Hcheck
                |apply (AddressFacts.digits_no_separator 16 ds) in Hd;
                 unfold no_separator in *; cbn [forallb]; exact Hd]).
    rewrite (IntFacts.int_hex ds Hne Hd). reflexivity.
  - intros Hd.
    change (lit "0o" ++ ds ++ lit ":" ++ path)
      with (("0" :: "o" :: ds)%char ++ ":"%char :: path).
    rewrite (AddressFacts.ingest_address w default_alt _ path content)
      by (first [exact Hfile|exact Hcheck
                |apply (AddressFacts.digits_no_separator 8 ds) in Hd;
                 unfold no_separator in *; cbn [forallb]; exact Hd]).
    rewrite (IntFacts.int_octal ds Hne Hd). reflexivity.
  - intros Hd Hnz Hlen. destruct ds as [|c ds]; [contradiction|].
    cbn [hd] in Hnz.
    change ((c :: ds) ++ lit ":" ++ path) with ((c :: ds) ++ ":"%char :: path).
    rewrite (AddressFacts.ingest_address w default_alt _ path content)
      by (first [exact Hfile|exact Hcheck
                |exact (AddressFacts.digits_no_separator 10 _ Hd)]).
    rewrite (IntFacts.int_decimal c ds Hd Hnz Hlen). reflexivity.
  - intros Hd Hv.
    change (lit "0" ++ ds ++ lit ":" ++ path)
      with (("0"%char :: ds) ++ ":"%char :: path).
    rewrite (AddressFacts.ingest_address w default_alt _ path content)
      by (first [exact Hfile|exact Hcheck
                |apply (AddressFacts.digits_no_separator 10 ds) in Hd;
                 unfold no_separator in *; cbn [forallb]; exact Hd]).
    rewrite (IntFacts.int_leading_zero ds Hd Hv). reflexivity.
  - intros address Hsep.
    change (address ++ lit ":" ++ path) with (address ++ ":"%char :: path).
    rewrite (AddressFacts.ingest_address w default_alt _ path content Hsep Hfile Hcheck).
    destruct (Py.int address 0) as [v|]; split; intros H;
      first [reflexivity | discriminate H].
Qed.

Lemma address_literal_notations_witness :
  ingest_one (Examples.one_file (lit "fw.bin") Examples.payload) 0 (lit "0x17:fw.bin")
  = ingested 23 0 Examples.payload
  /\ ingest_one (Examples.one_file (lit "fw.bin") Examples.payload) 0 (lit "0o17:fw.bin")
     = ingested 15 0 Examples.payload
  /\ ingest_one (Examples.one_file (lit "fw.bin") Examples.payload) 0 (lit "17:fw.bin")
     = ingested 17 0 Examples.payload
  /\ ingest_one (Examples.one_file (lit "fw.bin") Examples.payload) 0 (lit "017:fw.bin")
     = address_refused (lit "017").
Proof.
  destruct (address_literal_notations
              (Examples.one_file (lit "fw.bin") Examples.payload) 0
              (lit "fw.bin") Examples.payload (lit "17"))
    as (Hhex & Hoct & Hdec & Hzero & _).
  - reflexivity.
  - reflexivity.
  - discriminate.
  - split_all.
    + exact (Hhex eq_refl).
    + exact (Hoct eq_refl).
    + apply Hdec; [reflexivity|discriminate|cbn; unfold Py.max_str_digits; lia].
    + apply Hzero; [reflexivity|discriminate].
Defined.

(** C8 as stated fails: [010] is not read as octal 8.  [int("010", 0)]
    raises [ValueError] and the ingester leaves with the message. *)
Lemma leading_zero_octal_is_refused :
  Py.int (lit "010") 0 = None
  /\ Py.int (lit "0o10") 0 = Some 8
  /\ ingest_one (Examples.one_file (lit "fw.bin") Examples.payload) 0 (lit "010:fw.bin")
     = ([PrintAddressInvalid (lit "010")], Raise (Py.SystemExit 1)).
Proof. vm_compute. repeat split. Qed.

(* ================================================================= *)
(** ** The S-record reader *)

(** C6, on the code: the three data records alone, at 0x1000, 0x1004
    and 0x2000, leave the reader with one segment in [target], the
    eight bytes at 0x1000; the four bytes at 0x2000 are still the
    running segment when the loop ends, and [build] is called without
    them. *)
Theorem s19_three_records_give_one_segment :
  s19_lines 0 s19_init [Examples.rec_1000; Examples.rec_1004; Examples.rec_2000]
  = ret {| r_address := 0x2000; r_data := Examples.dead_beef;
           r_target := [{| address := 0x1000; alt := 0;
                           data := Examples.dead_beef ++ Examples.dead_beef |}];
           r_name := DEFAULT_NAME |}
  /\ main (Examples.s19_world [Examples.rec_1000; Examples.rec_1004; Examples.rec_2000])
          Examples.s19_options [Examples.out_file]
     = build Examples.out_file
         [[{| address := 0x1000; alt := 0;
              data := Examples.dead_beef ++ Examples.dead_beef |}]]
         DEFAULT_NAME DEFAULT_DEVICE.
Proof. split; vm_compute; reflexivity. Qed.

(** The same records followed by a termination record: the line that
    is no data record closes the running segment, and both segments
    reach [build]. *)
Lemma s19_three_records_terminated :
  main (Examples.s19_world
          [Examples.rec_1000; Examples.rec_1004; Examples.rec_2000; Examples.rec_end])
       Examples.s19_options [Examples.out_file]
  = build Examples.out_file
      [[{| address := 0x1000; alt := 0;
           data := Examples.dead_beef ++ Examples.dead_beef |};
        {| address := 0x2000; alt := 0; data := Examples.dead_beef |}]]
      DEFAULT_NAME DEFAULT_DEVICE.
Proof. vm_compute. reflexivity. Qed.

(** C5, on the code: nothing is emitted after the last line.  Two data
    records that are not contiguous leave the second as the running
    segment; it is not in [target] and [build] is called without it.
    A single data record leaves [target] empty, and [build] ends with
    [UnboundLocalError] before it writes anything. *)
Theorem s19_last_segment_is_dropped :
  s19_lines 0 s19_init [Examples.rec_1000; Examples.rec_2000]
  = ret {| r_address := 0x2000; r_data := Examples.dead_beef;
           r_target := [{| address := 0x1000; alt := 0; data := Examples.dead_beef |}];
           r_name := DEFAULT_NAME |}
  /\ main (Examples.s19_world [Examples.rec_1000; Examples.rec_2000])
          Examples.s19_options [Examples.out_file]
     = build Examples.out_file
         [[{| address := 0x1000; alt := 0; data := Examples.dead_beef |}]]
         DEFAULT_NAME DEFAULT_DEVICE
  /\ main (Examples.s19_world [Examples.rec_1000])
          Examples.s19_options [Examples.out_file]
     = ([], Raise Py.UnboundLocalError).
Proof. split_all; vm_compute; reflexivity. Qed.

(** Address 0 stands for "no segment yet": a run that starts at
    address 0 is dropped by the next line, termination record or not. *)
Lemma s19_run_at_zero_is_dropped :
  main (Examples.s19_world [Examples.rec_1000; Examples.rec_0000; Examples.rec_end])
       Examples.s19_options [Examples.out_file]
  = build Examples.out_file
      [[{| address := 0x1000; alt := 0; data := Examples.dead_beef |}]]
      DEFAULT_NAME DEFAULT_DEVICE.
Proof. vm_compute. reflexivity. Qed.

(* ================================================================= *)
(** * Further properties of the script *)

(* ================================================================= *)
(** ** How a run can end *)

Module Outcome.

(** [ends P Q m]: the output of [m] satisfies [Q], and when [m] ends
    with an exception, the exception satisfies [P]. *)
Definition ends {A} (P : Py.exn -> Prop) (Q : list event -> Prop) (m : M A) : Prop :=
  Q (fst m) /\ match snd m with
               | Ok _ => True
               | Raise e => P e
               end.

Section Ends.

Variable P : Py.exn -> Prop.
Variable Q : list event -> Prop.
Hypothesis Q_nil : Q [].
Hypothesis Q_app : forall x y, Q x -> Q y -> Q (x ++ y).

Lemma ends_ret {A} (a : A) : ends P Q (ret a).
Proof. split; [exact Q_nil|exact I]. Qed.

Lemma ends_raise {A} e : P e -> ends P Q (raise (A := A) e).
Proof. intros H. split; [exact Q_nil|exact H]. Qed.

Lemma ends_emit e : Q [e] -> ends P Q (emit e).
Proof. intros H. split; [exact H|exact I]. Qed.

Lemma ends_bind {A B} (m : M A) (k : A -> M B) :
  ends P Q m -> (forall a, ends P Q (k a)) -> ends P Q (bind m k).
Proof.
  destruct m as [out [a|e]]; intros [Hq Hp] Hk; cbn [fst snd] in *.
  - destruct (Hk a) as [Hq' Hp']. rewrite bind_out. cbn [fst snd].
    split; [apply Q_app; assumption|exact Hp'].
  - split; assumption.
Qed.

Lemma ends_orelse {A} (o : option A) e : P e -> ends P Q (orelse o e).
Proof. intros H. destruct o; [apply ends_ret|apply ends_raise, H]. Qed.

Lemma ends_when c m : ends P Q m -> ends P Q (when c m).
Proof. intros H. destruct c; [exact H|apply ends_ret]. Qed.

End Ends.

End Outcome.

(* ================================================================= *)
(** ** [consume] and [cstring] *)

(** X1: [consume] raises [struct.error] exactly when the data holds
    fewer bytes than the format takes; otherwise it returns the
    unpacked record and the bytes after it, and prints nothing. *)
Theorem consume_raises_iff_short :
  forall (R : Type) (fmt : Struct.fmt) (data : bytes) (names : list val -> R),
    (consume fmt data names = raise Py.StructError
     <-> (List.length data < Struct.calcsize fmt)%nat)
    /\ ((Struct.calcsize fmt <= List.length data)%nat ->
        consume fmt data names
        = ret (names (Struct.unpack_fields fmt (firstn (Struct.calcsize fmt) data)),
               skipn (Struct.calcsize fmt) data)).
Proof.
  intros R fmt data names.
  assert (Hlong : (Struct.calcsize fmt <= List.length data)%nat ->
                  consume fmt data names
                  = ret (names (Struct.unpack_fields fmt
                                  (firstn (Struct.calcsize fmt) data)),
                         skipn (Struct.calcsize fmt) data)).
  { intros H. unfold consume, Py.slice_to, Py.slice_from.
    rewrite SliceFacts.norm_index_nonneg by lia. rewrite Nat2Z.id.
    unfold Struct.unpack. rewrite length_firstn, Nat.min_l by exact H.
    rewrite Nat.eqb_refl. reflexivity. }
  split; [|exact Hlong]. split.
  - intros H. destruct (Nat.lt_ge_cases (List.length data) (Struct.calcsize fmt))
      as [Hlt|Hge]; [exact Hlt|].
    rewrite (Hlong Hge) in H. discriminate H.
  - apply consume_short.
Qed.

Lemma consume_raises_iff_short_witness :
  consume fmt_eprefix (blit "12345678rest") names_prefix
  = ret (names_prefix (Struct.unpack_fields fmt_eprefix
                         (firstn (Struct.calcsize fmt_eprefix) (blit "12345678rest"))),
         skipn (Struct.calcsize fmt_eprefix) (blit "12345678rest")).
Proof.
  apply (proj2 (consume_raises_iff_short prefix_t fmt_eprefix (blit "12345678rest")
                  names_prefix)).
  cbn. lia.
Defined.

Module CstringFacts.

Lemma cstring_split : forall x,
  x = cstring x \/ exists rest, x = cstring x ++ Byte.x00 :: rest.
Proof.
  induction x as [|c x IH].
  - left. reflexivity.
  - cbn [cstring]. destruct (Byte.eqb c Byte.x00) eqn:E.
    + right. apply Byte.byte_dec_bl in E. subst c. exists x. reflexivity.
    + destruct IH as [IH|(rest & IH)].
      * left. rewrite <- IH. reflexivity.
      * right. exists rest. cbn [app]. rewrite <- IH. reflexivity.
Qed.

Lemma cstring_has_no_nul : forall x, ~ In Byte.x00 (cstring x).
Proof.
  induction x as [|c x IH]; [intros []|].
  cbn [cstring]. destruct (Byte.eqb c Byte.x00) eqn:E; [intros []|].
  intros [H|H]; [|exact (IH H)].
  subst c. discriminate E.
Qed.

End CstringFacts.

(** X2: [cstring] returns the bytes before the first NUL: its result
    holds no NUL, the argument is the result alone or the result, a NUL
    and more, and applying it again changes nothing. *)
Theorem cstring_is_prefix_before_nul :
  forall x : bytes,
    ~ In Byte.x00 (cstring x)
    /\ (x = cstring x \/ exists rest, x = cstring x ++ Byte.x00 :: rest)
    /\ cstring (cstring x) = cstring x.
Proof.
  intros x. split; [apply CstringFacts.cstring_has_no_nul|].
  split; [apply CstringFacts.cstring_split|].
  apply ContainerFacts.cstring_whole, CstringFacts.cstring_has_no_nul.
Qed.

(* ================================================================= *)
(** ** [parse] on arbitrary bytes *)

Module ParseOutcome.
Import Outcome.

Section OnAnyInput.

Variable file : str.
Variable dump_images : bool.

(** Only [struct.error] ends [parse] early. *)
Definition only_struct_error (e : Py.exn) : Prop := e = Py.StructError.

(** Every file written is a dumped image of [file], and dumping was
    asked for. *)
Definition only_dumps (out : list event) : Prop :=
  forall p x, In (p, x) (files_written out) ->
    dump_images = true /\ exists t e, p = ImageFile file t e.

Lemma only_dumps_nil : only_dumps [].
Proof. intros p x []. Qed.

Lemma only_dumps_app x y : only_dumps x -> only_dumps y -> only_dumps (x ++ y).
Proof.
  intros Hx Hy p c H. rewrite IngestFacts.files_written_app in H.
  apply in_app_or in H. destruct H as [H|H]; [exact (Hx _ _ H)|exact (Hy _ _ H)].
Qed.

Lemma only_dumps_print e : files_written [e] = [] -> only_dumps [e].
Proof. intros H p x Hin. rewrite H in Hin. destruct Hin. Qed.

Definition fine {A} (m : M A) : Prop := ends only_struct_error only_dumps m.

Lemma fine_bind {A B} (m : M A) (k : A -> M B) :
  fine m -> (forall a, fine (k a)) -> fine (bind m k).
Proof. apply (ends_bind _ _ only_dumps_app). Qed.

Lemma fine_ret {A} (a : A) : fine (ret a).
Proof. apply ends_ret, only_dumps_nil. Qed.

Lemma fine_print e : files_written [e] = [] -> fine (emit e).
Proof. intros H. apply ends_emit, only_dumps_print, H. Qed.

Lemma fine_unpack {A} (o : option A) : fine (orelse o Py.StructError).
Proof. apply ends_orelse; [exact only_dumps_nil|reflexivity]. Qed.

Lemma fine_consume {R} fmt data (names : list val -> R) : fine (consume fmt data names).
Proof.
  unfold consume. apply fine_bind; [apply fine_unpack|]. intros a. apply fine_ret.
Qed.

Lemma fine_parse_elements t : forall n e target,
  fine (parse_elements file dump_images t n e target).
Proof.
  induction n as [|n IH]; intros e target; cbn [parse_elements].
  - apply fine_ret.
  - apply fine_bind; [apply fine_consume|]. intros [eprefix rest].
    apply fine_bind; [apply fine_print; reflexivity|]. intros _.
    apply fine_bind; [|intros _; apply IH].
    destruct dump_images eqn:Ed; [|apply fine_ret].
    unfold when. apply fine_bind; [|intros _; apply fine_print; reflexivity].
    apply ends_emit. intros p x Hin. cbn [files_written In] in Hin.
    destruct Hin as [Hin|[]]. injection Hin as <- _.
    split; [exact Ed|]. exists t, e. reflexivity.
Qed.

Lemma fine_parse_targets : forall n t data,
  fine (parse_targets file dump_images n t data).
Proof.
  induction n as [|n IH]; intros t data; cbn [parse_targets].
  - apply fine_ret.
  - apply fine_bind; [apply fine_consume|]. intros [tprefix rest].
    apply fine_bind; [apply fine_print; reflexivity|]. intros _.
    apply fine_bind; [apply fine_parse_elements|]. intros target.
    apply fine_bind; [|intros _; apply IH].
    apply ends_when; [exact only_dumps_nil|]. apply fine_print. reflexivity.
Qed.

Lemma fine_parse data : fine (parse file data dump_images).
Proof.
  unfold parse.
  apply fine_bind; [apply fine_print; reflexivity|]. intros _.
  apply fine_bind; [apply fine_consume|]. intros [prefix rest].
  apply fine_bind; [apply fine_print; reflexivity|]. intros _.
  apply fine_bind; [apply fine_parse_targets|]. intros rest'.
  apply fine_bind; [apply fine_unpack|]. intros tuple.
  apply fine_bind; [apply fine_print; reflexivity|]. intros _.
  apply fine_bind;
    [apply ends_when; [exact only_dumps_nil|]; apply fine_print; reflexivity|].
  intros _. apply ends_when; [exact only_dumps_nil|]. apply fine_print. reflexivity.
Qed.

End OnAnyInput.

End ParseOutcome.



(** X4: whatever bytes it is given, [parse] writes nothing but the
    images it is asked to dump: without [dump_images] no file at all,
    and with it only files named after the file read, target and
    element, never the file itself. *)
Theorem parse_writes_only_dumped_images :
  forall file data dump_images p x,
    In (p, x) (files_written (fst (parse file data dump_images))) ->
    dump_images = true /\ exists t e, p = ImageFile file t e.
Proof.
  intros file data dump_images p x H.
  destruct (ParseOutcome.fine_parse file dump_images data) as [Hq _].
  exact (Hq p x H).
Qed.

Lemma parse_writes_only_dumped_images_witness :
  true = true /\ exists t e, ImageFile Examples.out_file 0 0 = ImageFile Examples.out_file t e.
Proof.
  apply (parse_writes_only_dumped_images Examples.out_file
           (Wire.enc_container Examples.file_trailing) true
           (ImageFile Examples.out_file 0 0) (blit "boot")).
  vm_compute. left. reflexivity.
Defined.

(** X5: a file of fewer than 11 bytes, the empty file among them, makes
    [parse] print the file name and end with [struct.error]. *)
Theorem parse_short_file_raises :
  forall file data dump_images,
    len data < PREFIX_SIZE ->
    parse file data dump_images = ([PrintFile file], Raise Py.StructError).
Proof.
  intros file data dump_images H. unfold parse.
  rewrite consume_short
    by (unfold len, PREFIX_SIZE in H; cbn [Struct.calcsize fmt_prefix Struct.code_size];
        lia).
  reflexivity.
Qed.

Lemma parse_short_file_raises_witness :
  parse Examples.out_file [] false = ([PrintFile Examples.out_file], Raise Py.StructError).
Proof.
  apply (parse_short_file_raises Examples.out_file [] false).
  reflexivity.
Defined.

Module SuffixFacts.
Import Wire Struct StructFacts SliceFacts BuildFacts ParseFacts.

Lemma checked_part_of c :
  ct_rest c = [] ->
  Py.slice_to (enc_container c) (-4) = enc_checked c.
Proof.
  intros Hrest. unfold enc_container. rewrite Hrest, app_nil_r.
  apply slice_to_neg_app; [lia|rewrite len_le_split; reflexivity].
Qed.

(** [parse] up to the suffix, on a file cut off inside it. *)
Lemma parse_cut_suffix file dump c short :
  container_ok c -> (List.length short < 16)%nat ->
  parse file (enc_prefix c ++ enc_targets (ct_targets c) ++ short) dump
  = ([PrintFile file; PrintPrefix (prefix_line c)]
     ++ targets_events file dump 0 (ct_targets c),
     Raise Py.StructError).
Proof.
  intros Hc Hshort. pose proof Hc as (_ & _ & _ & _ & Hts & _).
  unfold parse. rewrite bind_emit.
  rewrite (consume_prefix _ _ Hc), bind_ret, bind_emit.
  cbn [prefix_line p_targets]. rewrite nat_of_len.
  rewrite (parse_targets_enc file dump _ 0 _ Hts), bind_out.
  rewrite slice_to_all by (unfold len, SUFFIX_SIZE; lia).
  rewrite unpack_short by (cbn [calcsize fmt_suffix code_size]; lia).
  cbn [orelse raise bind fst snd app]. rewrite app_nil_r. reflexivity.
Qed.

End SuffixFacts.

(** X6: the checksum is verified and reported, never fatal.  On a
    container with nothing after its suffix, [parse] ends normally; the
    line after the suffix line is the CRC error, with the checksum
    computed over all bytes before the field, exactly when the field
    holds another value. *)
Theorem parse_reports_checksum_mismatch :
  forall file dump_images c,
    Wire.container_ok c ->
    Wire.ct_rest c = [] ->
    parse file (Wire.enc_container c) dump_images
    = ([PrintFile file; PrintPrefix (Wire.prefix_line c)]
       ++ Wire.targets_events file dump_images 0 (Wire.ct_targets c)
       ++ [PrintSuffix (Wire.ct_suffix c)]
       ++ (if compute_crc (Wire.enc_checked c) =? s_crc (Wire.ct_suffix c)
           then []
           else [PrintCrcError (compute_crc (Wire.enc_checked c))]),
       Ok tt).
Proof.
  intros file dump_images c Hc Hrest.
  rewrite (ParseFacts.parse_enc file dump_images c Hc).
  unfold Wire.container_events, Wire.file_diagnostics.
  rewrite (SuffixFacts.checked_part_of c Hrest), Hrest, app_nil_r. reflexivity.
Qed.

Lemma parse_reports_checksum_mismatch_witness :
  parse Examples.out_file (Wire.enc_container Examples.file_trailing) false
  = ([PrintFile Examples.out_file; PrintPrefix (Wire.prefix_line Examples.file_trailing)]
     ++ Wire.targets_events Examples.out_file false 0
          (Wire.ct_targets Examples.file_trailing)
     ++ [PrintSuffix (Wire.ct_suffix Examples.file_trailing)]
     ++ (if compute_crc (Wire.enc_checked Examples.file_trailing)
            =? s_crc (Wire.ct_suffix Examples.file_trailing)
         then []
         else [PrintCrcError (compute_crc (Wire.enc_checked Examples.file_trailing))]),
     Ok tt).
Proof.
  apply (parse_reports_checksum_mismatch Examples.out_file false Examples.file_trailing).
  - exact ExampleFacts.file_trailing_ok.
  - reflexivity.
Defined.

(** X7: bytes after the suffix are reported and not fatal: [parse]
    ends normally and its last line is the file's PARSE ERROR. *)
Theorem parse_reports_trailing_file_bytes :
  forall file dump_images c,
    Wire.container_ok c ->
    Wire.ct_rest c <> [] ->
    exists out,
      parse file (Wire.enc_container c) dump_images
      = (out ++ [PrintParseError], Ok tt).
Proof.
  intros file dump_images c Hc Hrest.
  rewrite (ParseFacts.parse_enc file dump_images c Hc).
  unfold Wire.container_events, Wire.file_diagnostics.
  destruct (Wire.ct_rest c) as [|b rest]; [contradiction|].
  eexists. rewrite !app_assoc. reflexivity.
Qed.

(** X8: a file that ends inside its suffix (fewer than 16 bytes after
    the last target) makes [parse] end with [struct.error] once the
    targets are printed: no suffix line, no CRC check. *)
Theorem parse_cut_suffix_raises :
  forall file dump_images c short,
    Wire.container_ok c ->
    (List.length short < 16)%nat ->
    parse file (Wire.enc_prefix c ++ Wire.enc_targets (Wire.ct_targets c) ++ short)
      dump_images
    = ([PrintFile file; PrintPrefix (Wire.prefix_line c)]
       ++ Wire.targets_events file dump_images 0 (Wire.ct_targets c),
       Raise Py.StructError).
Proof.
  intros file dump_images c short Hc Hshort.
  exact (SuffixFacts.parse_cut_suffix file dump_images c short Hc Hshort).
Qed.

Lemma parse_cut_suffix_raises_witness :
  parse Examples.out_file
    (Wire.enc_prefix Examples.file_trailing
     ++ Wire.enc_targets (Wire.ct_targets Examples.file_trailing) ++ blit "UFD")
    false
  = ([PrintFile Examples.out_file; PrintPrefix (Wire.prefix_line Examples.file_trailing)]
     ++ Wire.targets_events Examples.out_file false 0
          (Wire.ct_targets Examples.file_trailing),
     Raise Py.StructError).
Proof.
  apply (parse_cut_suffix_raises Examples.out_file false Examples.file_trailing
           (blit "UFD")).
  - exact ExampleFacts.file_trailing_ok.
  - cbn. lia.
Defined.

(** X9: the name of a target is shown only when its [named] field is
    not zero: with [named = 0] the line of the target carries the empty
    name whatever the 255 bytes of the name field hold, and otherwise
    the bytes of the field before its first NUL. *)
Theorem parse_shows_name_only_when_named :
  forall file dump_images c before x after,
    Wire.container_ok c ->
    Wire.ct_targets c = before ++ x :: after ->
    In (PrintTarget
          {| t_signature := Wire.tg_signature x;
             t_altsetting := Wire.tg_altsetting x;
             t_named := Wire.tg_named x;
             t_name := if Wire.tg_named x =? 0 then [] else cstring (Wire.tg_name x);
             t_size := len (Wire.target_body x);
             t_elements := len (Wire.tg_elements x);
             t_num := len before |})
       (fst (parse file (Wire.enc_container c) dump_images)).
Proof.
  intros file dump_images c before x after Hc E.
  rewrite (ParseFacts.parse_enc file dump_images c Hc). cbn [fst].
  rewrite (DiagnosticFacts.container_events_at file dump_images c _ _ _ E).
  apply in_or_app. right. apply in_or_app. right. apply in_or_app. left.
  left. reflexivity.
Qed.

Module MoreExamples.
Import Wire Examples.

(** The first sample container with one byte after its suffix. *)
Definition file_padded : container :=
  {| ct_signature := ct_signature file_trailing; ct_version := ct_version file_trailing;
     ct_size := ct_size file_trailing; ct_targets := ct_targets file_trailing;
     ct_suffix := ct_suffix file_trailing; ct_rest := blit "!" |}.

Lemma file_padded_ok : container_ok file_padded.
Proof. exact ExampleFacts.file_trailing_ok. Qed.

End MoreExamples.

Lemma parse_reports_trailing_file_bytes_witness :
  exists out,
    parse Examples.out_file (Wire.enc_container MoreExamples.file_padded) false
    = (out ++ [PrintParseError], Ok tt).
Proof.
  apply (parse_reports_trailing_file_bytes Examples.out_file false
           MoreExamples.file_padded).
  - exact MoreExamples.file_padded_ok.
  - discriminate.
Defined.

Lemma parse_shows_name_only_when_named_witness :
  In (PrintTarget
        {| t_signature := Wire.tg_signature Examples.tgt_trailing;
           t_altsetting := Wire.tg_altsetting Examples.tgt_trailing;
           t_named := Wire.tg_named Examples.tgt_trailing;
           t_name := if Wire.tg_named Examples.tgt_trailing =? 0 then []
                     else cstring (Wire.tg_name Examples.tgt_trailing);
           t_size := len (Wire.target_body Examples.tgt_trailing);
           t_elements := len (Wire.tg_elements Examples.tgt_trailing);
           t_num := len (@nil Wire.tgt) |})
     (fst (parse Examples.out_file (Wire.enc_container Examples.file_trailing) false)).
Proof.
  apply (parse_shows_name_only_when_named Examples.out_file false
           Examples.file_trailing [] Examples.tgt_trailing [Examples.tgt_plain]).
  - exact ExampleFacts.file_trailing_ok.
  - reflexivity.
Defined.

(* ================================================================= *)
(** ** [build] on arbitrary targets *)

Module BuildOutcome.

Lemma bind_nil {A B} (a : A) (k : A -> M B) : bind ([], Ok a) k = k a.
Proof. exact (bind_ret a k). Qed.

Lemma silent_bind {A B} (m : M A) (k : A -> M B) :
  fst m = [] -> (forall a, fst (k a) = []) -> fst (bind m k) = [].
Proof.
  destruct m as [out [a|e]]; cbn [fst]; intros -> Hk.
  - rewrite bind_out. cbn [fst app]. apply Hk.
  - reflexivity.
Qed.

Lemma silent_orelse {A} (o : option A) e : fst (orelse o e) = [].
Proof. destruct o; reflexivity. Qed.

Lemma silent_build_images : forall target tdata ealt,
  fst (build_images target tdata ealt) = [].
Proof.
  induction target as [|i target IH]; intros tdata ealt; cbn [build_images].
  - reflexivity.
  - apply silent_bind; [apply silent_orelse|]. intros h. apply IH.
Qed.

Lemma silent_build_targets name : forall targets data ealt,
  fst (build_targets targets name data ealt) = [].
Proof.
  induction targets as [|target targets IH]; intros data ealt; cbn [build_targets].
  - reflexivity.
  - apply silent_bind; [apply silent_build_images|]. intros [tdata ealt'].
    apply silent_bind; [apply silent_orelse|]. intros a.
    apply silent_bind; [apply silent_orelse|]. intros h. apply IH.
Qed.

(** The exceptions [build] can end with before it opens its file. *)
Definition build_error (e : Py.exn) : Prop :=
  e = Py.StructError \/ e = Py.UnboundLocalError \/ e = Py.ValueError.

Lemma errors_build_images : forall target tdata ealt e,
  snd (build_images target tdata ealt) = Raise e -> e = Py.StructError.
Proof.
  induction target as [|i target IH]; intros tdata ealt e; cbn [build_images].
  - discriminate.
  - destruct (Struct.pack fmt_eprefix _) as [h|]; cbn [orelse].
    + rewrite bind_ret. apply IH.
    + intros H. injection H as <-. reflexivity.
Qed.

Lemma errors_build_targets name : forall targets data ealt e,
  snd (build_targets targets name data ealt) = Raise e ->
  e = Py.StructError \/ e = Py.UnboundLocalError.
Proof.
  induction targets as [|target targets IH]; intros data ealt e; cbn [build_targets].
  - discriminate.
  - pose proof (silent_build_images target [] ealt) as Hs.
    pose proof (errors_build_images target [] ealt) as He.
    destruct (build_images target [] ealt) as [o [[tdata ealt']|e']];
      cbn [fst snd] in *; subst o.
    + rewrite bind_nil.
      destruct ealt' as [a|]; cbn [orelse];
        [|intros H; injection H as <-; right; reflexivity].
      rewrite bind_ret.
      destruct (Struct.pack fmt_tprefix _) as [h|]; cbn [orelse].
      * rewrite bind_ret. apply IH.
      * intros H. injection H as <-. left. reflexivity.
    + intros H. injection H as <-. left. apply He. reflexivity.
Qed.

Lemma build_outcome :
  forall file targets name device out r,
    build file targets name device = (out, r) ->
    (r = Ok tt /\ exists content, out = [Write (File file) content])
    \/ (out = [] /\ exists e, r = Raise e /\ build_error e).
Proof.
  intros file targets name device out r. unfold build.
  pose proof (silent_build_targets name targets [] None) as Hs.
  pose proof (errors_build_targets name targets [] None) as He.
  assert (Hraise : forall e, build_error e ->
            (@nil event, @Raise unit e) = (out, r) ->
            (r = Ok tt /\ exists content, out = [Write (File file) content])
            \/ (out = [] /\ exists e, r = Raise e /\ build_error e)).
  { intros e Herr H. right. inversion H. split; [reflexivity|].
    exists e. split; [reflexivity|exact Herr]. }
  destruct (build_targets targets name [] None) as [o [data|e]];
    cbn [fst snd] in *; subst o.
  - rewrite bind_nil.
    destruct (Struct.pack fmt_prefix _) as [h|]; cbn [orelse];
      [|apply Hraise; left; reflexivity].
    rewrite bind_ret.
    destruct (parse_device device) as [[v d]|]; cbn [orelse];
      [|apply Hraise; right; right; reflexivity].
    rewrite bind_ret.
    destruct (Struct.pack fmt_suffix_head _) as [x|]; cbn [orelse];
      [|apply Hraise; left; reflexivity].
    rewrite bind_ret.
    destruct (Struct.pack fmt_crc _) as [c|]; cbn [orelse];
      [|apply Hraise; left; reflexivity].
    rewrite bind_ret. unfold emit. intros H. left.
    pose proof (f_equal fst H) as H1. pose proof (f_equal snd H) as H2.
    cbn [fst snd] in H1, H2. split; [symmetry; exact H2|].
    eexists. symmetry. exact H1.
  - apply Hraise. destruct (He e eq_refl) as [-> | ->]; [left|right; left]; reflexivity.
Qed.

End BuildOutcome.



(** The lines of [parse] that report something wrong. *)
Definition is_diagnostic (e : event) : bool :=
  match e with
  | PrintTargetParseError _ | PrintCrcError _ | PrintParseError => true
  | _ => false
  end.

Definition diagnostics (out : list event) : list event := filter is_diagnostic out.

Module CleanFacts.
Import Wire.

Lemma diagnostics_app x y : diagnostics (x ++ y) = diagnostics x ++ diagnostics y.
Proof. apply filter_app. Qed.

Lemma diagnostics_elements file dump t : forall es e,
  diagnostics (elements_events file dump t e es) = [].
Proof.
  induction es as [|x es IH]; intros e; [reflexivity|].
  cbn [elements_events]. rewrite diagnostics_app, IH.
  unfold element_events. destruct dump; reflexivity.
Qed.

(** Targets that use up their declared size give no diagnostic. *)
Lemma diagnostics_targets file dump : forall ts t,
  Forall (fun x => tg_rest x = []) ts ->
  diagnostics (targets_events file dump t ts) = [].
Proof.
  induction ts as [|x ts IH]; intros t H; [reflexivity|].
  inversion H as [|? ? Hx Hts]. subst.
  cbn [targets_events]. rewrite diagnostics_app, (IH _ Hts), app_nil_r.
  unfold target_events. rewrite Hx, app_nil_r.
  cbn [diagnostics filter is_diagnostic]. apply diagnostics_elements.
Qed.

Lemma targets_of_no_rest name : forall targets ealt,
  Forall (fun x => tg_rest x = []) (targets_of name ealt targets).
Proof.
  induction targets as [|target targets IH]; intros ealt; cbn [targets_of].
  - constructor.
  - constructor; [reflexivity|apply IH].
Qed.

Lemma built_file_diagnostics targets name v d :
  file_diagnostics (container_of targets name v d) = [].
Proof.
  unfold file_diagnostics.
  rewrite ContainerFacts.checked_part, ContainerFacts.crc_of_container, Z.eqb_refl.
  reflexivity.
Qed.

Lemma built_container_clean file dump targets name v d :
  diagnostics (container_events file dump (container_of targets name v d)) = [].
Proof.
  unfold container_events.
  rewrite !diagnostics_app, built_file_diagnostics.
  change (ct_targets (container_of targets name v d)) with (targets_of name None targets).
  rewrite (diagnostics_targets file dump _ 0 (targets_of_no_rest name targets None)).
  reflexivity.
Qed.

(** A built file is a payload with a valid suffix. *)
Lemma built_file_suffixed targets name v d :
  container_ok (container_of targets name v d) ->
  let c := container_of targets name v d in
  enc_container c
  = with_suffix (enc_prefix c ++ enc_targets (ct_targets c)) (ct_suffix c)
  /\ valid_suffix (enc_prefix c ++ enc_targets (ct_targets c)) (ct_suffix c).
Proof.
  intros Hok c. split.
  - unfold enc_container, with_suffix, enc_checked.
    change (ct_rest c) with (@nil byte). rewrite app_nil_r, <- !app_assoc. reflexivity.
  - destruct Hok as (_ & _ & _ & _ & _ & Hsfx). split; [exact Hsfx|].
    split; [reflexivity|].
    unfold c. rewrite ContainerFacts.crc_of_container. unfold enc_checked.
    rewrite <- !app_assoc. reflexivity.
Qed.

End CleanFacts.

(** X11: every file [build] writes verifies: [parse] on it ends normally
    and prints no diagnostic, neither a CRC error nor a PARSE ERROR, for
    any list of targets [build] accepts, empty targets and targets of
    mixed alternate settings included. *)
Theorem built_file_parses_without_diagnostic :
  forall file targets name device out,
    build file targets name device = (out, Ok tt) ->
    exists content,
      out = [Write (File file) content]
      /\ forall dump_images,
           snd (parse file content dump_images) = Ok tt
           /\ diagnostics (fst (parse file content dump_images)) = [].
Proof.
  intros file targets name device out Hbuild.
  destruct (BuildFacts.build_inv _ _ _ _ _ Hbuild) as (v & d & Hdev & -> & Hok).
  eexists. split; [reflexivity|]. intros dump_images.
  rewrite (ParseFacts.parse_enc file dump_images _ Hok). cbn [fst snd].
  split; [reflexivity|apply CleanFacts.built_container_clean].
Qed.

Lemma built_file_parses_without_diagnostic_witness :
  exists content,
    fst (build Examples.out_file Examples.mixed_targets DEFAULT_NAME DEFAULT_DEVICE)
    = [Write (File Examples.out_file) content]
    /\ forall dump_images,
         snd (parse Examples.out_file content dump_images) = Ok tt
         /\ diagnostics (fst (parse Examples.out_file content dump_images)) = [].
Proof.
  apply (built_file_parses_without_diagnostic Examples.out_file Examples.mixed_targets
           DEFAULT_NAME DEFAULT_DEVICE).
  vm_compute. reflexivity.
Defined.

(** X12: a file [build] has written is not accepted as a raw binary:
    [checkbin] on its bytes prints the suffix and the two messages and
    calls [sys.exit(1)]. *)
Theorem built_file_is_refused_as_binary :
  forall file targets name device out binfile,
    build file targets name device = (out, Ok tt) ->
    exists content suffix,
      out = [Write (File file) content]
      /\ checkbin binfile content
         = ([PrintSuffix suffix; PrintHasSuffix binfile; PrintRemoveSuffix],
            Raise (Py.SystemExit 1)).
Proof.
  intros file targets name device out binfile Hbuild.
  destruct (BuildFacts.build_inv _ _ _ _ _ Hbuild) as (v & d & Hdev & -> & Hok).
  destruct (CleanFacts.built_file_suffixed targets name v d Hok) as [E Hvalid].
  eexists. eexists. split; [reflexivity|].
  rewrite E. apply IngestFacts.checkbin_detects, Hvalid.
Qed.

Lemma built_file_is_refused_as_binary_witness :
  exists content suffix,
    fst (build Examples.out_file Examples.two_targets DEFAULT_NAME DEFAULT_DEVICE)
    = [Write (File Examples.out_file) content]
    /\ checkbin (lit "fw.bin") content
       = ([PrintSuffix suffix; PrintHasSuffix (lit "fw.bin"); PrintRemoveSuffix],
          Raise (Py.SystemExit 1)).
Proof.
  apply (built_file_is_refused_as_binary Examples.out_file Examples.two_targets
           DEFAULT_NAME DEFAULT_DEVICE).
  vm_compute. reflexivity.
Defined.

(* ================================================================= *)
(** ** Edge cases of [build] *)

Module EdgeFacts.
Import Wire Struct StructFacts BuildFacts.

Lemma land_u16 z : u16 (Z.land z 0xFFFF).
Proof.
  change 0xFFFF with (Z.ones 16). rewrite Z.land_ones by lia.
  unfold u16. apply Z.mod_pos_bound. lia.
Qed.

Lemma parse_device_u16 device v d :
  parse_device device = Some (v, d) -> u16 v /\ u16 d.
Proof.
  unfold parse_device.
  destruct (Py.split1 ":" device) as [|x [|y [|? ?]]]; try discriminate.
  destruct (Py.int x 0) as [a|]; [|discriminate].
  destruct (Py.int y 0) as [c|]; [|discriminate].
  intros H. injection H as <- <-. split; apply land_u16.
Qed.

Lemma no_targets_ok name v d :
  u16 v -> u16 d -> container_ok (container_of [] name v d).
Proof.
  intros Rv Rd. unfold container_ok.
  cbn [container_of unchecked_container_of ct_signature ct_version ct_size ct_targets
       ct_suffix targets_of].
  split; [reflexivity|]. split; [unfold u8; lia|].
  split; [vm_compute; split; congruence|]. split; [vm_compute; split; congruence|].
  split; [constructor|].
  unfold suffix_ok, suffix_of.
  cbn [s_device s_product s_vendor s_dfu s_ufd s_len s_crc].
  split_all;
    [ unfold u16; lia | exact Rd | exact Rv | unfold u16; lia | reflexivity
    | unfold u8, SUFFIX_SIZE; lia | apply compute_crc_range ].
Qed.

(** The alternate setting carried into a target is that of the last
    image of the targets before it. *)
Lemma carried_alt : forall before ealt,
  fold_left last_alt before ealt = last_alt ealt (List.concat before).
Proof.
  induction before as [|x before IH]; intros ealt; [reflexivity|].
  cbn [fold_left List.concat]. rewrite IH, last_alt_app. reflexivity.
Qed.

Lemma cstring_padding : forall x k,
  cstring (x ++ repeat Byte.x00 k) = cstring x.
Proof.
  induction x as [|c x IH]; intros k.
  - destruct k; reflexivity.
  - cbn [app cstring]. rewrite IH. reflexivity.
Qed.

Lemma cstring_name_field name :
  cstring (pack_s 255 name) = cstring (firstn 255 name).
Proof. unfold pack_s. apply cstring_padding. Qed.

(** Where target lines come from. *)
Lemma target_line_in_elements file dump t l : forall es e,
  ~ In (PrintTarget l) (elements_events file dump t e es).
Proof.
  induction es as [|x es IH]; intros e H; [exact H|].
  cbn [elements_events] in H. apply in_app_or in H. destruct H as [H|H].
  - unfold element_events in H. destruct dump; cbn [In] in H;
      repeat (destruct H as [H|H]; [discriminate H|]); exact H.
  - exact (IH _ H).
Qed.

Lemma target_line_in_targets file dump l : forall ts t,
  In (PrintTarget l) (targets_events file dump t ts) ->
  exists x t', In x ts /\ l = target_line t' x.
Proof.
  induction ts as [|x ts IH]; intros t H; [destruct H|].
  cbn [targets_events] in H. apply in_app_or in H. destruct H as [H|H].
  - unfold target_events in H. destruct H as [H|H].
    + injection H as <-. exists x, t. split; [left; reflexivity|reflexivity].
    + apply in_app_or in H. destruct H as [H|H].
      * exfalso. exact (target_line_in_elements _ _ _ _ _ _ H).
      * destruct (tg_rest x); cbn [In] in H;
          [destruct H|destruct H as [H|[]]; discriminate H].
  - destruct (IH _ H) as (y & t' & Hy & E). exists y, t'. split; [right; exact Hy|exact E].
Qed.

Lemma target_line_in_container file dump c l :
  In (PrintTarget l) (container_events file dump c) ->
  exists x t', In x (ct_targets c) /\ l = target_line t' x.
Proof.
  unfold container_events. intros H.
  apply in_app_or in H. destruct H as [H|H].
  - cbn [In] in H. repeat (destruct H as [H|H]; [discriminate H|]). destruct H.
  - apply in_app_or in H. destruct H as [H|H];
      [exact (target_line_in_targets _ _ _ _ _ H)|].
    apply in_app_or in H. destruct H as [H|H].
    + cbn [In] in H. destruct H as [H|[]]. discriminate H.
    + unfold file_diagnostics in H. apply in_app_or in H. destruct H as [H|H].
      * destruct (_ =? _); cbn [In] in H; [destruct H|destruct H as [H|[]]; discriminate H].
      * destruct (ct_rest c); cbn [In] in H; [destruct H|destruct H as [H|[]]; discriminate H].
Qed.

Lemma targets_of_name name x : forall targets ealt,
  In x (targets_of name ealt targets) ->
  tg_named x = 1 /\ tg_name x = pack_s 255 name.
Proof.
  induction targets as [|target targets IH]; intros ealt H; [destruct H|].
  cbn [targets_of] in H. destruct H as [<-|H]; [split; reflexivity|exact (IH _ H)].
Qed.

End EdgeFacts.

(** X13: the device string is cut at its first colon, and the two
    parts are read as integer literals and masked to 16 bits: a string
    without a colon is refused, a string with one gives the vendor and
    the product exactly when [int(x, 0)] accepts both parts, each the
    number read modulo 65536, so that both always fit the suffix. *)
Theorem parse_device_reads_two_masked_literals :
  forall device,
    (forallb (fun c => negb (Ascii.eqb c ":")) device = true ->
     parse_device device = None)
    /\ (forall x y,
          device = x ++ ":"%char :: y ->
          forallb (fun c => negb (Ascii.eqb c ":")) x = true ->
          parse_device device
          = match Py.int x 0, Py.int y 0 with
            | Some v, Some d => Some (v mod 65536, d mod 65536)
            | _, _ => None
            end)
    /\ (forall v d, parse_device device = Some (v, d) ->
                    0 <= v < 65536 /\ 0 <= d < 65536).
Proof.
  intros device. split; [|split].
  - intros H. unfold parse_device. rewrite (AddressFacts.split1_none ":" device H).
    reflexivity.
  - intros x y -> Hx. unfold parse_device.
    rewrite (AddressFacts.split1_first ":" y x Hx).
    destruct (Py.int x 0) as [v|]; [|reflexivity].
    destruct (Py.int y 0) as [d|]; [|reflexivity].
    change 0xFFFF with (Z.ones 16). rewrite !Z.land_ones by lia. reflexivity.
  - intros v d H. exact (EdgeFacts.parse_device_u16 device v d H).
Qed.

Lemma parse_device_reads_two_masked_literals_witness :
  parse_device (lit "0x10483" ++ ":"%char :: lit "0x2df11")
  = match Py.int (lit "0x10483") 0, Py.int (lit "0x2df11") 0 with
    | Some v, Some d => Some (v mod 65536, d mod 65536)
    | _, _ => None
    end.
Proof.
  apply (proj1 (proj2 (parse_device_reads_two_masked_literals
                         (lit "0x10483" ++ ":"%char :: lit "0x2df11")))
           (lit "0x10483") (lit "0x2df11")).
  - reflexivity.
  - reflexivity.
Defined.

(** X14: with no target at all [build] still writes a container: the
    prefix and the suffix, 27 bytes, which [parse] reads back as zero
    targets with no diagnostic. *)
Theorem build_without_targets :
  forall file name device v d,
    parse_device device = Some (v, d) ->
    exists content,
      build file [] name device = ([Write (File file) content], Ok tt)
      /\ len content = 27
      /\ forall dump_images,
           parse file content dump_images
           = ([PrintFile file;
               PrintPrefix {| p_signature := blit "DfuSe"; p_version := 1;
                              p_size := 27; p_targets := 0 |};
               PrintSuffix {| s_device := 0; s_product := d; s_vendor := v;
                              s_dfu := 0x011A; s_ufd := blit "UFD"; s_len := 16;
                              s_crc := compute_crc (Py.slice_to content (-4)) |}],
              Ok tt).
Proof.
  intros file name device v d Hdev.
  destruct (EdgeFacts.parse_device_u16 device v d Hdev) as [Rv Rd].
  pose proof (EdgeFacts.no_targets_ok name v d Rv Rd) as Hok.
  exists (Wire.enc_container (Wire.container_of [] name v d)).
  split; [apply (BuildFacts.build_total file [] name device v d Hdev); [constructor|exact Hok]|].
  split; [exact (ContainerFacts.len_enc_container [] name v d)|].
  intros dump_images.
  rewrite (ParseFacts.parse_enc file dump_images _ Hok).
  unfold Wire.container_events.
  rewrite CleanFacts.built_file_diagnostics, ContainerFacts.checked_part.
  reflexivity.
Qed.

Lemma build_without_targets_witness :
  exists content,
    build Examples.out_file [] DEFAULT_NAME DEFAULT_DEVICE
    = ([Write (File Examples.out_file) content], Ok tt)
    /\ len content = 27
    /\ forall dump_images,
         parse Examples.out_file content dump_images
         = ([PrintFile Examples.out_file;
             PrintPrefix {| p_signature := blit "DfuSe"; p_version := 1;
                            p_size := 27; p_targets := 0 |};
             PrintSuffix {| s_device := 0; s_product := 0xdf11; s_vendor := 0x0483;
                            s_dfu := 0x011A; s_ufd := blit "UFD"; s_len := 16;
                            s_crc := compute_crc (Py.slice_to content (-4)) |}],
            Ok tt).
Proof.
  apply (build_without_targets Examples.out_file DEFAULT_NAME DEFAULT_DEVICE
           0x0483 0xdf11).
  vm_compute. reflexivity.
Defined.

Module UnboundFacts.
Import BuildOutcome.

Lemma images_keep_alt : forall target tdata a out td ealt,
  build_images target tdata (Some a) = (out, Ok (td, ealt)) ->
  exists a', ealt = Some a'.
Proof.
  induction target as [|i target IH]; intros tdata a out td ealt H;
    cbn [build_images] in H.
  - apply ret_ok_inv in H. destruct H as [H _].
    exists a. exact (f_equal snd H).
  - apply bind_ok_inv in H. destruct H as (o1 & h & o2 & _ & H & _).
    exact (IH _ _ _ _ _ H).
Qed.

(** Once an image has been seen, [ealt] is bound for good. *)
Lemma targets_bound name : forall targets data a,
  snd (build_targets targets name data (Some a)) <> Raise Py.UnboundLocalError.
Proof.
  induction targets as [|target targets IH]; intros data a; cbn [build_targets].
  - discriminate.
  - pose proof (silent_build_images target [] (Some a)) as Hs.
    pose proof (errors_build_images target [] (Some a)) as He.
    destruct (build_images target [] (Some a)) as [o [[tdata ealt]|e]] eqn:E;
      cbn [fst snd] in *; subst o.
    + destruct (images_keep_alt _ _ _ _ _ _ E) as [a' ->].
      rewrite bind_nil. cbn [orelse]. rewrite bind_ret.
      destruct (Struct.pack fmt_tprefix _) as [h|]; cbn [orelse].
      * rewrite bind_ret. apply IH.
      * discriminate.
    + rewrite (He e eq_refl). discriminate.
Qed.

Lemma first_image_binds name i target rest :
  snd (build_targets ((i :: target) :: rest) name [] None)
  <> Raise Py.UnboundLocalError.
Proof.
  cbn [build_targets build_images].
  destruct (Struct.pack fmt_eprefix _) as [h|]; cbn [orelse]; [|discriminate].
  rewrite bind_ret.
  pose proof (silent_build_images target ([] ++ h ++ data i) (Some (alt i))) as Hs.
  pose proof (errors_build_images target ([] ++ h ++ data i) (Some (alt i))) as He.
  destruct (build_images target ([] ++ h ++ data i) (Some (alt i)))
    as [o [[tdata ealt]|e]] eqn:E; cbn [fst snd] in *; subst o.
  - destruct (images_keep_alt _ _ _ _ _ _ E) as [a' ->].
    rewrite bind_nil. cbn [orelse]. rewrite bind_ret.
    destruct (Struct.pack fmt_tprefix _) as [h'|]; cbn [orelse].
    + rewrite bind_ret. apply targets_bound.
    + discriminate.
  - rewrite (He e eq_refl). discriminate.
Qed.

(** After the targets, [build] ends with no other exception than
    [struct.error] and [ValueError]. *)
Lemma unbound_from_targets file targets name device :
  snd (build file targets name device) = Raise Py.UnboundLocalError ->
  snd (build_targets targets name [] None) = Raise Py.UnboundLocalError.
Proof.
  unfold build.
  pose proof (silent_build_targets name targets [] None) as Hs.
  destruct (build_targets targets name [] None) as [o [data|e]];
    cbn [fst snd] in *; subst o.
  2:{ intros H. change (@Raise unit e = Raise Py.UnboundLocalError) in H.
      injection H as ->. reflexivity. }
  rewrite bind_nil.
  destruct (Struct.pack fmt_prefix _) as [h|]; cbn [orelse]; [|discriminate].
  rewrite bind_ret.
  destruct (parse_device device) as [[v d]|]; cbn [orelse]; [|discriminate].
  rewrite bind_ret.
  destruct (Struct.pack fmt_suffix_head _) as [x|]; cbn [orelse]; [|discriminate].
  rewrite bind_ret.
  destruct (Struct.pack fmt_crc _) as [c|]; cbn [orelse]; [|discriminate].
  rewrite bind_ret. discriminate.
Qed.

End UnboundFacts.

(** X15: [build] reads the variable [ealt] at the end of every target,
    and only an image sets it.  It ends with [UnboundLocalError] exactly
    when the first target is empty, whatever follows it, and has then
    written nothing; an empty target after an image never has this
    effect. *)
Theorem build_unbound_iff_first_target_empty :
  forall file targets name device,
    (snd (build file targets name device) = Raise Py.UnboundLocalError
     <-> exists rest, targets = [] :: rest)
    /\ forall rest, build file ([] :: rest) name device
                    = ([], Raise Py.UnboundLocalError).
Proof.
  intros file targets name device. split; [|reflexivity].
  split.
  - intros H. apply UnboundFacts.unbound_from_targets in H.
    destruct targets as [|[|i target] rest].
    + discriminate H.
    + exists rest. reflexivity.
    + exfalso. exact (UnboundFacts.first_image_binds name i target rest H).
  - intros (rest & ->). reflexivity.
Qed.

Lemma build_unbound_iff_first_target_empty_witness :
  snd (build Examples.out_file [[]; [Examples.fw_a]] DEFAULT_NAME DEFAULT_DEVICE)
  = Raise Py.UnboundLocalError.
Proof.
  apply (proj2 (proj1 (build_unbound_iff_first_target_empty Examples.out_file
                         [[]; [Examples.fw_a]] DEFAULT_NAME DEFAULT_DEVICE))).
  exists [[Examples.fw_a]]. reflexivity.
Defined.

(** X16: an empty target that is not the first does not fail: its header
    is written with the alternate setting of the last image of the
    targets before it. *)
Theorem build_empty_target_inherits_alt :
  forall file targets name device out before after front i,
    build file targets name device = (out, Ok tt) ->
    targets = before ++ [] :: after ->
    List.concat before = front ++ [i] ->
    exists content c,
      out = [Write (File file) content]
      /\ nth_error content (Z.to_nat (PREFIX_SIZE + blobs_size before + 6)) = Some c
      /\ byte.unsigned c = alt i.
Proof.
  intros file targets name device out before after front i Hbuild -> Hlast.
  destruct (BuildFacts.build_inv _ _ _ _ _ Hbuild) as (v & d & Hdev & -> & Hok).
  set (c := Wire.container_of (before ++ [] :: after) name v d) in *.
  destruct Hok as (_ & _ & _ & _ & Hts & _).
  change (Wire.ct_targets c)
    with (Wire.targets_of name None (before ++ [] :: after)) in Hts.
  rewrite FieldFacts.targets_of_app in Hts. cbn [Wire.targets_of] in Hts.
  apply Forall_elt in Hts. destruct Hts as (_ & Ralt & _).
  assert (Ealt : Wire.last_alt (fold_left Wire.last_alt before None) [] = Some (alt i)).
  { cbn [Wire.last_alt fold_left].
    rewrite EdgeFacts.carried_alt, Hlast. apply ContainerFacts.last_alt_snoc. }
  cbn [Wire.target_of Wire.tg_altsetting] in Ralt. rewrite Ealt in Ralt.
  exists (Wire.enc_container c), (byte.of_Z (alt i)).
  split; [reflexivity|]. split; [|apply FieldFacts.unsigned_of_Z_u8, Ralt].
  set (ts0 := Wire.targets_of name None before).
  assert (Econtent : exists rest,
            Wire.enc_container c
            = (Wire.enc_prefix c ++ Wire.enc_targets ts0 ++ blit "Target")
              ++ byte.of_Z (alt i) :: rest).
  { unfold Wire.enc_container, Wire.enc_checked.
    change (Wire.ct_targets c)
      with (Wire.targets_of name None (before ++ [] :: after)).
    rewrite FieldFacts.targets_of_app. cbn [Wire.targets_of].
    rewrite FieldFacts.enc_targets_app. fold ts0.
    cbn [Wire.enc_targets flat_map]. unfold Wire.enc_target at 1.
    cbn [Wire.target_of Wire.tg_signature Wire.tg_altsetting].
    rewrite Ealt, FieldFacts.le_split_1.
    rewrite <- !app_assoc. cbn [app].
    eexists. rewrite <- !app_assoc. reflexivity. }
  destruct Econtent as (rest & ->).
  apply FieldFacts.nth_error_middle.
  rewrite <- ParseFacts.nat_of_len. f_equal.
  rewrite !len_app. unfold ts0. rewrite ContainerFacts.len_enc_targets_of.
  unfold Wire.enc_prefix. rewrite !len_app, !ParseFacts.len_le_split.
  change (len (Wire.ct_signature c)) with 5.
  change (len (blit "Target")) with 6. unfold PREFIX_SIZE. lia.
Qed.

Lemma build_empty_target_inherits_alt_witness :
  exists content c,
    fst (build Examples.out_file [[Examples.fw_a; Examples.fw_c]; []]
           DEFAULT_NAME DEFAULT_DEVICE)
    = [Write (File Examples.out_file) content]
    /\ nth_error content
         (Z.to_nat (PREFIX_SIZE + blobs_size [[Examples.fw_a; Examples.fw_c]] + 6))
       = Some c
    /\ byte.unsigned c = alt Examples.fw_c.
Proof.
  apply (build_empty_target_inherits_alt Examples.out_file
           [[Examples.fw_a; Examples.fw_c]; []] DEFAULT_NAME DEFAULT_DEVICE _
           [[Examples.fw_a; Examples.fw_c]] [] [Examples.fw_a] Examples.fw_c).
  - vm_compute. reflexivity.
  - reflexivity.
  - reflexivity.
Defined.

(** X17: the name is written into a field of 255 bytes, cut or padded
    with NUL, and read back up to the first NUL: every target line
    [parse] prints for a built file shows the first 255 bytes of the
    name, up to its first NUL if it has one. *)
Theorem built_file_shows_name_cut :
  forall file targets name device out,
    build file targets name device = (out, Ok tt) ->
    exists content,
      out = [Write (File file) content]
      /\ forall dump_images l,
           In (PrintTarget l) (fst (parse file content dump_images)) ->
           t_name l = cstring (firstn 255 name).
Proof.
  intros file targets name device out Hbuild.
  destruct (BuildFacts.build_inv _ _ _ _ _ Hbuild) as (v & d & Hdev & -> & Hok).
  eexists. split; [reflexivity|]. intros dump_images l Hin.
  rewrite (ParseFacts.parse_enc file dump_images _ Hok) in Hin. cbn [fst] in Hin.
  destruct (EdgeFacts.target_line_in_container _ _ _ _ Hin) as (x & t' & Hx & ->).
  change (Wire.ct_targets (Wire.container_of targets name v d))
    with (Wire.targets_of name None targets) in Hx.
  destruct (EdgeFacts.targets_of_name name x _ _ Hx) as [Hnamed Hname].
  unfold Wire.target_line. cbn [t_name]. rewrite Hnamed, Hname.
  change (1 =? 0) with false. cbv iota. apply EdgeFacts.cstring_name_field.
Qed.

Lemma built_file_shows_name_cut_witness :
  exists content,
    fst (build Examples.out_file Examples.two_targets (blit "boot") DEFAULT_DEVICE)
    = [Write (File Examples.out_file) content]
    /\ forall dump_images l,
         In (PrintTarget l) (fst (parse Examples.out_file content dump_images)) ->
         t_name l = cstring (firstn 255 (blit "boot")).
Proof.
  apply (built_file_shows_name_cut Examples.out_file Examples.two_targets
           (blit "boot") DEFAULT_DEVICE).
  vm_compute. reflexivity.
Defined.

(** X18: an alternate setting outside 0..255 in the last image of a
    target does not fit the header byte: [build] ends with an exception
    and writes nothing. *)
Theorem build_refuses_wide_alt :
  forall file targets name device before front i after,
    targets = before ++ (front ++ [i]) :: after ->
    ~ (0 <= alt i < 256) ->
    exists e, build file targets name device = ([], Raise e).
Proof.
  intros file targets name device before front i after -> Hwide.
  destruct (build file (before ++ (front ++ [i]) :: after) name device)
    as [out r] eqn:Hbuild.
  destruct (BuildOutcome.build_outcome _ _ _ _ _ _ Hbuild)
    as [(-> & content & ->)|(-> & e & -> & _)].
  - exfalso. apply Hwide.
    destruct (BuildFacts.build_inv _ _ _ _ _ Hbuild) as (v & d & _ & _ & Hok).
    destruct Hok as (_ & _ & _ & _ & Hts & _).
    change (Wire.ct_targets (Wire.container_of (before ++ (front ++ [i]) :: after) name v d))
      with (Wire.targets_of name None (before ++ (front ++ [i]) :: after)) in Hts.
    rewrite FieldFacts.targets_of_app in Hts. cbn [Wire.targets_of] in Hts.
    apply Forall_elt in Hts. destruct Hts as (_ & Ralt & _).
    cbn [Wire.target_of Wire.tg_altsetting] in Ralt.
    rewrite ContainerFacts.last_alt_snoc in Ralt. exact Ralt.
  - exists e. reflexivity.
Qed.

Lemma build_refuses_wide_alt_witness :
  exists e,
    build Examples.out_file
      [[{| address := 0; alt := 300; data := blit "boot" |}]]
      DEFAULT_NAME DEFAULT_DEVICE
    = ([], Raise e).
Proof.
  apply (build_refuses_wide_alt Examples.out_file _ DEFAULT_NAME DEFAULT_DEVICE
           [] [] {| address := 0; alt := 300; data := blit "boot" |} []).
  - reflexivity.
  - cbn [alt]. lia.
Defined.

(* ================================================================= *)
(** ** Dumping the images of a built file *)

Module DumpFacts.
Import Wire.

Lemma written_elements file t : forall target e,
  files_written (elements_events file true t e (map element_of target))
  = dumped_elements file t e target.
Proof.
  induction target as [|i target IH]; intros e; [reflexivity|].
  cbn [map elements_events element_events dumped_elements app files_written
       element_of el_data].
  rewrite IH. reflexivity.
Qed.

Lemma written_targets file name : forall targets t ealt,
  files_written (targets_events file true t (targets_of name ealt targets))
  = dumped_targets file t targets.
Proof.
  induction targets as [|target targets IH]; intros t ealt; [reflexivity|].
  cbn [targets_of targets_events dumped_targets].
  rewrite IngestFacts.files_written_app, IH. f_equal.
  unfold target_events. cbn [target_of tg_elements tg_rest files_written].
  rewrite app_nil_r. apply written_elements.
Qed.

End DumpFacts.

(** X19: the images come back from the file: [parse] with
    [dump_images] on a file that [build] wrote writes one file per
    image, in the order of the targets and of their images, each holding
    the data of its image. *)
Theorem build_then_dump_recovers_images :
  forall file targets name device out,
    build file targets name device = (out, Ok tt) ->
    exists content,
      out = [Write (File file) content]
      /\ files_written (fst (parse file content true)) = dumped_targets file 0 targets.
Proof.
  intros file targets name device out Hbuild.
  destruct (BuildFacts.build_inv _ _ _ _ _ Hbuild) as (v & d & Hdev & -> & Hok).
  eexists. split; [reflexivity|].
  rewrite (ParseFacts.parse_enc file true _ Hok). cbn [fst].
  unfold Wire.container_events.
  rewrite !IngestFacts.files_written_app, CleanFacts.built_file_diagnostics.
  change (Wire.ct_targets (Wire.container_of targets name v d))
    with (Wire.targets_of name None targets).
  rewrite DumpFacts.written_targets. cbn [files_written app].
  apply app_nil_r.
Qed.

Lemma build_then_dump_recovers_images_witness :
  exists content,
    fst (build Examples.out_file Examples.mixed_targets DEFAULT_NAME DEFAULT_DEVICE)
    = [Write (File Examples.out_file) content]
    /\ files_written (fst (parse Examples.out_file content true))
       = dumped_targets Examples.out_file 0 Examples.mixed_targets.
Proof.
  apply (build_then_dump_recovers_images Examples.out_file Examples.mixed_targets
           DEFAULT_NAME DEFAULT_DEVICE).
  vm_compute. reflexivity.
Defined.

(* ================================================================= *)
(** ** What [checkbin] refuses *)

Module CheckbinFacts.
Import Wire Struct.

Lemma bytes_eqb_eq : forall x y, bytes_eqb x y = true -> x = y.
Proof.
  induction x as [|c x IH]; intros [|d y] H; try discriminate H; [reflexivity|].
  cbn [bytes_eqb] in H. apply andb_prop in H. destruct H as [H1 H2].
  apply Byte.byte_dec_bl in H1. rewrite H1, (IH _ H2). reflexivity.
Qed.

Lemma combine_bound (bs : bytes) n :
  List.length bs = n -> 0 <= le_combine bs < 2 ^ (8 * Z.of_nat n).
Proof. intros <-. apply le_combine_bound. Qed.

Lemma split_combine (bs : bytes) n :
  List.length bs = n -> le_split n (le_combine bs) = bs.
Proof. intros <-. apply split_le_combine. Qed.

(** Sixteen bytes are the suffix they unpack to. *)
Lemma suffix_decode (tail : bytes) :
  List.length tail = 16%nat ->
  let x := names_suffix (unpack_fields fmt_suffix tail) in
  tail = enc_suffix_head x ++ le_split 4 (s_crc x) /\ suffix_ok x.
Proof.
  intros H.
  do 16 (destruct tail as [|? tail]; [discriminate H|]).
  destruct tail; [|discriminate H]. clear H.
  unfold names_suffix.
  cbn [unpack_fields fmt_suffix code_size firstn skipn unpack_one
       int_at bytes_at nth_error].
  split.
  - unfold enc_suffix_head. cbn [s_device s_product s_vendor s_dfu s_ufd s_len s_crc].
    rewrite !split_combine by reflexivity. reflexivity.
  - unfold suffix_ok, u16, u8, u32.
    cbn [s_device s_product s_vendor s_dfu s_ufd s_len s_crc].
    repeat split; try reflexivity;
      match goal with
      | |- 0 <= le_combine ?bs => apply (proj1 (le_combine_bound bs))
      | |- le_combine ?bs < _ => apply (proj2 (le_combine_bound bs))
      end.
Qed.

(** The last sixteen bytes of a buffer, and what is before them. *)
Lemma split_last16 (x : bytes) :
  16 <= len x ->
  x = Py.slice_to x (- SUFFIX_SIZE) ++ Py.slice_from x (- SUFFIX_SIZE).
Proof.
  intros H. unfold Py.slice_to, Py.slice_from. symmetry. apply firstn_skipn.
Qed.

Lemma checkbin_inv binfile x out r :
  checkbin binfile x = (out, r) ->
  (out = [] /\ r = Ok tt)
  \/ exists payload s,
       x = with_suffix payload s /\ valid_suffix payload s
       /\ out = [PrintSuffix s; PrintHasSuffix binfile; PrintRemoveSuffix]
       /\ r = Raise (Py.SystemExit 1).
Proof.
  unfold checkbin.
  destruct (len x <? SUFFIX_SIZE) eqn:E.
  { intros H. left. split; [exact (f_equal fst (eq_sym H))|exact (f_equal snd (eq_sym H))]. }
  apply Z.ltb_ge in E. unfold SUFFIX_SIZE in E.
  pose proof (IngestFacts.length_last16 x E) as Hlen.
  unfold Struct.unpack. rewrite Hlen.
  cbn [calcsize fmt_suffix code_size Nat.add Nat.eqb orelse].
  rewrite bind_ret. unfold named.
  destruct (suffix_decode _ Hlen) as [Htail Hok].
  set (s := names_suffix (unpack_fields fmt_suffix (Py.slice_from x (- SUFFIX_SIZE)))) in *.
  destruct ((compute_crc (Py.slice_to x (-4)) =? s_crc s)
            && bytes_eqb (s_ufd s) (blit "UFD")) eqn:Ec.
  2:{ intros H. left.
      split; [exact (f_equal fst (eq_sym H))|exact (f_equal snd (eq_sym H))]. }
  intros H. right. exists (Py.slice_to x (- SUFFIX_SIZE)), s.
  apply andb_prop in Ec. destruct Ec as [Ecrc Eufd].
  apply Z.eqb_eq in Ecrc. apply bytes_eqb_eq in Eufd.
  assert (Ex : x = with_suffix (Py.slice_to x (- SUFFIX_SIZE)) s).
  { unfold with_suffix. rewrite <- Htail. apply split_last16, E. }
  split; [exact Ex|]. split.
  - split; [exact Hok|]. split; [exact Eufd|].
    rewrite <- Ecrc. f_equal.
    rewrite Ex at 1. unfold with_suffix. rewrite app_assoc.
    apply SliceFacts.slice_to_neg_app; [lia|].
    rewrite ParseFacts.len_le_split. reflexivity.
  - split; [exact (f_equal fst (eq_sym H))|exact (f_equal snd (eq_sym H))].
Qed.

End CheckbinFacts.

(** X20: [checkbin] lets a file pass in silence or refuses it with the
    three lines about its suffix and [sys.exit(1)], and it refuses
    exactly the files of at least 16 bytes whose last 16 bytes are a
    suffix with the marker [UFD] and the checksum of all the bytes
    before the checksum field. *)
Theorem checkbin_refuses_exactly_valid_suffix :
  forall binfile x,
    (checkbin binfile x = ([], Ok tt)
     \/ exists s, checkbin binfile x
                  = ([PrintSuffix s; PrintHasSuffix binfile; PrintRemoveSuffix],
                     Raise (Py.SystemExit 1)))
    /\ (checkbin binfile x <> ([], Ok tt)
        <-> exists payload s, x = with_suffix payload s /\ valid_suffix payload s).
Proof.
  intros binfile x.
  destruct (checkbin binfile x) as [out r] eqn:E.
  destruct (CheckbinFacts.checkbin_inv binfile x out r E)
    as [[-> ->]|(payload & s & Ex & Hv & -> & ->)].
  - split; [left; reflexivity|]. split.
    + intros H. exfalso. apply H. reflexivity.
    + intros (payload & s & Ex & Hv) _.
      rewrite Ex, (IngestFacts.checkbin_detects binfile payload s Hv) in E.
      discriminate E.
  - split; [right; exists s; reflexivity|]. split.
    + intros _. exists payload, s. split; [exact Ex|exact Hv].
    + intros _ H. discriminate H.
Qed.

Lemma checkbin_refuses_exactly_valid_suffix_witness :
  checkbin (lit "fw.bin") (with_suffix Examples.payload Examples.sealed_suffix)
  <> ([], Ok tt).
Proof.
  apply (proj2 (proj2 (checkbin_refuses_exactly_valid_suffix (lit "fw.bin")
                         (with_suffix Examples.payload Examples.sealed_suffix)))).
  exists Examples.payload, Examples.sealed_suffix. split; [reflexivity|].
  unfold valid_suffix, Wire.suffix_ok. split_all;
    first [ vm_compute; reflexivity | vm_compute; split; congruence ].
Defined.

(* ================================================================= *)
(** ** How the binary files are grouped into targets *)

Module GroupFacts.

Lemma exit_not_ok {A B} e (k : A -> M B) out r :
  bind (emit e ;; sys_exit 1)%run k = (out, Ok r) -> False.
Proof. intros H. discriminate H. Qed.

Lemma land_u32 z : 0 <= Z.land z 0xFFFFFFFF < 2 ^ 32.
Proof.
  change 0xFFFFFFFF with (Z.ones 32). rewrite Z.land_ones by lia.
  apply Z.mod_pos_bound. lia.
Qed.

(** One turn of the loop that comes to its end: nothing is printed, and
    one image is added, to the open target or to a new one. *)
Lemma body_inv w default_alt arg targets target old out ts tg old' :
  binfiles_body w default_alt arg targets target old = (out, Ok (ts, tg, old')) ->
  out = [] /\ exists i,
    ingests w arg i
    /\ old' = Some (alt i)
    /\ (ts, tg) = match old with
                  | Some o => if negb (alt i =? o) then (targets ++ [target], [i])
                              else (targets, target ++ [i])
                  | None => (targets, target ++ [i])
                  end.
Proof.
  unfold binfiles_body. intros H.
  destruct (Py.split1 ":" arg) as [|address [|binfile [|? ?]]] eqn:Es;
    try (exfalso; exact (exit_not_ok _ _ _ _ H)).
  rewrite bind_ret in H.
  set (chosen := match Py.split1 "@" address with
                 | [address'; alts] =>
                     match alts with
                     | _ :: _ =>
                         match Py.int alts 10 with
                         | Some ealt => ret (address', ealt)
                         | None => (emit (PrintAltNumberInvalid alts) ;; sys_exit 1)%run
                         end
                     | [] => ret (address', default_alt)
                     end
                 | _ => ret (address, default_alt)
                 end) in H.
  assert (Hc : (exists p, chosen = ret p) \/ exists e, chosen = (emit e ;; sys_exit 1)%run).
  { unfold chosen.
    destruct (Py.split1 "@" address) as [|a [|alts [|? ?]]];
      try (left; eexists; reflexivity).
    destruct alts as [|? ?]; [left; eexists; reflexivity|].
    match goal with |- context [match ?o with _ => _ end] => destruct o end;
      [left; eexists; reflexivity|right; eexists; reflexivity]. }
  destruct Hc as [([address' ealt] & ->)|(e & ->)];
    [|exfalso; exact (exit_not_ok _ _ _ _ H)].
  rewrite bind_ret in H.
  destruct (Py.int address' 0) as [a|];
    [|exfalso; exact (exit_not_ok _ _ _ _ H)].
  rewrite bind_ret in H. unfold isfile, read in H.
  destruct (file_bytes w binfile) as [content|] eqn:Ef; cbn [negb orelse] in H;
    [|exfalso; exact (exit_not_ok _ _ _ _ H)].
  rewrite !bind_ret in H.
  destruct (checkbin binfile content) as [o r] eqn:Ec.
  destruct (CheckbinFacts.checkbin_inv _ _ _ _ Ec) as [[-> ->]|(? & ? & _ & _ & _ & ->)];
    [|discriminate H].
  rewrite BuildOutcome.bind_nil in H.
  set (i := {| address := Z.land a 0xFFFFFFFF; alt := ealt; data := content |}).
  assert (E : (out, Ok (ts, tg, old'))
              = ([], Ok (match old with
                         | Some o => if negb (ealt =? o) then (targets ++ [target], [i])
                                     else (targets, target ++ [i])
                         | None => (targets, target ++ [i])
                         end, Some ealt))).
  { rewrite <- H. destruct old as [o|]; [destruct (negb (ealt =? o))|];
      cbv beta iota zeta; rewrite bind_ret; reflexivity. }
  split; [exact (f_equal fst E)|].
  exists i. split.
  { exists address, binfile. split; [exact Es|]. split; [exact Ef|]. apply land_u32. }
  pose proof (f_equal snd E) as E2. cbn [snd] in E2.
  assert (E3 : (ts, tg, old')
               = (match old with
                  | Some o => if negb (ealt =? o) then (targets ++ [target], [i])
                              else (targets, target ++ [i])
                  | None => (targets, target ++ [i])
                  end, Some ealt)).
  { exact (f_equal (fun r => match r with Ok v => v | Raise _ => (ts, tg, old') end) E2). }
  split; [exact (f_equal snd E3)|exact (f_equal fst E3)].
Qed.

Lemma one_alt_app a x y : one_alt a (x ++ y) = one_alt a x && one_alt a y.
Proof. apply forallb_app. Qed.

Lemma one_alt_same a target : one_alt a target = true -> same_alt target.
Proof.
  unfold one_alt. rewrite forallb_forall. intros H i j Hi Hj.
  pose proof (H i Hi) as Ei. pose proof (H j Hj) as Ej.
  apply Z.eqb_eq in Ei, Ej. congruence.
Qed.

Lemma one_alt_first a target rest :
  target <> [] -> one_alt a target = true -> target_alt (target ++ rest) = a.
Proof.
  destruct target as [|i target]; [congruence|]. intros _ H.
  cbn [one_alt forallb] in H. apply andb_prop in H. destruct H as [H _].
  apply Z.eqb_eq in H. exact H.
Qed.

(** The state between two turns: no open target before the first
    file, afterwards a non-empty one with the alternate setting of the
    last file. *)
Definition open_ok (old : option Z) (target : list image) : Prop :=
  match old with
  | None => target = []
  | Some o => target <> [] /\ one_alt o target = true
  end.

(** The loop from any such state: the open target is extended by the
    files that keep its alternate setting, and groups follow it. *)
Lemma loop_groups w default_alt : forall binfiles targets target old out closed final,
  binfiles_loop w default_alt binfiles targets target old = (out, Ok (closed, final)) ->
  open_ok old target ->
  out = []
  /\ exists extra groups,
       closed ++ [final] = targets ++ (target ++ extra) :: groups
       /\ Forall2 (ingests w) binfiles (extra ++ List.concat groups)
       /\ (exists a, one_alt a (target ++ extra) = true
                     /\ forall o, old = Some o -> a = o)
       /\ (binfiles <> [] -> target ++ extra <> [])
       /\ Forall (fun t => t <> [] /\ same_alt t) groups
       /\ alts_differ ((target ++ extra) :: groups) = true.
Proof.
  induction binfiles as [|arg rest IH]; intros targets target old out closed final H Hopen.
  - cbn [binfiles_loop] in H. apply ret_ok_inv in H. destruct H as [H ->].
    split; [reflexivity|]. exists [], [].
    assert (Ec : closed = targets) by exact (f_equal fst H).
    assert (Ef : final = target) by exact (f_equal snd H).
    subst closed final. rewrite app_nil_r.
    split; [reflexivity|]. split; [constructor|]. split.
    { destruct old as [o|]; cbn [open_ok] in Hopen.
      - exists o. split; [exact (proj2 Hopen)|]. intros o' E. congruence.
      - exists 0. subst target. split; [reflexivity|]. intros o' E. discriminate E. }
    split; [congruence|]. split; [constructor|reflexivity].
  - cbn [binfiles_loop] in H. apply bind_ok_inv in H.
    destruct H as (o1 & [[ts tg] old'] & o2 & Hbody & Hrest & ->).
    apply body_inv in Hbody. destruct Hbody as (-> & i & Hi & -> & Hstate).
    assert (Hnext : (exists o, old = Some o /\ alt i <> o
                               /\ ts = targets ++ [target] /\ tg = [i])
                    \/ ((forall o, old = Some o -> alt i = o)
                        /\ ts = targets /\ tg = target ++ [i])).
    { destruct old as [o|].
      - destruct (alt i =? o) eqn:E; cbn [negb] in Hstate.
        + apply Z.eqb_eq in E. right. split; [intros o' Eo; congruence|].
          split; [exact (f_equal fst Hstate)|exact (f_equal snd Hstate)].
        + apply Z.eqb_neq in E. left. exists o. split; [reflexivity|]. split; [exact E|].
          split; [exact (f_equal fst Hstate)|exact (f_equal snd Hstate)].
      - right. split; [intros o' Eo; discriminate Eo|].
        split; [exact (f_equal fst Hstate)|exact (f_equal snd Hstate)]. }
    clear Hstate.
    destruct Hnext as [(o & -> & Hne & -> & ->)|(Hsame & -> & ->)].
    + destruct Hopen as [Hne_t Hone].
      assert (Hopen' : open_ok (Some (alt i)) [i]).
      { split; [discriminate|]. cbn [one_alt forallb]. rewrite Z.eqb_refl. reflexivity. }
      destruct (IH _ _ _ _ _ _ Hrest Hopen')
        as (-> & extra1 & groups1 & Hlist & Hall & (a & Ha & Hao) & _ & Hgroups & Hdiff).
      split; [reflexivity|]. exists [], (([i] ++ extra1) :: groups1).
      split; [rewrite Hlist, <- app_assoc, app_nil_r; reflexivity|].
      split; [cbn [app List.concat]; constructor; [exact Hi|exact Hall]|].
      split.
      { exists o. rewrite app_nil_r. split; [exact Hone|]. intros o' E. congruence. }
      split; [intros _; rewrite app_nil_r; exact Hne_t|].
      split.
      { constructor; [|exact Hgroups]. split; [discriminate|].
        exact (one_alt_same a _ Ha). }
      cbn [alts_differ]. cbn [alts_differ] in Hdiff. rewrite Hdiff, andb_true_r.
      pose proof (one_alt_first o target [] Hne_t Hone) as Et.
      rewrite Et. cbn [app target_alt].
      apply negb_true_iff, Z.eqb_neq. congruence.
    + assert (Hopen' : open_ok (Some (alt i)) (target ++ [i])).
      { split; [intros E; apply app_eq_nil in E; destruct E as [_ E]; discriminate E|].
        rewrite one_alt_app. cbn [one_alt forallb]. rewrite Z.eqb_refl, andb_true_r.
        destruct old as [o|]; cbn [open_ok] in Hopen.
        - rewrite (Hsame o eq_refl). exact (proj2 Hopen).
        - subst target. reflexivity. }
      destruct (IH _ _ _ _ _ _ Hrest Hopen')
        as (-> & extra1 & groups1 & Hlist & Hall & (a & Ha & Hao) & _ & Hgroups & Hdiff).
      split; [reflexivity|]. exists (i :: extra1), groups1.
      assert (Eapp : target ++ i :: extra1 = (target ++ [i]) ++ extra1)
        by (rewrite <- app_assoc; reflexivity).
      rewrite Eapp.
      split; [exact Hlist|].
      split; [cbn [app]; constructor; [exact Hi|exact Hall]|].
      split.
      { exists a. split; [exact Ha|]. intros o E.
        rewrite (Hao (alt i) eq_refl). exact (Hsame o E). }
      split.
      { intros _ E. apply app_eq_nil in E. destruct E as [E _].
        apply app_eq_nil in E. destruct E as [_ E]. discriminate E. }
      split; [exact Hgroups|exact Hdiff].
Qed.

End GroupFacts.

(** X21: the binary files of a run that gets through all of them are
    grouped into targets in the order given: one image per descriptor,
    holding the bytes of its file at an address of 32 bits; no target is
    empty, each has one alternate setting, and a new target starts
    exactly where the alternate setting changes.  Nothing is printed. *)
Theorem binfiles_are_grouped_by_alt :
  forall w default_alt binfiles out closed target,
    binfiles <> [] ->
    binfiles_loop w default_alt binfiles [] [] None = (out, Ok (closed, target)) ->
    out = []
    /\ Forall2 (ingests w) binfiles (List.concat (closed ++ [target]))
    /\ Forall (fun t => t <> []) (closed ++ [target])
    /\ Forall same_alt (closed ++ [target])
    /\ alts_differ (closed ++ [target]) = true.
Proof.
  intros w default_alt binfiles out closed target Hne H.
  destruct (GroupFacts.loop_groups w default_alt _ _ _ _ _ _ _ H eq_refl)
    as (-> & extra & groups & -> & Hall & (a & Ha & _) & Hfirst & Hgroups & Hdiff).
  cbn [app] in *.
  split; [reflexivity|]. split; [exact Hall|].
  split; [constructor; [exact (Hfirst Hne)|]|].
  { apply Forall_forall. intros t Ht.
    rewrite Forall_forall in Hgroups. exact (proj1 (Hgroups t Ht)). }
  split; [constructor; [exact (GroupFacts.one_alt_same a _ Ha)|]|exact Hdiff].
  apply Forall_forall. intros t Ht.
  rewrite Forall_forall in Hgroups. exact (proj2 (Hgroups t Ht)).
Qed.

Module GroupExamples.

(** Three descriptors of one file, the last with an alternate setting
    of its own, and the targets they are grouped into. *)
Definition fw_world : world := Examples.one_file (lit "fw.bin") (blit "boot").

Definition fw_args : list str :=
  [lit "0x08000000:fw.bin"; lit "0x08004000:fw.bin"; lit "0x90000000@1:fw.bin"].

Definition fw_closed : list (list image) :=
  [[{| address := 0x08000000; alt := 0; data := blit "boot" |};
    {| address := 0x08004000; alt := 0; data := blit "boot" |}]].

Definition fw_open : list image :=
  [{| address := 0x90000000; alt := 1; data := blit "boot" |}].

(** A world with the [IntelHex] module, every file of which has one
    segment. *)
Definition hex_object : IntelHexObj :=
  {| segments := [(0x08004000, 0x08004004)]; tobinstr := fun _ _ => blit "app!" |}.

Definition hex_world : world :=
  {| file_bytes := file_bytes fw_world; file_lines := fun _ => None;
     IntelHex := Some (fun _ => hex_object) |}.

Definition hex_options : options_t :=
  {| o_binfiles := Some [lit "0x08000000:fw.bin"]; o_hexfiles := Some [lit "fw.hex"];
     o_s19files := None; o_device := None; o_alt := None; o_dump_images := false |}.

End GroupExamples.

Lemma binfiles_are_grouped_by_alt_witness :
  @nil event = []
  /\ Forall2 (ingests GroupExamples.fw_world) GroupExamples.fw_args
       (List.concat (GroupExamples.fw_closed ++ [GroupExamples.fw_open]))
  /\ Forall (fun t => t <> []) (GroupExamples.fw_closed ++ [GroupExamples.fw_open])
  /\ Forall same_alt (GroupExamples.fw_closed ++ [GroupExamples.fw_open])
  /\ alts_differ (GroupExamples.fw_closed ++ [GroupExamples.fw_open]) = true.
Proof.
  apply (binfiles_are_grouped_by_alt GroupExamples.fw_world 0 GroupExamples.fw_args []
           GroupExamples.fw_closed GroupExamples.fw_open).
  - discriminate.
  - vm_compute. reflexivity.
Defined.

(* ================================================================= *)
(** ** The alternate setting of a descriptor *)

Module AltFacts.
Import Py IntFacts AddressFacts.

(** [int(ds)] on decimal digits, leading zeros or not. *)
Lemma int_base10 ds :
  ds <> [] -> is_digits 10 ds = true ->
  (List.length ds <= max_str_digits)%nat ->
  int ds 10 = Some (digits_value 10 ds).
Proof.
  intros Hne Hd Hlen. destruct ds as [|c ds]; [contradiction|].
  pose proof (is_digits_cons _ _ _ Hd) as [(d & Hc & _) _].
  destruct (digit_is_plain c d Hc) as (Hsp & Hplus & Hminus & Hus & _).
  unfold int. cbn [lstrip_by]. rewrite Hsp.
  unfold int_sign. rewrite Hplus, Hminus.
  unfold int_base. cbn [Z.eqb].
  replace (int_skip_prefix 10 (c :: ds)) with (c :: ds)
    by (unfold int_skip_prefix; destruct ds; [reflexivity|];
        cbn [Z.eqb andb orb]; rewrite andb_false_r; reflexivity).
  rewrite (int_digits_run 10 false (c :: ds)) by (first [discriminate|exact Hd]).
  replace (max_str_digits <? List.length (c :: ds))%nat with false
    by (symmetry; apply Nat.ltb_ge; exact Hlen).
  rewrite andb_false_r. cbn [andb]. rewrite Z.mul_1_l. reflexivity.
Qed.

(** [int] in base 10 has no use for the prefix [0x]. *)
Lemma int_base10_no_hex rest : int ("0" :: "x" :: rest)%char 10 = None.
Proof. reflexivity. Qed.

Lemma no_colon_app x y :
  forallb (fun c => negb (Ascii.eqb c ":")) x = true ->
  forallb (fun c => negb (Ascii.eqb c ":")) y = true ->
  forallb (fun c => negb (Ascii.eqb c ":")) (x ++ "@"%char :: y) = true.
Proof.
  intros Hx Hy. rewrite forallb_app, Hx. cbn [forallb andb]. rewrite Hy. reflexivity.
Qed.

End AltFacts.

(** X22: the text between [@] and the colon of a descriptor is the
    alternate setting of its image, read in base 10: decimal digits,
    leading zeros or not, give the number they spell; nothing after the
    [@] leaves the default; and a number under [0x], which the address
    may be, is refused with its message and [sys.exit(1)] before the
    address is looked at. *)
Theorem descriptor_alt_is_decimal :
  forall w default_alt addr ds path content,
    no_separator addr = true ->
    is_digits 10 ds = true ->
    (List.length ds <= Py.max_str_digits)%nat ->
    file_bytes w path = Some content ->
    checkbin path content = ([], Ok tt) ->
    ingest_one w default_alt (addr ++ lit "@" ++ ds ++ lit ":" ++ path)
    = match Py.int addr 0 with
      | Some v =>
          ingested (Z.land v 0xFFFFFFFF)
            (match ds with [] => default_alt | _ :: _ => digits_value 10 ds end)
            content
      | None => address_refused addr
      end
    /\ ingest_one w default_alt (addr ++ lit "@0x" ++ ds ++ lit ":" ++ path)
       = (emit (PrintAltNumberInvalid (lit "0x" ++ ds)) ;; sys_exit 1)%run.
Proof.
  intros w default_alt addr ds path content Hsep Hd Hlen Hfile Hcheck.
  destruct (AddressFacts.no_separator_split _ Hsep) as [Hcolon Hat].
  destruct (AddressFacts.no_separator_split _
              (AddressFacts.digits_no_separator 10 ds Hd)) as [Hdcolon _].
  split.
  - unfold ingest_one. cbn [binfiles_loop]. unfold binfiles_body.
    change (addr ++ lit "@" ++ ds ++ lit ":" ++ path)
      with (addr ++ ("@"%char :: ds) ++ ":"%char :: path).
    rewrite app_assoc.
    rewrite (AddressFacts.split1_first ":" path (addr ++ "@"%char :: ds)
               (AltFacts.no_colon_app addr ds Hcolon Hdcolon)), bind_ret.
    rewrite (AddressFacts.split1_first "@" ds addr Hat).
    assert (Ealt : match ds with
                   | [] => ret (addr, default_alt)
                   | _ :: _ =>
                       match Py.int ds 10 with
                       | Some ealt => ret (addr, ealt)
                       | None => (emit (PrintAltNumberInvalid ds) ;; sys_exit 1)%run
                       end
                   end
                   = ret (addr, match ds with
                                | [] => default_alt
                                | _ :: _ => digits_value 10 ds
                                end)).
    { destruct ds as [|c ds']; [reflexivity|].
      rewrite (AltFacts.int_base10 (c :: ds')) by (first [discriminate|assumption]).
      reflexivity. }
    rewrite Ealt, bind_ret.
    destruct (Py.int addr 0) as [v|]; [|reflexivity].
    rewrite bind_ret. unfold isfile, read. rewrite Hfile. cbn [negb orelse].
    rewrite !bind_ret, Hcheck. reflexivity.
  - unfold ingest_one. cbn [binfiles_loop]. unfold binfiles_body.
    change (addr ++ lit "@0x" ++ ds ++ lit ":" ++ path)
      with (addr ++ ("@"%char :: "0"%char :: "x"%char :: ds) ++ ":"%char :: path).
    rewrite app_assoc.
    rewrite (AddressFacts.split1_first ":" path
               (addr ++ "@"%char :: "0"%char :: "x"%char :: ds)
               (AltFacts.no_colon_app addr ("0"%char :: "x"%char :: ds) Hcolon Hdcolon)),
      bind_ret.
    rewrite (AddressFacts.split1_first "@" ("0"%char :: "x"%char :: ds) addr Hat).
    rewrite AltFacts.int_base10_no_hex. reflexivity.
Qed.

Lemma descriptor_alt_is_decimal_witness :
  ingest_one (Examples.one_file (lit "fw.bin") (blit "boot")) 0
    (lit "0x08000000" ++ lit "@" ++ lit "010" ++ lit ":" ++ lit "fw.bin")
  = match Py.int (lit "0x08000000") 0 with
    | Some v =>
        ingested (Z.land v 0xFFFFFFFF)
          (match lit "010" with [] => 0 | _ :: _ => digits_value 10 (lit "010") end)
          (blit "boot")
    | None => address_refused (lit "0x08000000")
    end
  /\ ingest_one (Examples.one_file (lit "fw.bin") (blit "boot")) 0
       (lit "0x08000000" ++ lit "@0x" ++ lit "010" ++ lit ":" ++ lit "fw.bin")
     = (emit (PrintAltNumberInvalid (lit "0x" ++ lit "010")) ;; sys_exit 1)%run.
Proof.
  apply (descriptor_alt_is_decimal (Examples.one_file (lit "fw.bin") (blit "boot")) 0
           (lit "0x08000000") (lit "010") (lit "fw.bin") (blit "boot")).
  - reflexivity.
  - reflexivity.
  - vm_compute. lia.
  - reflexivity.
  - vm_compute. reflexivity.
Defined.

(* ================================================================= *)
(** ** What the S-record reader collects *)

Module S19Facts.

(** An image the reader may add: the default alternate setting, an
    address of 32 bits other than zero. *)
Definition collected (default_alt : Z) (i : image) : Prop :=
  alt i = default_alt /\ 0 < address i < 2 ^ 32.

Definition steady (default_alt : Z) (st : s19_state) : Prop :=
  0 <= r_address st < 2 ^ 32 /\ Forall (collected default_alt) (r_target st).

Lemma data_record_inv st line k out a d :
  s19_data_record st line k = (out, Ok (a, d)) -> out = [] /\ 0 <= a < 2 ^ 32.
Proof.
  unfold s19_data_record. intros H.
  destruct (Py.int (Py.slice line 4 k) 16) as [v|];
    [|exfalso; exact (GroupFacts.exit_not_ok _ _ _ _ H)].
  rewrite bind_ret in H.
  destruct (Py.unhexlify (Py.slice line k (-2))) as [x|]; [|discriminate H].
  cbn [orelse] in H. rewrite bind_ret in H. apply ret_ok_inv in H.
  destruct H as [H ->]. split; [reflexivity|].
  replace a with (Z.land v 0xFFFFFFFF) by exact (f_equal fst (eq_sym H)).
  apply GroupFacts.land_u32.
Qed.

Lemma data_line_inv st line k out name a d :
  (' (a, d) <- s19_data_record st line k ;; ret (r_name st, a, d))%run
  = (out, Ok (name, a, d)) ->
  out = [] /\ 0 <= a < 2 ^ 32.
Proof.
  intros H. apply bind_ok_inv in H.
  destruct H as (o1 & [a' d'] & o2 & Hrec & Hret & ->).
  apply data_record_inv in Hrec. destruct Hrec as [-> Ha].
  apply ret_ok_inv in Hret. destruct Hret as [Hret ->].
  split; [reflexivity|].
  replace a with a' by exact (f_equal (fun p => snd (fst p)) (eq_sym Hret)).
  exact Ha.
Qed.

(** One line that is read without an exception prints nothing and
    keeps the state steady. *)
Lemma line_steady default_alt st line out st' :
  s19_line default_alt st line = (out, Ok st') ->
  steady default_alt st ->
  out = [] /\ steady default_alt st'.
Proof.
  unfold s19_line. intros H [Haddr Htarget].
  apply bind_ok_inv in H.
  destruct H as (o1 & [[name a] d] & o2 & Hfields & Hstate & ->).
  assert (Hf : o1 = [] /\ 0 <= a < 2 ^ 32).
  { destruct (Py.startswith (Py.rstrip line) (lit "S0")).
    { apply bind_ok_inv in Hfields.
      destruct Hfields as (o & x & o' & Hx & Hret & ->).
      apply orelse_ok_inv in Hx. destruct Hx as [_ ->].
      apply ret_ok_inv in Hret. destruct Hret as [Hret ->].
      split; [reflexivity|].
      replace a with 0 by exact (f_equal (fun p => snd (fst p)) (eq_sym Hret)). lia. }
    destruct (Py.startswith (Py.rstrip line) (lit "S3"));
      [exact (data_line_inv _ _ _ _ _ _ _ Hfields)|].
    destruct (Py.startswith (Py.rstrip line) (lit "S2"));
      [exact (data_line_inv _ _ _ _ _ _ _ Hfields)|].
    destruct (Py.startswith (Py.rstrip line) (lit "S1"));
      [exact (data_line_inv _ _ _ _ _ _ _ Hfields)|].
    apply ret_ok_inv in Hfields. destruct Hfields as [Hret ->].
    split; [reflexivity|].
    replace a with 0 by exact (f_equal (fun p => snd (fst p)) (eq_sym Hret)). lia. }
  destruct Hf as [-> Ha].
  destruct (r_address st =? 0) eqn:E0;
    [|destruct (negb (r_address st + len (r_data st) =? a))];
    apply ret_ok_inv in Hstate; destruct Hstate as [-> ->];
    (split; [reflexivity|]); split; cbn [r_address r_target];
    try assumption.
  apply Forall_app. split; [exact Htarget|].
  constructor; [|constructor]. split; [reflexivity|]. cbn [address].
  apply Z.eqb_neq in E0. lia.
Qed.

Lemma lines_steady default_alt : forall lines st out st',
  s19_lines default_alt st lines = (out, Ok st') ->
  steady default_alt st ->
  out = [] /\ steady default_alt st'.
Proof.
  induction lines as [|line lines IH]; intros st out st' H Hst; cbn [s19_lines] in H.
  - apply ret_ok_inv in H. destruct H as [-> ->]. split; [reflexivity|exact Hst].
  - apply bind_ok_inv in H. destruct H as (o1 & st1 & o2 & Hline & Hrest & ->).
    destruct (line_steady _ _ _ _ _ Hline Hst) as [-> Hst1].
    destruct (IH _ _ _ Hrest Hst1) as [-> Hst']. split; [reflexivity|exact Hst'].
Qed.

End S19Facts.

(** X23: whatever the lines of an S-record file, every image the
    reader collects from them has the default alternate setting and an
    address of 32 bits that is not zero: a segment that starts at
    address 0 is never collected.  A reader that gets through the file
    prints nothing. *)
Theorem s19_images_have_default_alt_and_nonzero_address :
  forall default_alt lines out st,
    s19_lines default_alt s19_init lines = (out, Ok st) ->
    out = []
    /\ Forall (fun i => alt i = default_alt /\ 0 < address i < 2 ^ 32) (r_target st).
Proof.
  intros default_alt lines out st H.
  assert (H0 : S19Facts.steady default_alt s19_init).
  { split; [cbn [s19_init r_address]; lia|constructor]. }
  destruct (S19Facts.lines_steady default_alt lines s19_init out st H H0) as [-> [_ Ht]].
  split; [reflexivity|exact Ht].
Qed.

Lemma s19_images_have_default_alt_and_nonzero_address_witness :
  @nil event = []
  /\ Forall (fun i => alt i = 0 /\ 0 < address i < 2 ^ 32)
       [{| address := 0x1000; alt := 0;
           data := Examples.dead_beef ++ Examples.dead_beef |};
        {| address := 0x2000; alt := 0; data := Examples.dead_beef |}].
Proof.
  apply (s19_images_have_default_alt_and_nonzero_address 0
           [Examples.rec_0000; Examples.rec_1000; Examples.rec_1004;
            Examples.rec_2000; Examples.rec_end]
           []
           {| r_address := 0; r_data := [];
              r_target := [{| address := 0x1000; alt := 0;
                              data := Examples.dead_beef ++ Examples.dead_beef |};
                           {| address := 0x2000; alt := 0;
                              data := Examples.dead_beef |}];
              r_name := DEFAULT_NAME |}).
  vm_compute. reflexivity.
Defined.

(* ================================================================= *)
(** ** The columns of a record the reader looks at *)

Module ColumnFacts.
Import Py SliceFacts.

Lemma lstrip_spaces : forall ws rest,
  forallb isspace ws = true ->
  lstrip_by isspace (rev ws ++ rest) = lstrip_by isspace rest.
Proof.
  induction ws as [|c ws IH]; intros rest H; [reflexivity|].
  cbn [forallb] in H. apply andb_prop in H. destruct H as [Hc Hws].
  cbn [rev]. rewrite <- app_assoc. cbn [app].
  rewrite (IH _ Hws). cbn [lstrip_by]. rewrite Hc. reflexivity.
Qed.

(** [rstrip] takes the white space after the last column away and
    nothing else. *)
Lemma rstrip_record front f ws :
  forallb isspace ws = true -> isspace f = false ->
  rstrip (front ++ f :: ws) = front ++ [f].
Proof.
  intros Hws Hf. unfold rstrip.
  replace (front ++ f :: ws) with ((front ++ [f]) ++ ws)
    by (rewrite <- app_assoc; reflexivity).
  rewrite rev_app_distr, (lstrip_spaces ws _ Hws).
  rewrite rev_app_distr. cbn [rev app lstrip_by]. rewrite Hf.
  change (f :: rev front) with (rev [f] ++ rev front).
  rewrite <- rev_app_distr. apply rev_involutive.
Qed.

Section Columns.

Variables a b c d e f : ascii.
Variable body : str.

Let line : str := a :: b :: c :: d :: body ++ [e; f].

Lemma len_line : len line = Z.of_nat (4 + List.length body) + 2.
Proof.
  unfold line, len. cbn [List.length]. rewrite length_app. cbn [List.length]. lia.
Qed.

(** Columns 4 to [4 + k]. *)
Lemma slice_head i k :
  i = Z.of_nat (4 + k) -> (k <= List.length body)%nat ->
  slice line 4 i = firstn k body.
Proof.
  intros -> Hk. unfold slice.
  rewrite !norm_index_nonneg by lia.
  rewrite Nat2Z.id. change (Z.to_nat 4) with 4%nat.
  replace (4 + k - 4)%nat with k by lia.
  unfold line. cbn [skipn].
  rewrite firstn_app. replace (k - List.length body)%nat with 0%nat by lia.
  cbn [firstn]. apply app_nil_r.
Qed.

Lemma index_before_checksum j :
  j = -2 \/ j = len line - 2 -> norm_index line j = (4 + List.length body)%nat.
Proof.
  pose proof len_line as Hl.
  intros [-> | ->].
  - rewrite norm_index_neg by lia. lia.
  - rewrite norm_index_nonneg by lia. lia.
Qed.

(** From column [4 + k] to the checksum. *)
Lemma slice_tail i j k :
  i = Z.of_nat (4 + k) -> j = -2 \/ j = len line - 2 ->
  (k <= List.length body)%nat ->
  slice line i j = skipn k body.
Proof.
  intros -> Hj Hk. unfold slice.
  rewrite (index_before_checksum j Hj).
  rewrite norm_index_nonneg by lia. rewrite Nat2Z.id.
  replace (4 + List.length body - (4 + k))%nat with (List.length body - k)%nat by lia.
  unfold line. cbn [Nat.add skipn].
  rewrite skipn_app. replace (k - List.length body)%nat with 0%nat by lia.
  cbn [skipn]. rewrite firstn_app, length_skipn.
  rewrite Nat.sub_diag. cbn [firstn]. rewrite app_nil_r.
  apply firstn_all2. rewrite length_skipn. lia.
Qed.

End Columns.

End ColumnFacts.

(** X24: what the reader takes from a record is decided by its type
    and by the columns from the fifth to the checksum: the two
    columns of the byte count, the two of the checksum and the white
    space after them can be anything, the reader goes on in the same
    way.  Neither the count nor the checksum is verified. *)
Theorem s19_count_and_checksum_are_not_read :
  forall default_alt st ty body count count' sum sum' last last' ws ws',
    List.length ty = 2%nat ->
    List.length count = 2%nat -> List.length count' = 2%nat ->
    (8 <= List.length body)%nat ->
    Py.isspace last = false -> Py.isspace last' = false ->
    forallb Py.isspace ws = true -> forallb Py.isspace ws' = true ->
    s19_line default_alt st (ty ++ count ++ body ++ [sum; last] ++ ws)
    = s19_line default_alt st (ty ++ count' ++ body ++ [sum'; last'] ++ ws').
Proof.
  intros default_alt st ty body count count' sum sum' last last' ws ws'
    Hty Hc Hc' Hbody Hl Hl' Hws Hws'.
  destruct ty as [|a [|b [|? ?]]]; try discriminate Hty.
  destruct count as [|c [|d [|? ?]]]; try discriminate Hc.
  destruct count' as [|c' [|d' [|? ?]]]; try discriminate Hc'.
  assert (Eline : forall c d sum last ws,
            Py.isspace last = false -> forallb Py.isspace ws = true ->
            Py.rstrip ([a; b] ++ [c; d] ++ body ++ [sum; last] ++ ws)
            = a :: b :: c :: d :: body ++ [sum; last]).
  { intros c0 d0 s0 l0 w0 Hl0 Hw0.
    change ([a; b] ++ [c0; d0] ++ body ++ [s0; l0] ++ w0)
      with ((a :: b :: c0 :: d0 :: body) ++ s0 :: l0 :: w0).
    replace ((a :: b :: c0 :: d0 :: body) ++ s0 :: l0 :: w0)
      with ((a :: b :: c0 :: d0 :: body ++ [s0]) ++ l0 :: w0)
      by (cbn [app]; rewrite <- app_assoc; reflexivity).
    rewrite (ColumnFacts.rstrip_record _ l0 w0 Hw0 Hl0).
    cbn [app]. rewrite <- app_assoc. reflexivity. }
  unfold s19_line, s19_data_record.
  rewrite (Eline c d sum last ws Hl Hws), (Eline c' d' sum' last' ws' Hl' Hws').
  cbn [Py.startswith lit list_ascii_of_string].
  rewrite (ColumnFacts.slice_tail a b c d sum last body 8 _ 4 eq_refl (or_intror eq_refl))
    by lia.
  rewrite (ColumnFacts.slice_tail a b c' d' sum' last' body 8 _ 4 eq_refl (or_intror eq_refl))
    by lia.
  rewrite (ColumnFacts.slice_head a b c d sum last body 12 8 eq_refl),
    (ColumnFacts.slice_head a b c d sum last body 10 6 eq_refl),
    (ColumnFacts.slice_head a b c d sum last body 8 4 eq_refl),
    (ColumnFacts.slice_head a b c' d' sum' last' body 12 8 eq_refl),
    (ColumnFacts.slice_head a b c' d' sum' last' body 10 6 eq_refl),
    (ColumnFacts.slice_head a b c' d' sum' last' body 8 4 eq_refl) by lia.
  rewrite (ColumnFacts.slice_tail a b c d sum last body 12 (-2) 8 eq_refl (or_introl eq_refl)),
    (ColumnFacts.slice_tail a b c d sum last body 10 (-2) 6 eq_refl (or_introl eq_refl)),
    (ColumnFacts.slice_tail a b c d sum last body 8 (-2) 4 eq_refl (or_introl eq_refl)),
    (ColumnFacts.slice_tail a b c' d' sum' last' body 12 (-2) 8 eq_refl (or_introl eq_refl)),
    (ColumnFacts.slice_tail a b c' d' sum' last' body 10 (-2) 6 eq_refl (or_introl eq_refl)),
    (ColumnFacts.slice_tail a b c' d' sum' last' body 8 (-2) 4 eq_refl (or_introl eq_refl))
    by lia.
  reflexivity.
Qed.

Lemma s19_count_and_checksum_are_not_read_witness :
  s19_line 0 s19_init
    (lit "S1" ++ lit "07" ++ lit "1000DEADBEEF" ++ ["B"; "0"]%char ++ ["010"%char])
  = s19_line 0 s19_init
      (lit "S1" ++ lit "FF" ++ lit "1000DEADBEEF" ++ ["0"; "0"]%char ++ lit "  ").
Proof.
  apply (s19_count_and_checksum_are_not_read 0 s19_init (lit "S1") (lit "1000DEADBEEF")
           (lit "07") (lit "FF") "B"%char "0"%char "0"%char "0"%char
           ["010"%char] (lit "  ")).
  - reflexivity.
  - reflexivity.
  - reflexivity.
  - vm_compute. lia.
  - reflexivity.
  - reflexivity.
  - reflexivity.
  - reflexivity.
Defined.

(* ================================================================= *)
(** ** The files a run leaves behind *)

Module MainFacts.

(** A computation that writes no file, however it ends. *)
Definition writes_nothing {A} (m : M A) : Prop := files_written (fst m) = [].






Lemma nothing_exit {A} e :
  files_written [e] = [] -> writes_nothing (emit e ;; sys_exit (A := A) 1)%run.
Proof. intros H. exact H. Qed.













End MainFacts.



(** X26: without exactly one positional argument nothing is read or
    built: the run prints the help, or the message about the option
    [-a] when its number is not decimal, and ends with [sys.exit(1)]. *)
Theorem main_needs_one_argument :
  forall w options args,
    len args <> 1 ->
    main w options args
    = (PrintHelp :: (match IntelHex w with
                     | None => [PrintNoteIntelHex]
                     | Some _ => []
                     end),
       Raise (Py.SystemExit 1))
    \/ exists a, o_alt options = Some a
                 /\ Py.int a 10 = None
                 /\ main w options args
                    = ([PrintAltOptionInvalid a], Raise (Py.SystemExit 1)).
Proof.
  intros w options args Hargs.
  apply Z.eqb_neq in Hargs. unfold main. rewrite Hargs, !andb_false_r.
  destruct (o_alt options) as [[|c a]|] eqn:Ealt; cbn [truthy].
  - left. rewrite bind_ret. destruct (IntelHex w); reflexivity.
  - destruct (Py.int (c :: a) 10) as [n|] eqn:Eint.
    + left. rewrite bind_ret. destruct (IntelHex w); reflexivity.
    + right. exists (c :: a). split; [reflexivity|]. split; [exact Eint|reflexivity].
  - left. rewrite bind_ret. destruct (IntelHex w); reflexivity.
Qed.

Lemma main_needs_one_argument_witness :
  main (Examples.one_file (lit "fw.bin") (blit "boot"))
    (Examples.build_options [lit "0x08000000:fw.bin"]) []
  = (PrintHelp :: (match IntelHex (Examples.one_file (lit "fw.bin") (blit "boot")) with
                   | None => [PrintNoteIntelHex]
                   | Some _ => []
                   end),
     Raise (Py.SystemExit 1))
  \/ exists a, o_alt (Examples.build_options [lit "0x08000000:fw.bin"]) = Some a
               /\ Py.int a 10 = None
               /\ main (Examples.one_file (lit "fw.bin") (blit "boot"))
                    (Examples.build_options [lit "0x08000000:fw.bin"]) []
                  = ([PrintAltOptionInvalid a], Raise (Py.SystemExit 1)).
Proof.
  apply (main_needs_one_argument (Examples.one_file (lit "fw.bin") (blit "boot"))
           (Examples.build_options [lit "0x08000000:fw.bin"]) []).
  discriminate.
Defined.

(** X27: when binary files and Intel HEX files are given together, the
    images of the HEX files are appended to the last target of the
    binary files, whatever its alternate setting, and that one list is
    entered twice: [build] is given the last target two times. *)
Theorem hex_images_join_last_binary_target_twice :
  forall w options outfile default_alt binfiles hexfiles new closed target device,
    o_binfiles options = Some binfiles -> binfiles <> [] ->
    o_hexfiles options = Some hexfiles -> hexfiles <> [] ->
    IntelHex w = Some new ->
    binfiles_loop w default_alt binfiles [] [] None = ([], Ok (closed, target)) ->
    check_device options = ret device ->
    build_from_files w options [outfile] default_alt
    = build outfile
        (closed
         ++ [target ++ flat_map (fun hexf => hexfile_images default_alt (new hexf)) hexfiles;
             target ++ flat_map (fun hexf => hexfile_images default_alt (new hexf)) hexfiles])
        DEFAULT_NAME device.
Proof.
  intros w options outfile default_alt binfiles hexfiles new closed target device
    Hbin Hbne Hhex Hhne Hnew Hloop Hdev.
  unfold build_from_files. rewrite Hbin, Hhex, Hnew.
  destruct binfiles as [|b0 binfiles]; [contradiction|].
  destruct hexfiles as [|h0 hexfiles]; [contradiction|].
  cbn [truthy]. rewrite Hloop, BuildOutcome.bind_nil.
  rewrite bind_ret. cbv beta iota. rewrite bind_ret. cbv beta iota.
  rewrite Hdev, bind_ret. reflexivity.
Qed.

Lemma hex_images_join_last_binary_target_twice_witness :
  build_from_files GroupExamples.hex_world GroupExamples.hex_options
    [Examples.out_file] 0
  = build Examples.out_file
      ([]
       ++ [[{| address := 0x08000000; alt := 0; data := blit "boot" |}]
           ++ flat_map (fun hexf => hexfile_images 0 (GroupExamples.hex_object))
                [lit "fw.hex"];
           [{| address := 0x08000000; alt := 0; data := blit "boot" |}]
           ++ flat_map (fun hexf => hexfile_images 0 (GroupExamples.hex_object))
                [lit "fw.hex"]])
      DEFAULT_NAME DEFAULT_DEVICE.
Proof.
  apply (hex_images_join_last_binary_target_twice GroupExamples.hex_world
           GroupExamples.hex_options Examples.out_file 0
           [lit "0x08000000:fw.bin"] [lit "fw.hex"]
           (fun _ => GroupExamples.hex_object) []
           [{| address := 0x08000000; alt := 0; data := blit "boot" |}]
           DEFAULT_DEVICE).
  - reflexivity.
  - discriminate.
  - reflexivity.
  - discriminate.
  - reflexivity.
  - vm_compute. reflexivity.
  - vm_compute. reflexivity.
Defined.
